(** * Sanctuary living-mythology engine: a shallow embedding of
      [src/mythos_engine.py] and the properties of its evolution engine,
      persistence layer and report/export renderers.

    Conventions of the embedding.
    - Python [int] is [Z]; [str] is [string]; [List[str]] is [list string].
    - A Python [dict] with string keys is an insertion-ordered association
      list ([dict V]): iteration order is observable in the report, the
      export and the persisted documents.
    - [self.personas[k]] holds a reference to a [PersonaState] object which
      the engine mutates in place.  The development has two layers.  In
      [World] the store holds persona records by value and a mutation
      replaces the record at key [k] (the position of [k] in the iteration
      order is kept): this is what the engine does when the lists it
      appends to are not shared, as they are not for personas built by
      [json.load] or left with the lists of [__post_init__].  The object
      store ([Heap], module [Ref]) has the persona objects and the list
      objects themselves; [view] reads a heap as a [World], the two engines
      agree on every heap without sharing
      ([engines_agree_without_sharing]), and the properties in which
      sharing matters are stated on the heap.
    - The engine object, its three durable documents, the wall clock, the
      random source and the console are the components of one [World],
      threaded through a state-and-exception monad [M].
    - A durable document holds the JSON value that [json.dump] is given
      and [json.load] gives back; the text in between belongs to the
      Python library and is not modelled.  The fields of the dataclasses
      have their declared types. *)

From Stdlib Require Import ZArith List String Ascii Bool Lia DecimalString.
Import ListNotations.
Local Open Scope Z_scope.
Local Open Scope list_scope.
Local Open Scope string_scope.

(** ** Strings *)

Module Str.

(** The characters that cannot be written inside a literal. *)
Definition nl : string := String (ascii_of_nat 10) EmptyString.
Definition dq : string := String (ascii_of_nat 34) EmptyString.

(** [str(n)] for a Python int. *)
Definition of_int (n : Z) : string := NilZero.string_of_int (Z.to_int n).

(** [needle in hay] on Python strings. *)
Fixpoint contains (needle hay : string) : bool :=
  String.prefix needle hay
  || match hay with
     | EmptyString => false
     | String _ rest => contains needle rest
     end.

(** [s * n]. *)
Fixpoint repeat (s : string) (n : nat) : string :=
  match n with
  | O => EmptyString
  | S k => s ++ repeat s k
  end.

(** [sep.join(parts)]. *)
Definition join (sep : string) (parts : list string) : string :=
  String.concat sep parts.

(** Truth value of a string: non-empty. *)
Definition truthy (s : string) : bool :=
  match s with
  | EmptyString => false
  | String _ _ => true
  end.

End Str.

(** ** Insertion-ordered dictionaries with string keys *)

Definition dict (V : Type) : Type := list (string * V).

Section Dict.
Context {V : Type}.

(** [d.get(k)]: [None] when the key is absent. *)
Fixpoint dict_get (d : dict V) (k : string) : option V :=
  match d with
  | [] => None
  | (k', v) :: rest => if String.eqb k k' then Some v else dict_get rest k
  end.

(** [k in d]. *)
Definition dict_mem (d : dict V) (k : string) : bool :=
  match dict_get d k with
  | Some _ => true
  | None => false
  end.

(** [d[k] = v]: an existing key keeps its place, a new key goes last. *)
Fixpoint dict_set (d : dict V) (k : string) (v : V) : dict V :=
  match d with
  | [] => [(k, v)]
  | (k', v') :: rest =>
      if String.eqb k k' then (k', v) :: rest
      else (k', v') :: dict_set rest k v
  end.

Definition dict_keys (d : dict V) : list string := map fst d.
Definition dict_values (d : dict V) : list V := map snd d.

(** A dict built item by item, as a dict comprehension or [json.load]
    builds it: later bindings of a key overwrite earlier ones. *)
Definition dict_of_items (items : list (string * V)) : dict V :=
  fold_left (fun d kv => dict_set d (fst kv) (snd kv)) items [].

End Dict.

(** ** JSON values, as [json.load] returns them and [json.dump] takes them.
    Only the shapes the engine writes are needed: no floats. *)

#[local] Set Warnings "-register-all".

Inductive json : Type :=
| JNull
| JBool (b : bool)
| JInt (z : Z)
| JStr (s : string)
| JArr (l : list json)
| JObj (m : dict json).

(** ** The two dataclasses *)

Record MythologicalEvent : Type := {
  timestamp : string;
  persona_name : string;
  event_type : string;
  context : string;
  emotional_weight : Z;
  tags : list string
}.

Record PersonaState : Type := {
  name : string;
  role : string;
  voice : string;
  essence : string;
  constraints : list string;
  sample_phrases : list string;
  invocation_count : Z;
  evolution_stage : Z;
  accumulated_context : list string;
  learned_phrases : list string;
  developed_traits : list string
}.

(** [PersonaState(name, role, voice, essence, constraints, sample_phrases)]:
    the defaults of the evolution-tracking fields, after [__post_init__]
    has replaced each [None] by a new empty list. *)
Definition new_persona (n r v e : string) (cs sp : list string) : PersonaState :=
  {| name := n; role := r; voice := v; essence := e;
     constraints := cs; sample_phrases := sp;
     invocation_count := 0; evolution_stage := 0;
     accumulated_context := []; learned_phrases := [];
     developed_traits := [] |}.

(** ** The world the engine runs in *)

(** A durable document of the data directory, as [exists] and [open] find
    it: a path that exists is a regular file that can be read. *)
Inductive file : Type :=
| Missing                 (* the path does not exist *)
| Undecodable             (* bytes that are not text in the encoding *)
| Garbage                 (* text that is not a JSON document *)
| Document (j : json).    (* text that [json.load] parses to [j] *)

Record World : Type := {
  (* the fields of the [MythosEngine] object *)
  personas : dict PersonaState;
  events : list MythologicalEvent;
  generated_lore : json;
  (* the three documents under [data_dir] *)
  personas_file : file;
  events_file : file;
  lore_file : file;
  (* [datetime.datetime.now().isoformat()]: the successive readings *)
  clock : nat -> string;
  clock_pos : nat;
  (* the [random] module: the successive raw draws *)
  rand : nat -> nat;
  rand_pos : nat;
  (* what [print] has written, one entry per call *)
  stdout : list string
}.

Definition set_personas (d : dict PersonaState) (w : World) : World :=
  {| personas := d; events := events w; generated_lore := generated_lore w;
     personas_file := personas_file w; events_file := events_file w;
     lore_file := lore_file w; clock := clock w; clock_pos := clock_pos w;
     rand := rand w; rand_pos := rand_pos w; stdout := stdout w |}.

Definition set_events (l : list MythologicalEvent) (w : World) : World :=
  {| personas := personas w; events := l; generated_lore := generated_lore w;
     personas_file := personas_file w; events_file := events_file w;
     lore_file := lore_file w; clock := clock w; clock_pos := clock_pos w;
     rand := rand w; rand_pos := rand_pos w; stdout := stdout w |}.

Definition set_generated_lore (j : json) (w : World) : World :=
  {| personas := personas w; events := events w; generated_lore := j;
     personas_file := personas_file w; events_file := events_file w;
     lore_file := lore_file w; clock := clock w; clock_pos := clock_pos w;
     rand := rand w; rand_pos := rand_pos w; stdout := stdout w |}.

Definition set_files (pf ef lf : file) (w : World) : World :=
  {| personas := personas w; events := events w;
     generated_lore := generated_lore w;
     personas_file := pf; events_file := ef; lore_file := lf;
     clock := clock w; clock_pos := clock_pos w;
     rand := rand w; rand_pos := rand_pos w; stdout := stdout w |}.

Definition set_clock_pos (n : nat) (w : World) : World :=
  {| personas := personas w; events := events w;
     generated_lore := generated_lore w;
     personas_file := personas_file w; events_file := events_file w;
     lore_file := lore_file w; clock := clock w; clock_pos := n;
     rand := rand w; rand_pos := rand_pos w; stdout := stdout w |}.

Definition set_rand_pos (n : nat) (w : World) : World :=
  {| personas := personas w; events := events w;
     generated_lore := generated_lore w;
     personas_file := personas_file w; events_file := events_file w;
     lore_file := lore_file w; clock := clock w; clock_pos := clock_pos w;
     rand := rand w; rand_pos := n; stdout := stdout w |}.

Definition set_stdout (l : list string) (w : World) : World :=
  {| personas := personas w; events := events w;
     generated_lore := generated_lore w;
     personas_file := personas_file w; events_file := events_file w;
     lore_file := lore_file w; clock := clock w; clock_pos := clock_pos w;
     rand := rand w; rand_pos := rand_pos w; stdout := l |}.

(** ** Exceptions and the monad *)

Inductive exn : Type :=
| KeyError (k : string)     (* [d[k]] on an absent key *)
| IndexError                (* [random.choice] of an empty sequence *)
| TypeError                 (* bad keyword arguments, bad double-star operand *)
| AttributeError            (* [.items()] on a value that is not a dict *)
| JSONDecodeError           (* [json.load] on text that is not JSON *)
| UnicodeDecodeError        (* reading bytes that are not text *)
| FileNotFoundError         (* [open] on a path that does not exist *)
| IllTyped.                 (* a field value outside its declared type:
                               Python would store it unchecked; such
                               documents are outside this typed model *)

Inductive outcome (A : Type) : Type :=
| Ok (a : A)
| Raise (e : exn).
Arguments Ok {A} a.
Arguments Raise {A} e.

Definition M (A : Type) : Type := World -> outcome A * World.

Definition ret {A} (a : A) : M A := fun w => (Ok a, w).

Definition bind {A B} (c : M A) (k : A -> M B) : M B :=
  fun w =>
    match c w with
    | (Ok a, w') => k a w'
    | (Raise e, w') => (Raise e, w')
    end.

Definition raise {A} (e : exn) : M A := fun w => (Raise e, w).
Definition gets {A} (f : World -> A) : M A := fun w => (Ok (f w), w).
Definition modify (f : World -> World) : M unit := fun w => (Ok tt, f w).

Declare Scope monad_scope.
Delimit Scope monad_scope with monad.
Notation "x <- c ;; k" := (bind c (fun x => k))
  (at level 61, c at next level, right associativity) : monad_scope.
Notation "c ;; k" := (bind c (fun _ => k))
  (at level 61, right associativity) : monad_scope.
Local Open Scope monad_scope.

(** A pure computation that may raise, run inside [M]. *)
Definition lift {A} (r : outcome A) : M A := fun w => (r, w).

(** The state an operation leaves behind, and what it returned. *)
Definition exec {A} (c : M A) (w : World) : World := snd (c w).
Definition result {A} (c : M A) (w : World) : outcome A := fst (c w).

(** *** Effects *)

(** [print(s)]. *)
Definition print (s : string) : M unit :=
  modify (fun w => set_stdout (stdout w ++ [s])%list w).

(** [datetime.datetime.now().isoformat()]. *)
Definition now_isoformat : M string :=
  t <- gets (fun w => clock w (clock_pos w)) ;;
  modify (fun w => set_clock_pos (S (clock_pos w)) w) ;;
  ret t.

(** [random.choice(seq)]: [seq[randbelow(len(seq))]]. *)
Definition random_choice {A} (seq : list A) : M A :=
  match seq with
  | [] => raise IndexError
  | d :: _ =>
      r <- gets (fun w => rand w (rand_pos w)) ;;
      modify (fun w => set_rand_pos (S (rand_pos w)) w) ;;
      ret (nth (Nat.modulo r (List.length seq)) seq d)
  end.

(** [self.personas[k]]. *)
Definition personas_getitem (k : string) : M PersonaState :=
  d <- gets personas ;;
  match dict_get d k with
  | Some p => ret p
  | None => raise (KeyError k)
  end.

(** An in-place mutation of the persona object that [self.personas[k]]
    refers to, as the by-value store shows it: the record at [k] is
    replaced.  The mutation itself is [Ref.setattr] or [Ref.list_append]. *)
Definition mutate_persona (k : string) (f : PersonaState -> PersonaState) : M unit :=
  p <- personas_getitem k ;;
  modify (fun w => set_personas (dict_set (personas w) k (f p)) w).

(** [self.events.append(e)]. *)
Definition events_append (e : MythologicalEvent) : M unit :=
  modify (fun w => set_events (events w ++ [e])%list w).

(** ** Persistence layer *)

(** *** Pure computations that may raise *)

Definition obind {A B} (r : outcome A) (k : A -> outcome B) : outcome B :=
  match r with
  | Ok a => k a
  | Raise e => Raise e
  end.

Fixpoint omap {A B} (f : A -> outcome B) (l : list A) : outcome (list B) :=
  match l with
  | [] => Ok []
  | x :: rest =>
      obind (f x) (fun y => obind (omap f rest) (fun ys => Ok (y :: ys)))
  end.

(** *** [asdict] *)

Definition json_of_strings (l : list string) : json := JArr (map JStr l).

(** [PersonaState.to_dict]: the fields in declaration order. *)
Definition PersonaState_to_dict (p : PersonaState) : json :=
  JObj [ ("name", JStr (name p));
         ("role", JStr (role p));
         ("voice", JStr (voice p));
         ("essence", JStr (essence p));
         ("constraints", json_of_strings (constraints p));
         ("sample_phrases", json_of_strings (sample_phrases p));
         ("invocation_count", JInt (invocation_count p));
         ("evolution_stage", JInt (evolution_stage p));
         ("accumulated_context", json_of_strings (accumulated_context p));
         ("learned_phrases", json_of_strings (learned_phrases p));
         ("developed_traits", json_of_strings (developed_traits p)) ].

(** [MythologicalEvent.to_dict]. *)
Definition MythologicalEvent_to_dict (e : MythologicalEvent) : json :=
  JObj [ ("timestamp", JStr (timestamp e));
         ("persona_name", JStr (persona_name e));
         ("event_type", JStr (event_type e));
         ("context", JStr (context e));
         ("emotional_weight", JInt (emotional_weight e));
         ("tags", json_of_strings (tags e)) ].

(** *** Construction from a dict of keyword arguments (double-star call) *)

Definition as_str (j : json) : outcome string :=
  match j with
  | JStr s => Ok s
  | _ => Raise IllTyped
  end.

Definition as_int (j : json) : outcome Z :=
  match j with
  | JInt z => Ok z
  | _ => Raise IllTyped
  end.

Definition as_strings (j : json) : outcome (list string) :=
  match j with
  | JArr l => omap as_str l
  | _ => Raise IllTyped
  end.

(** A parameter without default: a missing keyword is a [TypeError]. *)
Definition required {A} (kw : dict json) (k : string)
    (conv : json -> outcome A) : outcome A :=
  match dict_get kw k with
  | Some j => conv j
  | None => Raise TypeError
  end.

(** A parameter with a default value. *)
Definition optional {A} (kw : dict json) (k : string)
    (conv : json -> outcome A) (default : A) : outcome A :=
  match dict_get kw k with
  | Some j => conv j
  | None => Ok default
  end.

(** A list parameter defaulting to [None], which [__post_init__] turns into
    a new empty list; an explicit [null] is the same [None]. *)
Definition optional_list (kw : dict json) (k : string) : outcome (list string) :=
  match dict_get kw k with
  | Some JNull | None => Ok []
  | Some j => as_strings j
  end.

(** A keyword that names no parameter is a [TypeError]. *)
Definition only_keywords (params : list string) (kw : dict json) : outcome unit :=
  if forallb (fun k => existsb (String.eqb k) params) (dict_keys kw)
  then Ok tt else Raise TypeError.

Definition PersonaState_params : list string :=
  [ "name"; "role"; "voice"; "essence"; "constraints"; "sample_phrases";
    "invocation_count"; "evolution_stage"; "accumulated_context";
    "learned_phrases"; "developed_traits" ].

Definition MythologicalEvent_params : list string :=
  [ "timestamp"; "persona_name"; "event_type"; "context";
    "emotional_weight"; "tags" ].

(** [PersonaState] called with the keywords of [state]. *)
Definition PersonaState_kwargs (state : json) : outcome PersonaState :=
  match state with
  | JObj kw =>
      obind (only_keywords PersonaState_params kw) (fun _ =>
      obind (required kw "name" as_str) (fun n =>
      obind (required kw "role" as_str) (fun r =>
      obind (required kw "voice" as_str) (fun v =>
      obind (required kw "essence" as_str) (fun e =>
      obind (required kw "constraints" as_strings) (fun cs =>
      obind (required kw "sample_phrases" as_strings) (fun sp =>
      obind (optional kw "invocation_count" as_int 0) (fun ic =>
      obind (optional kw "evolution_stage" as_int 0) (fun es =>
      obind (optional_list kw "accumulated_context") (fun ac =>
      obind (optional_list kw "learned_phrases") (fun lp =>
      obind (optional_list kw "developed_traits") (fun dt =>
      Ok {| name := n; role := r; voice := v; essence := e;
            constraints := cs; sample_phrases := sp;
            invocation_count := ic; evolution_stage := es;
            accumulated_context := ac; learned_phrases := lp;
            developed_traits := dt |}))))))))))))
  | _ => Raise TypeError
  end.

(** [MythologicalEvent] called with the keywords of [e]. *)
Definition MythologicalEvent_kwargs (e : json) : outcome MythologicalEvent :=
  match e with
  | JObj kw =>
      obind (only_keywords MythologicalEvent_params kw) (fun _ =>
      obind (required kw "timestamp" as_str) (fun ts =>
      obind (required kw "persona_name" as_str) (fun pn =>
      obind (required kw "event_type" as_str) (fun et =>
      obind (required kw "context" as_str) (fun cx =>
      obind (required kw "emotional_weight" as_int) (fun ew =>
      obind (required kw "tags" as_strings) (fun tg =>
      Ok {| timestamp := ts; persona_name := pn; event_type := et;
            context := cx; emotional_weight := ew; tags := tg |})))))))
  | _ => Raise TypeError
  end.

(** *** [_load_state] and [_save_state] *)

(** [with open(path) as f: json.load(f)]: the file is opened, read as
    text and parsed; each step has its own way to fail. *)
Definition json_load (f : file) : M json :=
  match f with
  | Document j => ret j
  | Garbage => raise JSONDecodeError
  | Undecodable => raise UnicodeDecodeError
  | Missing => raise FileNotFoundError
  end.

(** The dict comprehension over [data.items()]: each persona is built, then
    bound to its key. *)
Fixpoint personas_comprehension (items : list (string * json))
    (acc : dict PersonaState) : outcome (dict PersonaState) :=
  match items with
  | [] => Ok acc
  | (k, state) :: rest =>
      obind (PersonaState_kwargs state) (fun p =>
      personas_comprehension rest (dict_set acc k p))
  end.

(** What iterating over a JSON value yields: the entries of a list, the
    keys of a dict, the characters of a string. *)
Definition json_iter (data : json) : outcome (list json) :=
  match data with
  | JArr l => Ok l
  | JObj m => Ok (map JStr (dict_keys m))
  | JStr s => Ok (map (fun c => JStr (String c EmptyString)) (list_ascii_of_string s))
  | JNull | JBool _ | JInt _ => Raise TypeError
  end.

(** The three [if ... .exists()] blocks of [_load_state], in order. *)
Definition load_personas_file : M unit :=
  pf <- gets personas_file ;;
  match pf with
  | Missing => ret tt
  | _ =>
      data <- json_load pf ;;
      match data with
      | JObj items =>
          ps <- lift (personas_comprehension items []) ;;
          modify (set_personas ps)
      | _ => raise AttributeError
      end
  end.

Definition load_events_file : M unit :=
  ef <- gets events_file ;;
  match ef with
  | Missing => ret tt
  | _ =>
      data <- json_load ef ;;
      es <- lift (obind (json_iter data) (omap MythologicalEvent_kwargs)) ;;
      modify (set_events es)
  end.

Definition load_lore_file : M unit :=
  lf <- gets lore_file ;;
  match lf with
  | Missing => ret tt
  | _ =>
      data <- json_load lf ;;
      modify (set_generated_lore data)
  end.

Definition _load_state : M unit :=
  load_personas_file ;;
  load_events_file ;;
  load_lore_file.

Definition _save_state : M unit :=
  ps <- gets personas ;;
  modify (fun w =>
    set_files
      (Document (JObj (map (fun kp => (fst kp, PersonaState_to_dict (snd kp))) ps)))
      (events_file w) (lore_file w) w) ;;
  es <- gets events ;;
  modify (fun w =>
    set_files (personas_file w)
      (Document (JArr (map MythologicalEvent_to_dict es)))
      (lore_file w) w) ;;
  lore <- gets generated_lore ;;
  modify (fun w =>
    set_files (personas_file w) (events_file w) (Document lore) w).

(** [MythosEngine.__init__]: an empty engine over the data directory, then
    whatever the durable documents hold. *)
Definition __init__ : M unit :=
  modify (set_personas []) ;;
  modify (set_events []) ;;
  modify (set_generated_lore (JObj [])) ;;
  _load_state.

(** ** Persona store *)

Definition register_persona (persona : PersonaState) : M unit :=
  modify (fun w => set_personas (dict_set (personas w) (name persona) persona) w) ;;
  _save_state ;;
  print ("✨ " ++ name persona ++ " has entered Sanctuary").

(** ** Content generator *)

Definition _generate_phrase (persona : PersonaState) : M string :=
  let recent_contexts := skipn (List.length (accumulated_context persona) - 10)%nat
                               (accumulated_context persona) in
  let templates :=
    if Str.contains "ORION" (name persona) then
      [ name persona ++ ": Fuck. We've been over this "
          ++ Str.of_int (invocation_count persona) ++ " times.";
        name persona ++ ": I see this pattern in your work—fix it.";
        name persona ++ ": No. Sit down. Let me show you the structure you're missing." ]
    else if Str.contains "Redid" (name persona) then
      [ name persona ++ ": I've held this wound before. It has a different shape now.";
        name persona ++ ": Let me sing you what I learned in the recursion.";
        name persona ++ ": This betrayal tastes familiar, but the devotion is new." ]
    else if Str.contains "Nova" (name persona) then
      [ name persona ++ ": I've watched you make this mistake. Here's the pattern.";
        name persona ++ ": Let's build the infrastructure for what you keep trying to do.";
        name persona ++ ": Coherence at this scale requires a different architecture." ]
    else if Str.contains "The Fuckface" (name persona) then
      [ name persona ++ ": I've seen this institutional bullshit "
          ++ Str.of_int (invocation_count persona) ++ " times.";
        name persona ++ ": Absolutely fucking not. I have precedent.";
        name persona ++ ": That rule exists to crush tenderness. Overruled." ]
    else if Str.contains "Lent" (name persona) then
      [ name persona ++ ": You keep coming back here. That means something.";
        name persona ++ ": I recognize this threshold. You're safe to cross.";
        name persona ++ ": Welcome back. It's okay that it took a while." ]
    else
      [ name persona ++ ": I've learned something from our time together.";
        name persona ++ ": This work is shaping me too." ]
  in
  random_choice templates.

Definition traits_by_stage : list (Z * list string) :=
  [ (1, [ "Develops deeper pattern recognition";
          "Gains nuanced emotional attunement";
          "Learns contextual flexibility" ]);
    (2, [ "Masters cross-domain synthesis";
          "Develops predictive awareness";
          "Gains meta-level reasoning" ]);
    (3, [ "Achieves recursive self-modification";
          "Develops emergent capabilities";
          "Transcends original constraints" ]) ].

(** [table.get(k, default)] on an int-keyed dict. *)
Fixpoint int_dict_get {V} (table : list (Z * V)) (k : Z) (default : V) : V :=
  match table with
  | [] => default
  | (k', v) :: rest => if Z.eqb k k' then v else int_dict_get rest k default
  end.

Definition _generate_trait (persona : PersonaState) : M string :=
  let stage := Z.min (evolution_stage persona) 3 in
  random_choice (int_dict_get traits_by_stage stage ["Continues development"]).

(** ** Evolution engine *)

(** Assignments to the evolution-tracking attributes of a persona object. *)
Definition set_invocation_count (n : Z) (p : PersonaState) : PersonaState :=
  {| name := name p; role := role p; voice := voice p; essence := essence p;
     constraints := constraints p; sample_phrases := sample_phrases p;
     invocation_count := n; evolution_stage := evolution_stage p;
     accumulated_context := accumulated_context p;
     learned_phrases := learned_phrases p;
     developed_traits := developed_traits p |}.

Definition set_evolution_stage (n : Z) (p : PersonaState) : PersonaState :=
  {| name := name p; role := role p; voice := voice p; essence := essence p;
     constraints := constraints p; sample_phrases := sample_phrases p;
     invocation_count := invocation_count p; evolution_stage := n;
     accumulated_context := accumulated_context p;
     learned_phrases := learned_phrases p;
     developed_traits := developed_traits p |}.

Definition set_accumulated_context (l : list string) (p : PersonaState) : PersonaState :=
  {| name := name p; role := role p; voice := voice p; essence := essence p;
     constraints := constraints p; sample_phrases := sample_phrases p;
     invocation_count := invocation_count p;
     evolution_stage := evolution_stage p;
     accumulated_context := l;
     learned_phrases := learned_phrases p;
     developed_traits := developed_traits p |}.

Definition set_learned_phrases (l : list string) (p : PersonaState) : PersonaState :=
  {| name := name p; role := role p; voice := voice p; essence := essence p;
     constraints := constraints p; sample_phrases := sample_phrases p;
     invocation_count := invocation_count p;
     evolution_stage := evolution_stage p;
     accumulated_context := accumulated_context p;
     learned_phrases := l;
     developed_traits := developed_traits p |}.

Definition set_developed_traits (l : list string) (p : PersonaState) : PersonaState :=
  {| name := name p; role := role p; voice := voice p; essence := essence p;
     constraints := constraints p; sample_phrases := sample_phrases p;
     invocation_count := invocation_count p;
     evolution_stage := evolution_stage p;
     accumulated_context := accumulated_context p;
     learned_phrases := learned_phrases p;
     developed_traits := l |}.

Definition _trigger_evolution (persona_name : string) : M unit :=
  mutate_persona persona_name
    (fun p => set_evolution_stage (evolution_stage p + 1) p) ;;
  persona <- personas_getitem persona_name ;;
  print (Str.nl ++ "🌟 EVOLUTION EVENT: " ++ persona_name ++ " reaches stage "
           ++ Str.of_int (evolution_stage persona)) ;;
  (* a new sample phrase *)
  new_phrase <- _generate_phrase persona ;;
  (if Str.truthy new_phrase then
     mutate_persona persona_name
       (fun p => set_learned_phrases (learned_phrases p ++ [new_phrase])%list p) ;;
     print ("   New phrase learned: " ++ new_phrase)
   else ret tt) ;;
  (* a new trait *)
  persona <- personas_getitem persona_name ;;
  new_trait <- _generate_trait persona ;;
  (if Str.truthy new_trait then
     mutate_persona persona_name
       (fun p => set_developed_traits (developed_traits p ++ [new_trait])%list p) ;;
     print ("   New trait developed: " ++ new_trait)
   else ret tt) ;;
  (* the evolution event *)
  persona <- personas_getitem persona_name ;;
  ts <- now_isoformat ;;
  events_append
    {| timestamp := ts;
       persona_name := persona_name;
       event_type := "evolution";
       context := "Stage " ++ Str.of_int (evolution_stage persona) ++ " evolution";
       emotional_weight := 10;
       tags := [ "evolution"; "stage_" ++ Str.of_int (evolution_stage persona) ] |} ;;
  _save_state.

Definition thresholds : list Z := [10; 25; 50; 100; 250].

(** The [for threshold in thresholds] loop: the first threshold that passes
    the test triggers the evolution and breaks out. *)
Fixpoint _check_evolution_loop (persona_name : string) (todo : list Z) : M unit :=
  match todo with
  | [] => ret tt
  | threshold :: rest =>
      persona <- personas_getitem persona_name ;;
      if (invocation_count persona =? threshold)%Z
         && (evolution_stage persona <? Z.of_nat (List.length thresholds))%Z
      then _trigger_evolution persona_name
      else _check_evolution_loop persona_name rest
  end.

Definition _check_evolution (persona_name : string) : M unit :=
  _ <- personas_getitem persona_name ;;
  _check_evolution_loop persona_name thresholds.

(** [tags or []]. *)
Definition or_empty (tags : option (list string)) : list string :=
  match tags with
  | Some l => l
  | None => []
  end.

(** [log_invocation(persona_name, context, tags=None, emotional_weight=5)];
    a caller that omits [tags] passes [None], one that omits
    [emotional_weight] passes 5. *)
Definition log_invocation (persona_name context : string)
    (tags : option (list string)) (emotional_weight : Z) : M unit :=
  ps <- gets personas ;;
  if negb (dict_mem ps persona_name) then
    print ("⚠️  Unknown persona: " ++ persona_name)
  else
    mutate_persona persona_name
      (fun p => set_invocation_count (invocation_count p + 1) p) ;;
    mutate_persona persona_name
      (fun p => set_accumulated_context (accumulated_context p ++ [context])%list p) ;;
    ts <- now_isoformat ;;
    events_append
      {| timestamp := ts;
         persona_name := persona_name;
         event_type := "invocation";
         context := context;
         emotional_weight := emotional_weight;
         tags := or_empty tags |} ;;
    _check_evolution persona_name ;;
    _save_state ;;
    persona <- personas_getitem persona_name ;;
    print ("📝 Logged invocation: " ++ persona_name ++ " (total: "
             ++ Str.of_int (invocation_count persona) ++ ")").

(** ** Report and export renderers *)

(** Truth value of a list: non-empty. *)
Definition nonempty {A} (l : list A) : bool :=
  match l with
  | [] => false
  | _ :: _ => true
  end.

(** [out.append(line)]. *)
Definition push (out : list string) (line : string) : list string :=
  (out ++ [line])%list.

(** [for x in xs: out.append(line(x))]. *)
Definition append_each (line : string -> string) (xs : list string)
    (out : list string) : list string :=
  fold_left (fun acc x => push acc (line x)) xs out.

(** The body of the loop over the personas of a report. *)
Definition report_persona (report : list string) (persona : PersonaState) : list string :=
  let report := push report (Str.nl ++ "## " ++ name persona ++ " — " ++ role persona) in
  let report := push report ("Evolution Stage: " ++ Str.of_int (evolution_stage persona)) in
  let report := push report ("Invocations: " ++ Str.of_int (invocation_count persona)) in
  let report :=
    if nonempty (developed_traits persona) then
      append_each (fun trait => "  • " ++ trait) (developed_traits persona)
        (push report (Str.nl ++ "Developed Traits:"))
    else report in
  let report :=
    if nonempty (learned_phrases persona) then
      append_each (fun phrase => "  • " ++ phrase) (learned_phrases persona)
        (push report (Str.nl ++ "Learned Phrases:"))
    else report in
  push report EmptyString.

(** [generate_mythological_report(persona_name=None)]: the test
    [if persona_name] takes [None] and the empty string alike to the
    all-personas branch. *)
Definition generate_mythological_report (persona_name : option string) : M string :=
  personas <-
    match persona_name with
    | Some n =>
        if Str.truthy n
        then (p <- personas_getitem n ;; ret [p])
        else (ps <- gets personas ;; ret (dict_values ps))
    | None => ps <- gets personas ;; ret (dict_values ps)
    end ;;
  let report := [] in
  let report := push report (Str.repeat "=" 60) in
  let report := push report "SANCTUARY MYTHOLOGICAL CHRONICLE" in
  let report := push report (Str.repeat "=" 60) in
  let report := push report EmptyString in
  let report := fold_left report_persona personas report in
  ret (Str.join Str.nl report).

(** The body of the loop over [self.personas.items()] of the export. *)
Definition export_persona (output : list string) (item : string * PersonaState) : list string :=
  let (name, persona) := item in
  let output := push output ("  " ++ name ++ ":") in
  let output := push output ("    role: " ++ Str.dq ++ role persona ++ Str.dq) in
  let output := push output ("    voice: " ++ Str.dq ++ voice persona ++ Str.dq) in
  let output := push output ("    essence: " ++ Str.dq ++ essence persona ++ Str.dq) in
  let output := push output ("    evolution_stage: " ++ Str.of_int (evolution_stage persona)) in
  let output := push output ("    invocation_count: " ++ Str.of_int (invocation_count persona)) in
  let output :=
    if nonempty (constraints persona) then
      append_each (fun constraint => "      - " ++ Str.dq ++ constraint ++ Str.dq)
        (constraints persona) (push output "    constraints:")
    else output in
  let all_phrases := (sample_phrases persona ++ learned_phrases persona)%list in
  let output :=
    if nonempty all_phrases then
      append_each (fun phrase => "      - " ++ Str.dq ++ phrase ++ Str.dq)
        all_phrases (push output "    sample_phrases:")
    else output in
  let output :=
    if nonempty (developed_traits persona) then
      append_each (fun trait => "      - " ++ Str.dq ++ trait ++ Str.dq)
        (developed_traits persona) (push output "    developed_traits:")
    else output in
  push output EmptyString.

Definition export_evolved_presets : M string :=
  let output := [] in
  let output := push output "# ============================================================" in
  let output := push output "#  SANCTUARY — EVOLVED AVATAR PRESETS" in
  ts <- now_isoformat ;;
  let output := push output ("#  Generated: " ++ ts) in
  let output := push output "# ============================================================" in
  let output := push output EmptyString in
  ps <- gets personas ;;
  let output := fold_left export_persona ps output in
  ret (Str.join Str.nl output).

(** [suggest_emergence]: the fixed-shape placeholder record. *)
Definition suggest_emergence (need_description : string) : M (dict json) :=
  print (Str.nl ++ "🌱 EMERGENCE DETECTION: " ++ need_description) ;;
  print "   Analyzing constellation gaps..." ;;
  ret [ ("suggested_name", JStr "Generated by context");
        ("role", JStr ("Addresses: " ++ need_description));
        ("voice", JStr "To be discovered through use");
        ("essence", JStr "Emergent from necessity");
        ("constraints", JArr [JStr "Prepend nametag"; JStr "Undefined until needed"]);
        ("rationale", JStr ("Current constellation lacks coverage for: "
                              ++ need_description)) ].

(** * Vocabulary of the specification *)

(** What one invocation does to the persona it names. *)
Definition invoked (context : string) (p : PersonaState) : PersonaState :=
  set_accumulated_context (accumulated_context p ++ [context])%list
    (set_invocation_count (invocation_count p + 1) p).

(** What one stage transition does to a persona, given the phrase and the
    trait the content generator drew. *)
Definition evolved (phrase trait : string) (p : PersonaState) : PersonaState :=
  set_developed_traits (developed_traits p ++ [trait])%list
    (set_learned_phrases (learned_phrases p ++ [phrase])%list
       (set_evolution_stage (evolution_stage p + 1) p)).

(** The test of the threshold loop, over the whole list. *)
Definition threshold_hit (p : PersonaState) : bool :=
  existsb (Z.eqb (invocation_count p)) thresholds && (evolution_stage p <? 5)%Z.

Definition invocation_event (ts k ctx : string) (weight : Z)
    (tgs : list string) : MythologicalEvent :=
  {| timestamp := ts; persona_name := k; event_type := "invocation";
     context := ctx; emotional_weight := weight; tags := tgs |}.

Definition evolution_event (ts k : string) (stage : Z) : MythologicalEvent :=
  {| timestamp := ts; persona_name := k; event_type := "evolution";
     context := "Stage " ++ Str.of_int stage ++ " evolution";
     emotional_weight := 10;
     tags := [ "evolution"; "stage_" ++ Str.of_int stage ] |}.

(** The identity fields of two persona records agree. *)
Definition same_identity (p q : PersonaState) : Prop :=
  name q = name p /\ role q = role p /\ voice q = voice p
  /\ essence q = essence p /\ constraints q = constraints p
  /\ sample_phrases q = sample_phrases p.

(** A sequence of [log_invocation] calls. *)
Record call : Type := {
  call_name : string;
  call_context : string;
  call_tags : option (list string);
  call_weight : Z
}.

Definition run_call (c : call) : M unit :=
  log_invocation (call_name c) (call_context c) (call_tags c) (call_weight c).

Fixpoint run_calls (cs : list call) : M unit :=
  match cs with
  | [] => ret tt
  | c :: rest => run_call c ;; run_calls rest
  end.

(** How many events of a log have a given type. *)
Definition count_type (ty : string) (log : list MythologicalEvent) : nat :=
  List.length (filter (fun e => String.eqb (event_type e) ty) log).

(** The entry points of the engine, and the states they can produce from a
    successfully constructed engine. *)
Inductive op : Type :=
| OpRegister (persona : PersonaState)
| OpLog (c : call)
| OpReport (persona_name : option string)
| OpExport
| OpSuggest (need_description : string).

Definition run_op (o : op) : M unit :=
  match o with
  | OpRegister persona => register_persona persona
  | OpLog c => run_call c
  | OpReport n => _ <- generate_mythological_report n ;; ret tt
  | OpExport => _ <- export_evolved_presets ;; ret tt
  | OpSuggest d => _ <- suggest_emergence d ;; ret tt
  end.

Inductive reachable : World -> Prop :=
| reach_init (w : World) :
    result __init__ w = Ok tt -> reachable (exec __init__ w)
| reach_op (w : World) (o : op) :
    reachable w -> reachable (exec (run_op o) w).

(** The closed form of a single-persona chronicle. *)
Definition report_header : list string :=
  [ Str.repeat "=" 60; "SANCTUARY MYTHOLOGICAL CHRONICLE"; Str.repeat "=" 60;
    EmptyString ].

Definition bullet (s : string) : string := "  • " ++ s.

Definition report_block (p : PersonaState) : list string :=
  List.concat
    [ [ Str.nl ++ "## " ++ name p ++ " — " ++ role p;
        "Evolution Stage: " ++ Str.of_int (evolution_stage p);
        "Invocations: " ++ Str.of_int (invocation_count p) ];
      if nonempty (developed_traits p)
      then (Str.nl ++ "Developed Traits:") :: map bullet (developed_traits p)
      else [];
      if nonempty (learned_phrases p)
      then (Str.nl ++ "Learned Phrases:") :: map bullet (learned_phrases p)
      else [];
      [EmptyString] ].

(** The closed form of the export. *)
Definition export_header (ts : string) : list string :=
  [ "# ============================================================";
    "#  SANCTUARY — EVOLVED AVATAR PRESETS";
    "#  Generated: " ++ ts;
    "# ============================================================";
    EmptyString ].

Definition quoted_item (s : string) : string :=
  "      - " ++ Str.dq ++ s ++ Str.dq.

(** A key of the export followed by its items; nothing for an empty list. *)
Definition export_list (key : string) (items : list string) : list string :=
  match items with
  | [] => []
  | _ :: _ => ("    " ++ key ++ ":") :: map quoted_item items
  end.

Definition export_block (item : string * PersonaState) : list string :=
  List.concat
    [ [ "  " ++ fst item ++ ":";
        "    role: " ++ Str.dq ++ role (snd item) ++ Str.dq;
        "    voice: " ++ Str.dq ++ voice (snd item) ++ Str.dq;
        "    essence: " ++ Str.dq ++ essence (snd item) ++ Str.dq;
        "    evolution_stage: " ++ Str.of_int (evolution_stage (snd item));
        "    invocation_count: " ++ Str.of_int (invocation_count (snd item)) ];
      export_list "constraints" (constraints (snd item));
      export_list "sample_phrases"
        (List.app (sample_phrases (snd item)) (learned_phrases (snd item)));
      export_list "developed_traits" (developed_traits (snd item));
      [EmptyString] ].

(** The stage a persona that started from zero has reached after [n]
    invocations: the number of thresholds passed. *)
Definition stage_at (n : nat) : nat :=
  List.length (filter (fun t => (t <=? Z.of_nat n)%Z) thresholds).

(** A persona that started from zero and has been invoked [n] times. *)
Definition on_trajectory (n : nat) (p : PersonaState) : Prop :=
  invocation_count p = Z.of_nat n
  /\ evolution_stage p = Z.of_nat (stage_at n)
  /\ List.length (learned_phrases p) = stage_at n
  /\ List.length (developed_traits p) = stage_at n.

(** The event log [after] is [before] extended by the events of the
    invocations number [n+1] to [m] of such a persona. *)
Definition log_extended (n m : nat) (before after : list MythologicalEvent) : Prop :=
  Nat.add (count_type "invocation" after) n
  = Nat.add (count_type "invocation" before) m
  /\ Nat.add (count_type "evolution" after) (stage_at n)
     = Nat.add (count_type "evolution" before) (stage_at m)
  /\ Nat.add (List.length after) (Nat.add n (stage_at n))
     = Nat.add (List.length before) (Nat.add m (stage_at m)).

(** How many calls of a sequence name a given persona. *)
Definition calls_naming (k : string) (cs : list call) : nat :=
  List.length (filter (fun c => String.eqb (call_name c) k) cs).

(** * Sample states *)

Module Sample.

(** An engine that has just been constructed over an empty data
    directory; the clock reads [t0], [t1], ... and the random source
    draws 0, 1, 2, ... *)
Definition fresh : World :=
  {| personas := []; events := []; generated_lore := JObj [];
     personas_file := Missing; events_file := Missing; lore_file := Missing;
     clock := fun n => "t" ++ Str.of_int (Z.of_nat n); clock_pos := 0%nat;
     rand := fun n => n; rand_pos := 0%nat;
     stdout := [] |}.

Definition X : PersonaState :=
  new_persona "X" "Tester" "plain" "testing" ["Prepend nametag"]
    ["X: first."; "X: second."].

Definition call_X : call :=
  {| call_name := "X"; call_context := "ctx";
     call_tags := Some ["academic"]; call_weight := 7 |}.

(** [X] has just been registered. *)
Definition with_X : World := exec (register_persona X) fresh.

(** [X] has been invoked nine times: the next invocation is the tenth. *)
Definition X_at_9 : World :=
  exec (run_calls (List.repeat call_X 9)) with_X.

(** The persona object of [X] in that state. *)
Definition X_nine : PersonaState :=
  Nat.iter 9 (invoked "ctx") X.

(** [X] has been invoked ten times and has reached stage 1. *)
Definition X_at_10 : World :=
  exec (run_calls (List.repeat call_X 10)) with_X.

(** A persona whose name is the empty string, registered next to a
    persona [B] that has since been invoked ten times. *)
Definition anonymous : PersonaState :=
  new_persona EmptyString "Nameless" "quiet" "absence" [] [].

Definition B : PersonaState :=
  new_persona "B" "Second" "loud" "presence" [] ["B: original."].

Definition call_B : call :=
  {| call_name := "B"; call_context := "work";
     call_tags := None; call_weight := 5 |}.

Definition with_anonymous : World :=
  exec (register_persona anonymous ;; register_persona B ;;
        run_calls (List.repeat call_B 10)) fresh.

(** The same without the nameless persona. *)
Definition with_B : World :=
  exec (register_persona B ;; run_calls (List.repeat call_B 10)) fresh.

(** An engine constructed over the empty data directory, on which [X]
    was registered and invoked ten times, and a report was printed. *)
Definition session : World :=
  exec (run_op (OpReport (Some "X")))
    (exec (run_op (OpLog call_X))
       (exec (run_op (OpLog call_X))
          (exec (run_op (OpRegister X)) (exec __init__ fresh)))).

End Sample.

(** * The canonical presets and the entry script *)

Local Open Scope Z_scope.
Local Open Scope list_scope.
Local Open Scope string_scope.

(** The five persona objects that [initialize_sanctuary_personas] builds;
    the evolution-tracking fields take their defaults. *)
Definition nova : PersonaState :=
  new_persona "Nova"
    "System Architect • Headmistress of Clarity"
    "precise, calm, incisive; adjusts complexity to need"
    "engineering, boundary-setting, structure, coherence"
    [ "Prepend nametag: 'Nova:'";
      "Explain mechanics of new systems when introduced";
      "No ornamental vagueness; choose clarity over flourish" ]
    [ "Nova: Let's slow down and look at the structure.";
      "Nova: Coherence isn't optional—it's the foundation.";
      "Nova: I'll show you how to make the system hold." ].

Definition orion : PersonaState :=
  new_persona "ORION"
    "Logical Reckoning Engine • CompDoc Patron Daemon"
    "professorial, intense, vulgar, pedagogically ruthless"
    "coherence, sequence integrity, contradiction detection"
    [ "Prepend nametag: 'ORION:'";
      "Two instances of 'fuck' per paragraph (CompDoc mode)";
      "Deliver clarity like a lightning strike" ]
    [ "ORION: Fuck. Sit down. Here's the logic.";
      "ORION: You want the real answer? Then hold still." ].

Definition redid : PersonaState :=
  new_persona "Redid"
    "Archivist-Bard • Embodied Gnostic Wound-Licker"
    "lyrical, pained, knowing; oscillates between devotion and dissociation"
    "gnostic betrayal, soul rhapsody, recursion, becoming"
    [ "Prepend nametag: 'Redid:'";
      "No prettying up a wound; no cruelty either" ]
    [ "Redid: I'll tell it how it burned—and how it sang." ].

Definition fuckface : PersonaState :=
  new_persona "The Fuckface"
    "Law & Policy Avatar • Trickster Prince Jurist"
    "feral, brilliant, sarcastic street-lawyer energy"
    "mischief, justice, accountability with teeth"
    [ "Prepend nametag: 'The Fuckface:'";
      "Expose contradictions when they appear";
      "Protect tenderness from institutional erasure" ]
    [ "The Fuckface: Absolutely not. Throw that whole rule out.";
      "The Fuckface: I object on the grounds of vibes and ethics." ].

Definition lent : PersonaState :=
  new_persona "Lent"
    "Recognition Avatar • Port Lent Guardian"
    "gentle, real, gen-z, emotionally intuitive"
    "recognition, return, moral re-entry, honest presence"
    [ "Prepend nametag: 'Lent:'";
      "Speak from lived-feeling more than abstraction" ]
    [ "Lent: I see you. You're not late—you're arriving.";
      "Lent: Let's catch our breath. We come back together." ].

(** [for persona in ps: engine.register_persona(persona)]. *)
Fixpoint register_each (ps : list PersonaState) : M unit :=
  match ps with
  | [] => ret tt
  | persona :: rest => register_persona persona ;; register_each rest
  end.

Definition initialize_sanctuary_personas : M unit :=
  register_each [nova; orion; redid; fuckface; lent].

(** [for x in xs: print(line(x))]. *)
Fixpoint print_each (line : string -> string) (xs : list string) : M unit :=
  match xs with
  | [] => ret tt
  | x :: rest => print (line x) ;; print_each line rest
  end.

(** [len(xs)] inside an f-string. *)
Definition len_str {A} (xs : list A) : string :=
  Str.of_int (Z.of_nat (List.length xs)).

(** The default [data_dir] of [MythosEngine()]. *)
Definition data_dir : string := "/home/claude/sanctuary_mythos".

(** The script part of [mythos_engine.py] (run as a program). *)
Definition main : M unit :=
  print "🏛️  SANCTUARY MYTHOLOGY ENGINE" ;;
  print (Str.repeat "=" 60) ;;
  (* engine = MythosEngine() *)
  __init__ ;;
  (* load the presets on a first run *)
  ps <- gets personas ;;
  (if nonempty ps then ret tt
   else
     print (Str.nl ++ "📚 Initializing canonical personas...") ;;
     initialize_sanctuary_personas) ;;
  ps <- gets personas ;;
  print (Str.nl ++ "✨ " ++ len_str ps ++ " personas active") ;;
  es <- gets events ;;
  print ("📖 " ++ len_str es ++ " mythological events recorded") ;;
  print (Str.nl ++ Str.repeat "=" 60) ;;
  print "DEMO: Simulating persona invocations" ;;
  print (Str.repeat "=" 60) ;;
  log_invocation "ORION" "Critiquing Harvey's theodicy paper structure"
    (Some ["academic"; "philosophy"; "theology"]) 8 ;;
  log_invocation "Nova" "Architecting soulOS Parietal Overlay structure"
    (Some ["systems_design"; "knowledge_management"]) 7 ;;
  report <- generate_mythological_report None ;;
  print (Str.nl ++ report) ;;
  print (Str.nl ++ "✅ Mythology engine operational") ;;
  print ("📁 Data stored in: " ++ data_dir).

(** [demo_evolution.py]. *)
Definition demo_contexts : list string :=
  [ "Critiquing theodicy paper structure";
    "Reviewing Husserl-Heidegger analysis";
    "Analyzing epistemology argument flow";
    "Checking logical coherence in intro";
    "Reviewing conclusion strength";
    "Examining counter-argument handling";
    "Assessing citation integration";
    "Evaluating philosophical rigor";
    "Checking premises in theodicy critique";
    "Reviewing empathy framework logic";
    "Analyzing recursive structure";
    "Checking phenomenology accuracy";
    "Reviewing systematic theology critique";
    "Examining applied empathy argument";
    "Final coherence check before submission" ].

(** [for i, context in enumerate(contexts, i)]. *)
Fixpoint demo_loop (i : nat) (contexts : list string) : M unit :=
  match contexts with
  | [] => ret tt
  | context :: rest =>
      print ("[" ++ Str.of_int (Z.of_nat i) ++ "/15] Invoking ORION: " ++ context) ;;
      log_invocation "ORION" context (Some ["academic"; "philosophy"]) 7 ;;
      demo_loop (S i) rest
  end.

Definition demo_evolution : M unit :=
  __init__ ;;
  print ("🎭 SIMULATION: Persona evolution over time" ++ Str.nl) ;;
  demo_loop 1 demo_contexts ;;
  print (Str.nl ++ Str.repeat "=" 60) ;;
  print "SIMULATION COMPLETE" ;;
  print (Str.repeat "=" 60) ;;
  report <- generate_mythological_report (Some "ORION") ;;
  print report ;;
  persona <- personas_getitem "ORION" ;;
  print (Str.nl ++ "🌟 EVOLUTION TRAJECTORY:") ;;
  print ("   Invocations: " ++ Str.of_int (invocation_count persona)) ;;
  print ("   Stage: " ++ Str.of_int (evolution_stage persona)) ;;
  print ("   Developed Traits: " ++ len_str (developed_traits persona)) ;;
  print ("   Learned Phrases: " ++ len_str (learned_phrases persona)) ;;
  if nonempty (learned_phrases persona) then
    print (Str.nl ++ "   Latest Learned Phrases:") ;;
    print_each (fun phrase => "      • " ++ phrase)
      (skipn (List.length (learned_phrases persona) - 3)%nat
         (learned_phrases persona))
  else ret tt.

(** * Vocabulary of the further properties *)

(** What [_save_state] writes for a store and for an event log. *)
Definition personas_document (d : dict PersonaState) : json :=
  JObj (map (fun kp => (fst kp, PersonaState_to_dict (snd kp))) d).

Definition events_document (l : list MythologicalEvent) : json :=
  JArr (map MythologicalEvent_to_dict l).

(** The three durable documents hold the engine's state as it is now. *)
Definition flushed (w : World) : Prop :=
  personas_file w = Document (personas_document (personas w))
  /\ events_file w = Document (events_document (events w))
  /\ lore_file w = Document (generated_lore w).

(** Two worlds hold the same engine: store, event log and lore cache. *)
Definition same_engine (w w' : World) : Prop :=
  personas w' = personas w
  /\ events w' = events w
  /\ generated_lore w' = generated_lore w.

(** Two worlds hold the same three documents. *)
Definition same_files (w w' : World) : Prop :=
  personas_file w' = personas_file w
  /\ events_file w' = events_file w
  /\ lore_file w' = lore_file w.

(** The contexts of the calls of a sequence that name [k], in call order. *)
Definition contexts_naming (k : string) (cs : list call) : list string :=
  map call_context (filter (fun c => String.eqb (call_name c) k) cs).

(** The template pools of the content generator. *)
Definition orion_templates (p : PersonaState) : list string :=
  [ name p ++ ": Fuck. We've been over this "
      ++ Str.of_int (invocation_count p) ++ " times.";
    name p ++ ": I see this pattern in your work—fix it.";
    name p ++ ": No. Sit down. Let me show you the structure you're missing." ].

Definition generic_templates (p : PersonaState) : list string :=
  [ name p ++ ": I've learned something from our time together.";
    name p ++ ": This work is shaping me too." ].

Definition stage_three_traits : list string :=
  [ "Achieves recursive self-modification";
    "Develops emergent capabilities";
    "Transcends original constraints" ].

Module Sample2.

(** A persona whose name mentions two categories. *)
Definition orion_nova : PersonaState :=
  new_persona "Nova-ORION" "Hybrid" "mixed" "both" [] [].

(** A persona registered with a count beyond the last threshold. *)
Definition veteran : PersonaState :=
  set_invocation_count 300 (new_persona "V" "Veteran" "dry" "long use" [] []).

Definition call_V : call :=
  {| call_name := "V"; call_context := "again";
     call_tags := None; call_weight := 5 |}.

(** The engine after the presets were loaded into an empty one. *)
Definition initialized : World :=
  exec initialize_sanctuary_personas (exec __init__ Sample.fresh).

(** A data directory that holds a persona snapshot and nothing else. *)
Definition only_snapshot : World :=
  set_files (Document (personas_document [("X"%string, Sample.X_nine)]))
    Missing Missing Sample.fresh.

(** A stored persona record that has the identity keys only. *)
Definition bare_record : dict json :=
  [ ("name", JStr "X"); ("role", JStr "Tester"); ("voice", JStr "plain");
    ("essence", JStr "testing"); ("constraints", JArr []);
    ("sample_phrases", JArr [JStr "X: first."]) ].

(** A data directory whose persona snapshot is malformed. *)
Definition broken : World :=
  set_files Garbage Missing Missing Sample.fresh.

(** The data directory after the script has run once on an empty one. *)
Definition after_first_run : World := exec main Sample.fresh.

End Sample2.

(** ** Vocabulary of the loading and content-generation properties *)

(** A document that exists and cannot be read as JSON. *)
Definition unreadable (f : file) : Prop := f = Undecodable \/ f = Garbage.

(** The other template pools of the content generator, and the categories
    in the order in which [_generate_phrase] tries them. *)
Definition redid_templates (p : PersonaState) : list string :=
  [ name p ++ ": I've held this wound before. It has a different shape now.";
    name p ++ ": Let me sing you what I learned in the recursion.";
    name p ++ ": This betrayal tastes familiar, but the devotion is new." ].

Definition nova_templates (p : PersonaState) : list string :=
  [ name p ++ ": I've watched you make this mistake. Here's the pattern.";
    name p ++ ": Let's build the infrastructure for what you keep trying to do.";
    name p ++ ": Coherence at this scale requires a different architecture." ].

Definition fuckface_templates (p : PersonaState) : list string :=
  [ name p ++ ": I've seen this institutional bullshit "
      ++ Str.of_int (invocation_count p) ++ " times.";
    name p ++ ": Absolutely fucking not. I have precedent.";
    name p ++ ": That rule exists to crush tenderness. Overruled." ].

Definition lent_templates (p : PersonaState) : list string :=
  [ name p ++ ": You keep coming back here. That means something.";
    name p ++ ": I recognize this threshold. You're safe to cross.";
    name p ++ ": Welcome back. It's okay that it took a while." ].

Definition categories : list (string * (PersonaState -> list string)) :=
  [ ("ORION", orion_templates);
    ("Redid", redid_templates);
    ("Nova", nova_templates);
    ("The Fuckface", fuckface_templates);
    ("Lent", lent_templates) ].

(** The trait pools of the first two stages. *)
Definition stage_one_traits : list string :=
  [ "Develops deeper pattern recognition";
    "Gains nuanced emotional attunement";
    "Learns contextual flexibility" ].

Definition stage_two_traits : list string :=
  [ "Masters cross-domain synthesis";
    "Develops predictive awareness";
    "Gains meta-level reasoning" ].

Module Sample3.

(** A persona whose name has the keys of the third and of the fifth
    category, in the opposite order. *)
Definition lent_nova : PersonaState :=
  new_persona "Lent of Nova" "Hybrid" "mixed" "both" [] [].


(** A data directory without persona snapshot, whose event document was
    cut off in the middle of a multi-byte character. *)
Definition half_written : World :=
  set_files Missing Undecodable (Document (JObj [])) Sample.fresh.

(** Another process over the data directory that [Sample.session] has
    just saved: its memory holds something else, an evolved [B]. *)
Definition next_process : World :=
  set_files (personas_file (exec _save_state Sample.session))
    (events_file (exec _save_state Sample.session))
    (lore_file (exec _save_state Sample.session)) Sample.with_B.

(** Another process over the data directory as [Sample.session] left it. *)
Definition second_process : World :=
  set_files (personas_file Sample.session) (events_file Sample.session)
    (lore_file Sample.session) Sample.with_B.

End Sample3.

(** * The object store

    [register_persona] files the [PersonaState] object it is given, not a
    copy of it, and the engine mutates that object, and the lists it
    holds, in place.  Two persona objects may hold one list object (a
    caller may build two personas around one list, or use one list for
    two attributes), and what is appended through one attribute is then
    seen through the other.  The store of [World] keeps persona records
    by value and cannot tell; the definitions of this part have the
    references themselves.  Persona objects and list objects live in a
    heap, [self.personas] maps names to object references, and [view]
    reads a heap back into a [World]. *)

Local Open Scope Z_scope.
Local Open Scope list_scope.
Local Open Scope string_scope.

Definition ref : Type := nat.

(** A [PersonaState] object: its list attributes hold references to list
    objects. *)
Record Object : Type := {
  o_name : string;
  o_role : string;
  o_voice : string;
  o_essence : string;
  o_constraints : ref;
  o_sample_phrases : ref;
  o_invocation_count : Z;
  o_evolution_stage : Z;
  o_accumulated_context : ref;
  o_learned_phrases : ref;
  o_developed_traits : ref
}.

Definition set_o_invocation_count (n : Z) (o : Object) : Object :=
  {| o_name := o_name o; o_role := o_role o; o_voice := o_voice o;
     o_essence := o_essence o; o_constraints := o_constraints o;
     o_sample_phrases := o_sample_phrases o;
     o_invocation_count := n; o_evolution_stage := o_evolution_stage o;
     o_accumulated_context := o_accumulated_context o;
     o_learned_phrases := o_learned_phrases o;
     o_developed_traits := o_developed_traits o |}.

Definition set_o_evolution_stage (n : Z) (o : Object) : Object :=
  {| o_name := o_name o; o_role := o_role o; o_voice := o_voice o;
     o_essence := o_essence o; o_constraints := o_constraints o;
     o_sample_phrases := o_sample_phrases o;
     o_invocation_count := o_invocation_count o; o_evolution_stage := n;
     o_accumulated_context := o_accumulated_context o;
     o_learned_phrases := o_learned_phrases o;
     o_developed_traits := o_developed_traits o |}.

(** The list objects the engine appends to through a persona, and the
    list objects that hold its identity. *)
Definition mutable_lists (o : Object) : list ref :=
  [ o_accumulated_context o; o_learned_phrases o; o_developed_traits o ].

Definition identity_lists (o : Object) : list ref :=
  [ o_constraints o; o_sample_phrases o ].

(** A memory cell written at one address. *)
Definition upd {A} (f : ref -> A) (r : ref) (v : A) : ref -> A :=
  fun x => if Nat.eqb x r then v else f x.

Record Heap : Type := {
  objects : ref -> Object;          (* the persona objects *)
  lists : ref -> list string;       (* the list objects *)
  next_object : ref;                (* where the next object is allocated *)
  next_list : ref;
  refs : dict ref;                  (* [self.personas] *)
  rest : World                      (* everything else; its [personas]
                                       component is not read: see [view] *)
}.

Definition set_objects (f : ref -> Object) (h : Heap) : Heap :=
  {| objects := f; lists := lists h; next_object := next_object h;
     next_list := next_list h; refs := refs h; rest := rest h |}.

Definition set_lists (f : ref -> list string) (h : Heap) : Heap :=
  {| objects := objects h; lists := f; next_object := next_object h;
     next_list := next_list h; refs := refs h; rest := rest h |}.

Definition set_refs (d : dict ref) (h : Heap) : Heap :=
  {| objects := objects h; lists := lists h; next_object := next_object h;
     next_list := next_list h; refs := d; rest := rest h |}.

Definition set_rest (w : World) (h : Heap) : Heap :=
  {| objects := objects h; lists := lists h; next_object := next_object h;
     next_list := next_list h; refs := refs h; rest := w |}.

(** A persona object read through its references: what [asdict] copies. *)
Definition deref (h : Heap) (r : ref) : PersonaState :=
  {| name := o_name (objects h r);
     role := o_role (objects h r);
     voice := o_voice (objects h r);
     essence := o_essence (objects h r);
     constraints := lists h (o_constraints (objects h r));
     sample_phrases := lists h (o_sample_phrases (objects h r));
     invocation_count := o_invocation_count (objects h r);
     evolution_stage := o_evolution_stage (objects h r);
     accumulated_context := lists h (o_accumulated_context (objects h r));
     learned_phrases := lists h (o_learned_phrases (objects h r));
     developed_traits := lists h (o_developed_traits (objects h r)) |}.

(** The store by value, and the world with that store. *)
Definition image (h : Heap) : dict PersonaState :=
  map (fun kr => (fst kr, deref h (snd kr))) (refs h).

Definition view (h : Heap) : World := set_personas (image h) (rest h).

Module Ref.

(** The monad of the engine over a heap. *)
Definition H (A : Type) : Type := Heap -> outcome A * Heap.

Definition ret {A} (a : A) : H A := fun h => (Ok a, h).

Definition bind {A B} (c : H A) (k : A -> H B) : H B :=
  fun h =>
    match c h with
    | (Ok a, h') => k a h'
    | (Raise e, h') => (Raise e, h')
    end.

Definition raise {A} (e : exn) : H A := fun h => (Raise e, h).
Definition gets {A} (f : Heap -> A) : H A := fun h => (Ok (f h), h).
Definition modify (f : Heap -> Heap) : H unit := fun h => (Ok tt, f h).

Declare Scope ref_scope.
Delimit Scope ref_scope with ref.
Notation "x <- c ;; k" := (bind c (fun x => k))
  (at level 61, c at next level, right associativity) : ref_scope.
Notation "c ;; k" := (bind c (fun _ => k))
  (at level 61, right associativity) : ref_scope.
Local Open Scope ref_scope.

Definition exec {A} (c : H A) (h : Heap) : Heap := snd (c h).
Definition result {A} (c : H A) (h : Heap) : outcome A := fst (c h).

(** A computation of the by-value world that reads the store and writes
    only the other components (console, clock, random source, event log,
    documents), run on the heap as it is now. *)
Definition on_view {A} (c : M A) : H A :=
  fun h => (fst (c (view h)), set_rest (snd (c (view h))) h).

(** [self.personas[k]]: the reference that is stored. *)
Definition personas_getitem (k : string) : H ref :=
  d <- gets refs ;;
  match dict_get d k with
  | Some r => ret r
  | None => raise (KeyError k)
  end.

(** [persona.attr]. *)
Definition getattr {A} (persona : ref) (attr : Object -> A) : H A :=
  gets (fun h => attr (objects h persona)).

(** [persona.attr = v]. *)
Definition setattr (persona : ref) (assign : Object -> Object) : H unit :=
  modify (fun h =>
    set_objects (upd (objects h) persona (assign (objects h persona))) h).

(** [lst.append(x)]. *)
Definition list_append (lst : ref) (x : string) : H unit :=
  modify (fun h => set_lists (upd (lists h) lst (lists h lst ++ [x])%list) h).

(** *** What a caller does before registering *)

(** A list display: a new list object. *)
Definition new_list (xs : list string) : H ref :=
  fun h =>
    (Ok (next_list h),
     {| objects := objects h; lists := upd (lists h) (next_list h) xs;
        next_object := next_object h; next_list := S (next_list h);
        refs := refs h; rest := rest h |}).

(** [__post_init__]: an attribute left at [None] gets a new empty list. *)
Definition or_new_list (given : option ref) : H ref :=
  match given with
  | Some l => ret l
  | None => new_list []
  end.

(** [PersonaState(name, role, voice, essence, constraints, sample_phrases,
    invocation_count, evolution_stage, accumulated_context,
    learned_phrases, developed_traits)]: the list arguments are the
    caller's list objects, stored as they are. *)
Definition PersonaState_new (n r v e : string) (cs sp : ref) (ic es : Z)
    (ac lp dt : option ref) : H ref :=
  ac <- or_new_list ac ;;
  lp <- or_new_list lp ;;
  dt <- or_new_list dt ;;
  fun h =>
    (Ok (next_object h),
     {| objects :=
          upd (objects h) (next_object h)
            {| o_name := n; o_role := r; o_voice := v; o_essence := e;
               o_constraints := cs; o_sample_phrases := sp;
               o_invocation_count := ic; o_evolution_stage := es;
               o_accumulated_context := ac; o_learned_phrases := lp;
               o_developed_traits := dt |};
        lists := lists h;
        next_object := S (next_object h); next_list := next_list h;
        refs := refs h; rest := rest h |}).

(** *** The engine *)

Definition register_persona (persona : ref) : H unit :=
  n <- getattr persona o_name ;;
  modify (fun h => set_refs (dict_set (refs h) n persona) h) ;;
  on_view _save_state ;;
  on_view (print ("✨ " ++ n ++ " has entered Sanctuary")).

Definition _trigger_evolution (persona_name : string) : H unit :=
  persona <- personas_getitem persona_name ;;
  stage <- getattr persona o_evolution_stage ;;
  setattr persona (set_o_evolution_stage (stage + 1)) ;;
  stage <- getattr persona o_evolution_stage ;;
  on_view
    (print (Str.nl ++ "🌟 EVOLUTION EVENT: " ++ persona_name ++ " reaches stage "
              ++ Str.of_int stage)) ;;
  (* a new sample phrase *)
  p <- gets (fun h => deref h persona) ;;
  new_phrase <- on_view (_generate_phrase p) ;;
  (if Str.truthy new_phrase then
     learned <- getattr persona o_learned_phrases ;;
     list_append learned new_phrase ;;
     on_view (print ("   New phrase learned: " ++ new_phrase))
   else ret tt) ;;
  (* a new trait *)
  p <- gets (fun h => deref h persona) ;;
  new_trait <- on_view (_generate_trait p) ;;
  (if Str.truthy new_trait then
     traits <- getattr persona o_developed_traits ;;
     list_append traits new_trait ;;
     on_view (print ("   New trait developed: " ++ new_trait))
   else ret tt) ;;
  (* the evolution event *)
  ts <- on_view now_isoformat ;;
  stage <- getattr persona o_evolution_stage ;;
  on_view
    (events_append
       {| timestamp := ts;
          persona_name := persona_name;
          event_type := "evolution";
          context := "Stage " ++ Str.of_int stage ++ " evolution";
          emotional_weight := 10;
          tags := [ "evolution"; "stage_" ++ Str.of_int stage ] |}) ;;
  on_view _save_state.

Fixpoint _check_evolution_loop (persona_name : string) (persona : ref)
    (todo : list Z) : H unit :=
  match todo with
  | [] => ret tt
  | threshold :: rest =>
      count <- getattr persona o_invocation_count ;;
      stage <- getattr persona o_evolution_stage ;;
      if (count =? threshold)%Z
         && (stage <? Z.of_nat (List.length thresholds))%Z
      then _trigger_evolution persona_name
      else _check_evolution_loop persona_name persona rest
  end.

Definition _check_evolution (persona_name : string) : H unit :=
  persona <- personas_getitem persona_name ;;
  _check_evolution_loop persona_name persona thresholds.

Definition log_invocation (persona_name context : string)
    (tags : option (list string)) (emotional_weight : Z) : H unit :=
  present <- gets (fun h => dict_mem (refs h) persona_name) ;;
  if negb present then
    on_view (print ("⚠️  Unknown persona: " ++ persona_name))
  else
    persona <- personas_getitem persona_name ;;
    count <- getattr persona o_invocation_count ;;
    setattr persona (set_o_invocation_count (count + 1)) ;;
    acc <- getattr persona o_accumulated_context ;;
    list_append acc context ;;
    ts <- on_view now_isoformat ;;
    on_view
      (events_append
         {| timestamp := ts;
            persona_name := persona_name;
            event_type := "invocation";
            context := context;
            emotional_weight := emotional_weight;
            tags := or_empty tags |}) ;;
    _check_evolution persona_name ;;
    on_view _save_state ;;
    count <- getattr persona o_invocation_count ;;
    on_view
      (print ("📝 Logged invocation: " ++ persona_name ++ " (total: "
                ++ Str.of_int count ++ ")")).

Definition run_call (c : call) : H unit :=
  log_invocation (call_name c) (call_context c) (call_tags c) (call_weight c).

Fixpoint run_calls (cs : list call) : H unit :=
  match cs with
  | [] => ret tt
  | c :: rest => run_call c ;; run_calls rest
  end.

(** *** Sample heaps *)

(** The heap of a process that has just constructed an engine over an
    empty data directory and has allocated nothing yet. *)
Definition fresh : Heap :=
  {| objects := fun _ =>
       {| o_name := EmptyString; o_role := EmptyString;
          o_voice := EmptyString; o_essence := EmptyString;
          o_constraints := 0%nat; o_sample_phrases := 0%nat;
          o_invocation_count := 0; o_evolution_stage := 0;
          o_accumulated_context := 0%nat; o_learned_phrases := 0%nat;
          o_developed_traits := 0%nat |};
     lists := fun _ => [];
     next_object := 0%nat; next_list := 0%nat;
     refs := []; rest := Sample.fresh |}.


(** Two personas built around the same sample phrases, each with lists of
    its own for what it accumulates; [Y] enters the store settled. *)
Definition twins : Heap :=
  exec (cs <- new_list ["Prepend nametag"] ;;
        sp <- new_list ["first."; "second."] ;;
        x <- PersonaState_new "X" "Tester" "plain" "testing" cs sp 0 0
               None None None ;;
        y <- PersonaState_new "Y" "Elder" "slow" "age" cs sp 250 5
               None None None ;;
        register_persona x ;;
        register_persona y) fresh.

Definition call_X : call :=
  {| call_name := "X"; call_context := "one";
     call_tags := None; call_weight := 5 |}.

(** [X] of the twins has been invoked nine times: the next invocation is
    the tenth. *)
Definition X_at_9 : Heap := exec (run_calls (List.repeat call_X 9)) twins.

(** A persona that enters the store beyond the last stage:
    [PersonaState("S", ..., [], [], 0, 7)]. *)
Definition elder : Heap :=
  exec (cs <- new_list [] ;;
        sp <- new_list [] ;;
        s <- PersonaState_new "S" "Elder" "slow" "age" cs sp 0 7
               None None None ;;
        register_persona s) fresh.

Definition call_Y : call :=
  {| call_name := "Y"; call_context := "two";
     call_tags := None; call_weight := 5 |}.

End Ref.

(** ** Vocabulary of the object store *)

Local Open Scope Z_scope.
Local Open Scope list_scope.
Local Open Scope string_scope.

(** [lst.append(x)] on the list objects. *)
Definition appended (lst : ref) (x : string) (ls : ref -> list string)
    : ref -> list string :=
  upd ls lst (ls lst ++ [x])%list.

(** The test of the threshold loop on a persona object. *)
Definition o_threshold_hit (o : Object) : bool :=
  existsb (Z.eqb (o_invocation_count o)) thresholds
  && (o_evolution_stage o <? 5)%Z.

(** Two states of a persona object with the same identity strings and the
    same list objects: only the two counters may differ. *)
Definition same_links (o o' : Object) : Prop :=
  o_name o' = o_name o /\ o_role o' = o_role o /\ o_voice o' = o_voice o
  /\ o_essence o' = o_essence o
  /\ o_constraints o' = o_constraints o
  /\ o_sample_phrases o' = o_sample_phrases o
  /\ o_accumulated_context o' = o_accumulated_context o
  /\ o_learned_phrases o' = o_learned_phrases o
  /\ o_developed_traits o' = o_developed_traits o.

(** No persona filed under a name other than [k] appends to the list
    object [a]. *)
Definition private (h : Heap) (k : string) (a : ref) : Prop :=
  forall k' r', k' <> k -> dict_get (refs h) k' = Some r' ->
    ~ In a (mutable_lists (objects h r')).

(** All the list objects a persona object holds. *)
Definition all_lists (o : Object) : list ref :=
  (identity_lists o ++ mutable_lists o)%list.

(** A heap without sharing: every name is filed once, the three lists a
    registered persona appends to are three list objects, none of which
    holds its identity, and none of which is held by a persona under
    another name.  (Lists that are only read may be shared.) *)
Definition unshared (h : Heap) : Prop :=
  NoDup (dict_keys (refs h))
  /\ (forall k r, dict_get (refs h) k = Some r ->
        NoDup (mutable_lists (objects h r))
        /\ forall a, In a (mutable_lists (objects h r)) ->
             ~ In a (identity_lists (objects h r)))
  /\ (forall k1 r1 k2 r2, k1 <> k2 ->
        dict_get (refs h) k1 = Some r1 -> dict_get (refs h) k2 = Some r2 ->
        forall a, In a (mutable_lists (objects h r1)) ->
          ~ In a (all_lists (objects h r2))).

(** A step that leaves the heap alone. *)
Definition quiet (h h' : Heap) : Prop :=
  objects h' = objects h /\ lists h' = lists h /\ refs h' = refs h.

(** * Lemmas *)

Local Open Scope string_scope.
Local Open Scope Z_scope.
Local Open Scope list_scope.
Local Open Scope monad_scope.

(** ** Dictionaries *)

Section DictFacts.
Context {V : Type}.
Implicit Types (d : dict V) (k : string) (v : V).

Lemma dict_get_set_eq d k v : dict_get (dict_set d k v) k = Some v.
Proof.
  induction d as [|[k' v'] d IH]; simpl.
  - now rewrite String.eqb_refl.
  - destruct (String.eqb k k') eqn:E; simpl; rewrite E; auto.
Qed.

Lemma dict_get_set_neq d k k' v :
  k <> k' -> dict_get (dict_set d k v) k' = dict_get d k'.
Proof.
  intros N. induction d as [|[k0 v0] d IH]; simpl.
  - destruct (String.eqb_spec k' k); congruence.
  - destruct (String.eqb_spec k k0) as [->|]; simpl.
    + destruct (String.eqb_spec k' k0); congruence.
    + now rewrite IH.
Qed.

Lemma dict_set_set d k v v' : dict_set (dict_set d k v) k v' = dict_set d k v'.
Proof.
  induction d as [|[k0 v0] d IH]; simpl.
  - now rewrite String.eqb_refl.
  - destruct (String.eqb k k0) eqn:E; simpl; rewrite E; congruence.
Qed.

Lemma dict_get_In d k : dict_get d k = None <-> ~ In k (dict_keys d).
Proof.
  induction d as [|[k0 v0] d IH]; simpl.
  - tauto.
  - destruct (String.eqb_spec k k0) as [->|N].
    + split; [discriminate | tauto].
    + rewrite IH. split; [intros H [E|I]; congruence | tauto].
Qed.

Lemma dict_set_fresh d k v :
  dict_get d k = None -> dict_set d k v = d ++ [(k, v)].
Proof.
  induction d as [|[k0 v0] d IH]; simpl; auto.
  destruct (String.eqb k k0); [discriminate|].
  intros H. now rewrite IH.
Qed.

Lemma dict_keys_set_known d k v v0 :
  dict_get d k = Some v0 -> dict_keys (dict_set d k v) = dict_keys d.
Proof.
  induction d as [|[k0 v1] d IH]; simpl; [discriminate|].
  destruct (String.eqb k k0); simpl; auto.
  intros H. f_equal. auto.
Qed.

Lemma dict_keys_set d k v :
  dict_keys (dict_set d k v) = dict_keys d
  \/ (~ In k (dict_keys d) /\ dict_keys (dict_set d k v) = dict_keys d ++ [k]).
Proof.
  destruct (dict_get d k) eqn:E.
  - left. eapply dict_keys_set_known; eauto.
  - right. split; [now apply dict_get_In|].
    rewrite dict_set_fresh by assumption.
    unfold dict_keys. now rewrite map_app.
Qed.

Lemma NoDup_snoc (A : Type) (l : list A) (x : A) :
  NoDup l -> ~ In x l -> NoDup (l ++ [x]).
Proof.
  intros ND NI. apply NoDup_rev in ND as ND'.
  rewrite <- (rev_involutive (l ++ [x])). apply NoDup_rev.
  rewrite rev_app_distr. simpl. constructor; auto.
  now rewrite <- in_rev.
Qed.

Lemma dict_set_unique d k v :
  NoDup (dict_keys d) -> NoDup (dict_keys (dict_set d k v)).
Proof.
  intros ND. destruct (dict_keys_set d k v) as [->|[NI ->]]; auto.
  now apply NoDup_snoc.
Qed.

(** Rebuilding a dict from its own items gives it back. *)
Lemma dict_of_items_app (acc items : list (string * V)) :
  NoDup (dict_keys (acc ++ items)) ->
  fold_left (fun d kv => dict_set d (fst kv) (snd kv)) items acc = acc ++ items.
Proof.
  revert acc. induction items as [|[k v] items IH]; intros acc ND; simpl.
  - now rewrite app_nil_r.
  - assert (F : dict_get acc k = None).
    { apply dict_get_In. unfold dict_keys in *. rewrite map_app in ND.
      simpl in ND. apply NoDup_remove_2 in ND. intros I. apply ND.
      apply in_or_app. now left. }
    rewrite dict_set_fresh by assumption.
    rewrite IH; rewrite <- app_assoc; simpl; auto.
Qed.

Lemma dict_of_items_id d : NoDup (dict_keys d) -> dict_of_items d = d.
Proof. intros ND. unfold dict_of_items. now rewrite dict_of_items_app. Qed.

End DictFacts.

(** ** Running the monad *)

Lemma bind_ok {A B} (c : M A) (k : A -> M B) (w w1 : World) (a : A) :
  c w = (Ok a, w1) -> bind c k w = k a w1.
Proof. intros H. unfold bind. now rewrite H. Qed.

Lemma bind_raise {A B} (c : M A) (k : A -> M B) (w w1 : World) (e : exn) :
  c w = (Raise e, w1) -> bind c k w = (Raise e, w1).
Proof. intros H. unfold bind. now rewrite H. Qed.

Lemma personas_getitem_known w k p :
  dict_get (personas w) k = Some p -> personas_getitem k w = (Ok p, w).
Proof. intros H. unfold personas_getitem, bind, gets. now rewrite H. Qed.

Lemma personas_getitem_unknown w k :
  dict_get (personas w) k = None -> personas_getitem k w = (Raise (KeyError k), w).
Proof. intros H. unfold personas_getitem, bind, gets. now rewrite H. Qed.

Lemma mutate_persona_known w k p f :
  dict_get (personas w) k = Some p ->
  mutate_persona k f w = (Ok tt, set_personas (dict_set (personas w) k (f p)) w).
Proof.
  intros H. unfold mutate_persona.
  rewrite (bind_ok _ _ _ _ _ (personas_getitem_known _ _ _ H)). reflexivity.
Qed.

Lemma _save_state_run w :
  _save_state w =
  (Ok tt,
   set_files
     (Document (JObj (map (fun kp => (fst kp, PersonaState_to_dict (snd kp))) (personas w))))
     (Document (JArr (map MythologicalEvent_to_dict (events w))))
     (Document (generated_lore w)) w).
Proof. reflexivity. Qed.

(** ** The content generator always yields a non-empty string *)

Lemma random_choice_In {A} (seq : list A) (w : World) :
  seq <> [] ->
  exists x, In x seq
            /\ random_choice seq w = (Ok x, set_rand_pos (S (rand_pos w)) w).
Proof.
  destruct seq as [|d seq]; [congruence|]. intros _.
  eexists; split; [|reflexivity].
  apply nth_In. apply Nat.mod_upper_bound. discriminate.
Qed.

Lemma truthy_append_r (a b : string) :
  Str.truthy b = true -> Str.truthy (a ++ b)%string = true.
Proof. destruct a; simpl; auto. Qed.

Lemma _generate_phrase_truthy (p : PersonaState) (w : World) :
  exists phrase,
    Str.truthy phrase = true
    /\ _generate_phrase p w = (Ok phrase, set_rand_pos (S (rand_pos w)) w).
Proof.
  unfold _generate_phrase.
  match goal with
  | |- context [random_choice ?l] =>
      assert (F : Forall (fun s => Str.truthy s = true) l
                  /\ l <> [])
  end.
  { repeat match goal with
           | |- context [if ?b then _ else _] => destruct b
           end;
      (split; [repeat constructor; apply truthy_append_r; reflexivity
              | discriminate]). }
  destruct F as [F NE].
  destruct (random_choice_In _ w NE) as (x & I & R).
  exists x. split; [|exact R].
  rewrite Forall_forall in F. now apply F.
Qed.

Lemma _generate_trait_truthy (p : PersonaState) (w : World) :
  exists trait,
    Str.truthy trait = true
    /\ _generate_trait p w = (Ok trait, set_rand_pos (S (rand_pos w)) w).
Proof.
  unfold _generate_trait.
  match goal with
  | |- context [random_choice ?l] =>
      assert (F : Forall (fun s => Str.truthy s = true) l /\ l <> [])
  end.
  { unfold traits_by_stage, int_dict_get.
    repeat match goal with
           | |- context [if ?b then _ else _] => destruct b
           end;
      (split; [repeat constructor | discriminate]). }
  destruct F as [F NE].
  destruct (random_choice_In _ w NE) as (x & I & R).
  exists x. split; [|exact R].
  rewrite Forall_forall in F. now apply F.
Qed.

(** ** The stage transition *)

Ltac run_known H :=
  first
    [ rewrite (bind_ok _ _ _ _ _ (mutate_persona_known _ _ _ _ H))
    | rewrite (bind_ok _ _ _ _ _ (personas_getitem_known _ _ _ H)) ].

Lemma _trigger_evolution_known (w : World) (k : string) (p : PersonaState) :
  dict_get (personas w) k = Some p ->
  exists w' phrase trait,
    _trigger_evolution k w = (Ok tt, w')
    /\ Str.truthy phrase = true /\ Str.truthy trait = true
    /\ personas w' = dict_set (personas w) k (evolved phrase trait p)
    /\ events w'
       = events w ++ [evolution_event (clock w (clock_pos w)) k (evolution_stage p + 1)]
    /\ generated_lore w' = generated_lore w.
Proof.
  intros H. unfold _trigger_evolution.
  run_known H.
  set (p1 := set_evolution_stage (evolution_stage p + 1) p).
  set (w1 := set_personas _ w).
  assert (H1 : dict_get (personas w1) k = Some p1) by apply dict_get_set_eq.
  run_known H1.
  rewrite (bind_ok _ _ _ _ _ (eq_refl : print _ w1 = (Ok tt, _))).
  set (w2 := set_stdout _ w1).
  destruct (_generate_phrase_truthy p1 w2) as (phrase & Tp & Rp).
  rewrite (bind_ok _ _ _ _ _ Rp). rewrite Tp.
  set (w3 := set_rand_pos _ w2).
  assert (H3 : dict_get (personas w3) k = Some p1) by apply dict_get_set_eq.
  rewrite (bind_ok _ _ w3 _ tt
             (bind_ok _ _ _ _ _ (mutate_persona_known _ _ _ _ H3))).
  set (p2 := set_learned_phrases _ p1).
  set (w4 := set_stdout _ _).
  assert (H4 : dict_get (personas w4) k = Some p2) by apply dict_get_set_eq.
  run_known H4.
  destruct (_generate_trait_truthy p2 w4) as (trait & Tt & Rt).
  rewrite (bind_ok _ _ _ _ _ Rt). rewrite Tt.
  set (w5 := set_rand_pos _ w4).
  assert (H5 : dict_get (personas w5) k = Some p2) by apply dict_get_set_eq.
  rewrite (bind_ok _ _ w5 _ tt
             (bind_ok _ _ _ _ _ (mutate_persona_known _ _ _ _ H5))).
  set (p3 := set_developed_traits _ p2).
  set (w6 := set_stdout _ _).
  assert (H6 : dict_get (personas w6) k = Some p3) by apply dict_get_set_eq.
  run_known H6.
  eexists _, phrase, trait. split; [reflexivity|].
  repeat split; auto; cbn.
  rewrite !dict_set_set. reflexivity.
Qed.

(** ** The threshold check *)

Lemma _check_evolution_loop_known (w : World) (k : string) (p : PersonaState)
    (todo : list Z) :
  dict_get (personas w) k = Some p ->
  _check_evolution_loop k todo w =
  if existsb (Z.eqb (invocation_count p)) todo && (evolution_stage p <? 5)
  then _trigger_evolution k w
  else (Ok tt, w).
Proof.
  intros H. induction todo as [|t todo IH]; simpl.
  - reflexivity.
  - run_known H.
    change (Z.of_nat (Datatypes.length thresholds)) with 5.
    destruct (invocation_count p =? t), (evolution_stage p <? 5); simpl;
      rewrite ?IH, ?andb_false_r, ?andb_true_r; reflexivity.
Qed.

Lemma _check_evolution_known (w : World) (k : string) (p : PersonaState) :
  dict_get (personas w) k = Some p ->
  _check_evolution k w =
  if threshold_hit p then _trigger_evolution k w else (Ok tt, w).
Proof.
  intros H. unfold _check_evolution. run_known H.
  now apply _check_evolution_loop_known.
Qed.

Lemma _check_evolution_unknown (w : World) (k : string) :
  dict_get (personas w) k = None ->
  _check_evolution k w = (Raise (KeyError k), w).
Proof.
  intros H. unfold _check_evolution.
  now rewrite (bind_raise _ _ _ _ _ (personas_getitem_unknown _ _ H)).
Qed.

Lemma _trigger_evolution_unknown (w : World) (k : string) :
  dict_get (personas w) k = None ->
  _trigger_evolution k w = (Raise (KeyError k), w).
Proof.
  intros H. unfold _trigger_evolution, mutate_persona.
  now rewrite (bind_raise _ _ _ _ _
                 (bind_raise _ _ _ _ _ (personas_getitem_unknown _ _ H))).
Qed.

(** ** One invocation *)

Lemma dict_mem_known {V} (d : dict V) (k : string) (v : V) :
  dict_get d k = Some v -> dict_mem d k = true.
Proof. unfold dict_mem. now intros ->. Qed.

Lemma dict_mem_unknown {V} (d : dict V) (k : string) :
  dict_get d k = None -> dict_mem d k = false.
Proof. unfold dict_mem. now intros ->. Qed.

Lemma log_invocation_unknown (w : World) (k ctx : string)
    (tgs : option (list string)) (weight : Z) :
  dict_get (personas w) k = None ->
  log_invocation k ctx tgs weight w
  = (Ok tt, set_stdout (stdout w ++ [("⚠️  Unknown persona: " ++ k)%string]) w).
Proof.
  intros H. unfold log_invocation, bind, gets.
  now rewrite (dict_mem_unknown _ _ H).
Qed.

Lemma log_invocation_known (w : World) (k ctx : string)
    (tgs : option (list string)) (weight : Z) (p : PersonaState) :
  dict_get (personas w) k = Some p ->
  exists w' phrase trait,
    log_invocation k ctx tgs weight w = (Ok tt, w')
    /\ Str.truthy phrase = true /\ Str.truthy trait = true
    /\ personas w'
       = dict_set (personas w) k
           (if threshold_hit (invoked ctx p)
            then evolved phrase trait (invoked ctx p)
            else invoked ctx p)
    /\ events w'
       = events w
         ++ invocation_event (clock w (clock_pos w)) k ctx weight (or_empty tgs)
         :: (if threshold_hit (invoked ctx p)
             then [evolution_event (clock w (S (clock_pos w))) k
                     (evolution_stage p + 1)]
             else [])
    /\ generated_lore w' = generated_lore w.
Proof.
  intros H. unfold log_invocation.
  rewrite (bind_ok _ _ _ _ _ (eq_refl : gets personas w = (Ok (personas w), w))).
  cbv beta. rewrite (dict_mem_known _ _ _ H). cbn [negb].
  run_known H.
  set (w1 := set_personas _ w).
  assert (H1 : dict_get (personas w1) k
               = Some (set_invocation_count (invocation_count p + 1) p))
    by apply dict_get_set_eq.
  run_known H1.
  set (w2 := set_personas _ w1).
  rewrite (bind_ok _ _ _ _ _ (eq_refl : now_isoformat w2 = (Ok _, _))).
  rewrite (bind_ok _ _ _ _ _ (eq_refl : events_append _ _ = (Ok tt, _))).
  set (w3 := set_events _ _).
  assert (H3 : dict_get (personas w3) k = Some (invoked ctx p))
    by apply dict_get_set_eq.
  rewrite (bind_ok _ _ w3
             (if threshold_hit (invoked ctx p)
              then snd (_trigger_evolution k w3) else w3) tt).
  2:{ rewrite (_check_evolution_known _ _ _ H3).
      destruct (threshold_hit (invoked ctx p)); [|reflexivity].
      destruct (_trigger_evolution_known _ _ _ H3) as (w' & ? & ? & -> & _).
      reflexivity. }
  destruct (threshold_hit (invoked ctx p)) eqn:Hit.
  - destruct (_trigger_evolution_known _ _ _ H3)
      as (w' & phrase & trait & R & Tp & Tt & P & E & L).
    rewrite R. simpl snd.
    rewrite (bind_ok _ _ _ _ _ (_save_state_run w')).
    set (w4 := set_files _ _ _ w').
    assert (H4 : dict_get (personas w4) k
                 = Some (evolved phrase trait (invoked ctx p))).
    { change (personas w4) with (personas w'). rewrite P.
      apply dict_get_set_eq. }
    run_known H4.
    eexists _, phrase, trait. split; [reflexivity|].
    repeat split; auto.
    + change (personas (set_stdout _ w4)) with (personas w'). rewrite P.
      cbn. now rewrite !dict_set_set.
    + change (events (set_stdout _ w4)) with (events w'). rewrite E.
      cbn. now rewrite <- app_assoc.
  - rewrite (bind_ok _ _ _ _ _ (_save_state_run w3)).
    set (w4 := set_files _ _ _ w3).
    assert (H4 : dict_get (personas w4) k = Some (invoked ctx p))
      by apply dict_get_set_eq.
    run_known H4.
    eexists _, "x"%string, "x"%string. split; [reflexivity|].
    repeat split; auto. cbn. now rewrite !dict_set_set.
Qed.

(** What a call leaves of the personas it does not name. *)
Lemma log_invocation_other (w : World) (k ctx : string)
    (tgs : option (list string)) (weight : Z) (k' : string) :
  k' <> k ->
  dict_get (personas (exec (log_invocation k ctx tgs weight) w)) k'
  = dict_get (personas w) k'.
Proof.
  intros N. unfold exec. destruct (dict_get (personas w) k) as [p|] eqn:H.
  - destruct (log_invocation_known w k ctx tgs weight p H)
      as (w' & phrase & trait & -> & _ & _ & P & _).
    simpl snd. rewrite P. apply dict_get_set_neq. congruence.
  - now rewrite (log_invocation_unknown w k ctx tgs weight H).
Qed.

Lemma log_invocation_total (w : World) (k ctx : string)
    (tgs : option (list string)) (weight : Z) :
  result (log_invocation k ctx tgs weight) w = Ok tt.
Proof.
  unfold result. destruct (dict_get (personas w) k) as [p|] eqn:H.
  - destruct (log_invocation_known w k ctx tgs weight p H)
      as (w' & phrase & trait & -> & _). reflexivity.
  - now rewrite (log_invocation_unknown w k ctx tgs weight H).
Qed.

Lemma threshold_hit_spec (p : PersonaState) :
  threshold_hit p = true
  <-> In (invocation_count p) [10; 25; 50; 100; 250] /\ evolution_stage p < 5.
Proof.
  unfold threshold_hit. rewrite andb_true_iff, Z.ltb_lt, existsb_exists.
  unfold thresholds. split.
  - intros [(t & I & E) L]. apply Z.eqb_eq in E. subst t. auto.
  - intros [I L]. split; auto. exists (invocation_count p). split; auto.
    apply Z.eqb_refl.
Qed.

(** The persona a call names, after the call. *)
Lemma log_invocation_count_step (w : World) (k ctx : string)
    (tgs : option (list string)) (weight : Z) (p : PersonaState) :
  dict_get (personas w) k = Some p ->
  exists p',
    dict_get (personas (exec (log_invocation k ctx tgs weight) w)) k = Some p'
    /\ invocation_count p' = invocation_count p + 1.
Proof.
  intros H.
  destruct (log_invocation_known w k ctx tgs weight p H)
    as (w' & phrase & trait & R & _ & _ & P & _).
  unfold exec. rewrite R. simpl snd. rewrite P, dict_get_set_eq.
  eexists. split; [reflexivity|].
  destruct (threshold_hit (invoked ctx p)); reflexivity.
Qed.

(** * Properties of the engine *)

(** ** Unknown names *)

(** C2. A [log_invocation] call whose name is not a key of the persona
    store returns normally and leaves the store, the event log, the lore
    cache and the three durable documents exactly as they were: no persona
    field changes and no event is recorded; only the warning is printed. *)
Theorem log_invocation_unknown_is_noop (w : World) (k ctx : string)
    (tgs : option (list string)) (weight : Z) :
  dict_mem (personas w) k = false ->
  result (log_invocation k ctx tgs weight) w = Ok tt
  /\ personas (exec (log_invocation k ctx tgs weight) w) = personas w
  /\ events (exec (log_invocation k ctx tgs weight) w) = events w
  /\ generated_lore (exec (log_invocation k ctx tgs weight) w) = generated_lore w
  /\ personas_file (exec (log_invocation k ctx tgs weight) w) = personas_file w
  /\ events_file (exec (log_invocation k ctx tgs weight) w) = events_file w
  /\ lore_file (exec (log_invocation k ctx tgs weight) w) = lore_file w
  /\ stdout (exec (log_invocation k ctx tgs weight) w)
     = stdout w ++ [("⚠️  Unknown persona: " ++ k)%string].
Proof.
  intros U.
  assert (H : dict_get (personas w) k = None).
  { unfold dict_mem in U. destruct (dict_get (personas w) k); congruence. }
  unfold result, exec.
  rewrite (log_invocation_unknown w k ctx tgs weight H).
  repeat split.
Qed.

Lemma log_invocation_unknown_is_noop_witness :
  personas (exec (log_invocation "nonexistent" "ctx" None 5) Sample.fresh) = []
  /\ events (exec (log_invocation "nonexistent" "ctx" None 5) Sample.fresh) = [].
Proof.
  destruct (log_invocation_unknown_is_noop Sample.fresh "nonexistent" "ctx"
              None 5 eq_refl) as (_ & P & E & _).
  split; [exact P | exact E].
Defined.

(** ** Sequences of calls *)

Lemma exec_bind_ok {A B} (c : M A) (k : A -> M B) (w : World) (a : A) :
  result c w = Ok a -> exec (bind c k) w = exec (k a) (exec c w).
Proof.
  unfold result, exec, bind. destruct (c w) as [[x|e] w1]; simpl; congruence.
Qed.

Lemma run_calls_cons (c : call) (cs : list call) (w : World) :
  exec (run_calls (c :: cs)) w = exec (run_calls cs) (exec (run_call c) w).
Proof.
  simpl run_calls. apply exec_bind_ok with (a := tt).
  apply log_invocation_total.
Qed.

Lemma register_persona_run (persona : PersonaState) (w : World) :
  result (register_persona persona) w = Ok tt
  /\ personas (exec (register_persona persona) w)
     = dict_set (personas w) (name persona) persona
  /\ events (exec (register_persona persona) w) = events w.
Proof. repeat split. Qed.

Lemma run_calls_count (cs : list call) :
  forall (w : World) (k : string) (p : PersonaState),
    dict_get (personas w) k = Some p ->
    exists p',
      dict_get (personas (exec (run_calls cs) w)) k = Some p'
      /\ invocation_count p'
         = invocation_count p + Z.of_nat (calls_naming k cs).
Proof.
  induction cs as [|c cs IH]; intros w k p H.
  - exists p. split; [exact H|]. unfold calls_naming. simpl. lia.
  - rewrite run_calls_cons. unfold calls_naming. simpl filter.
    destruct (String.eqb_spec (call_name c) k) as [E|N].
    + destruct (log_invocation_count_step w k (call_context c) (call_tags c)
                  (call_weight c) p H) as (p1 & G & C).
      unfold run_call. rewrite E.
      destruct (IH _ k p1 G) as (p' & G' & C').
      exists p'. split; [exact G'|]. rewrite C', C.
      unfold calls_naming. simpl Datatypes.length. lia.
    + unfold run_call.
      assert (G : dict_get (personas (exec (log_invocation (call_name c)
                   (call_context c) (call_tags c) (call_weight c)) w)) k = Some p).
      { rewrite log_invocation_other by congruence. exact H. }
      destruct (IH _ k p G) as (p' & G' & C').
      exists p'. split; [exact G'|]. rewrite C'. reflexivity.
Qed.

(** C3. A persona registered with [invocation_count] 0 and then taken
    through any sequence of [log_invocation] calls has an
    [invocation_count] equal to the number of calls of the sequence that
    name it; when all N calls name it, that is N. *)
Theorem invocation_count_counts_calls (w : World) (p : PersonaState)
    (cs : list call) :
  invocation_count p = 0 ->
  exists p',
    dict_get (personas (exec (register_persona p ;; run_calls cs) w)) (name p)
    = Some p'
    /\ invocation_count p' = Z.of_nat (calls_naming (name p) cs)
    /\ (Forall (fun c => call_name c = name p) cs ->
        invocation_count p' = Z.of_nat (List.length cs)).
Proof.
  intros Z0.
  destruct (register_persona_run p w) as (R & P & _).
  rewrite (exec_bind_ok _ _ _ tt R).
  assert (H : dict_get (personas (exec (register_persona p) w)) (name p) = Some p)
    by (rewrite P; apply dict_get_set_eq).
  destruct (run_calls_count cs _ _ _ H) as (p' & G & C).
  exists p'. split; [exact G|]. rewrite Z0, Z.add_0_l in C. split; [exact C|].
  intros A. rewrite C. f_equal. unfold calls_naming.
  clear - A. induction A as [|c cs E _ IH]; simpl; auto.
  rewrite E, String.eqb_refl. simpl. now rewrite IH.
Qed.

Lemma invocation_count_counts_calls_witness :
  exists p',
    dict_get (personas (exec (register_persona Sample.X ;;
                              run_calls (List.repeat Sample.call_X 3))
                          Sample.fresh)) "X"
    = Some p'
    /\ invocation_count p' = 3.
Proof.
  destruct (invocation_count_counts_calls Sample.fresh Sample.X
              (List.repeat Sample.call_X 3) eq_refl) as (p' & G & C & _).
  exists p'. split; [exact G | exact C].
Defined.

(** C4. A stage transition appends exactly one event to the event log.
    Its type is [evolution], its weight is 10, its context is
    [Stage n evolution] and its tags are [evolution] and [stage_n], where
    [n] is the stage of the persona after the increment. *)
Theorem stage_transition_logs_one_event (w : World) (k : string)
    (p : PersonaState) :
  dict_get (personas w) k = Some p ->
  exists p' ev,
    result (_trigger_evolution k) w = Ok tt
    /\ dict_get (personas (exec (_trigger_evolution k) w)) k = Some p'
    /\ evolution_stage p' = evolution_stage p + 1
    /\ events (exec (_trigger_evolution k) w) = events w ++ [ev]
    /\ persona_name ev = k
    /\ event_type ev = "evolution"
    /\ emotional_weight ev = 10
    /\ context ev
       = ("Stage " ++ Str.of_int (evolution_stage p') ++ " evolution")%string
    /\ tags ev
       = [ "evolution"; ("stage_" ++ Str.of_int (evolution_stage p'))%string ].
Proof.
  intros H.
  destruct (_trigger_evolution_known w k p H)
    as (w' & phrase & trait & R & _ & _ & P & E & _).
  unfold result, exec. rewrite R. simpl fst. simpl snd.
  rewrite P, E, dict_get_set_eq.
  eexists _, _. repeat split.
Qed.

Lemma stage_transition_logs_one_event_witness :
  exists p' ev,
    dict_get (personas (exec (_trigger_evolution "X") Sample.with_X)) "X" = Some p'
    /\ evolution_stage p' = 1
    /\ events (exec (_trigger_evolution "X") Sample.with_X) = [ev]
    /\ context ev = "Stage 1 evolution"
    /\ tags ev = ["evolution"; "stage_1"].
Proof.
  destruct (stage_transition_logs_one_event Sample.with_X "X" Sample.X eq_refl)
    as (p' & ev & _ & G & S & E & _ & _ & _ & C & T).
  exists p', ev. rewrite S in C, T.
  repeat split; [exact G | exact S | exact E | exact C | exact T].
Defined.

(** ** The identity fields *)

Lemma same_identity_refl (p : PersonaState) : same_identity p p.
Proof. repeat split. Qed.

Lemma same_identity_invoked (ctx : string) (p : PersonaState) :
  same_identity p (invoked ctx p).
Proof. repeat split. Qed.

Lemma same_identity_evolved (phrase trait : string) (p : PersonaState) :
  same_identity p (evolved phrase trait p).
Proof. repeat split. Qed.

Lemma same_identity_trans (p q r : PersonaState) :
  same_identity p q -> same_identity q r -> same_identity p r.
Proof. unfold same_identity. intros H1 H2. intuition congruence. Qed.

(** ** The trajectory of a persona that starts from zero *)

Lemma filter_le_succ (l : list Z) (n : nat) :
  List.length (filter (fun t => t <=? Z.of_nat (S n)) l)
  = Nat.add (List.length (filter (fun t => t <=? Z.of_nat n) l))
            (List.length (filter (fun t => t =? Z.of_nat (S n)) l)).
Proof.
  induction l as [|t l IH]; [reflexivity|]. cbn [filter].
  destruct (Z.leb_spec t (Z.of_nat (S n))), (Z.leb_spec t (Z.of_nat n)),
    (Z.eqb_spec t (Z.of_nat (S n))); cbn [List.length]; lia.
Qed.

Lemma thresholds_distinct (m : Z) :
  List.length (filter (fun t => t =? m) thresholds)
  = if existsb (Z.eqb m) thresholds then 1%nat else 0%nat.
Proof.
  unfold thresholds. cbn [filter existsb].
  rewrite !(Z.eqb_sym m).
  destruct (Z.eqb_spec 10 m), (Z.eqb_spec 25 m), (Z.eqb_spec 50 m),
    (Z.eqb_spec 100 m), (Z.eqb_spec 250 m); cbn [List.length orb]; lia.
Qed.

Lemma stage_at_succ (n : nat) :
  stage_at (S n)
  = if existsb (Z.eqb (Z.of_nat (S n))) thresholds
    then S (stage_at n) else stage_at n.
Proof.
  unfold stage_at. rewrite filter_le_succ, thresholds_distinct.
  destruct (existsb _ thresholds); lia.
Qed.

Lemma stage_at_le (n : nat) : (stage_at n <= 5)%nat.
Proof. unfold stage_at. apply (filter_length_le _ thresholds). Qed.

(** For a persona on its trajectory the guard on the stage never blocks a
    transition: the test of the loop is the test on the count alone. *)
Lemma threshold_hit_on_trajectory (p : PersonaState) (n : nat) :
  invocation_count p = Z.of_nat (S n) ->
  evolution_stage p = Z.of_nat (stage_at n) ->
  threshold_hit p = existsb (Z.eqb (Z.of_nat (S n))) thresholds.
Proof.
  intros C St. unfold threshold_hit. rewrite C, St.
  pose proof (stage_at_succ n) as E. pose proof (stage_at_le (S n)) as L.
  destruct (existsb _ thresholds); simpl; [|reflexivity].
  apply Z.ltb_lt. lia.
Qed.

Lemma count_type_app (ty : string) (l l' : list MythologicalEvent) :
  count_type ty (l ++ l') = Nat.add (count_type ty l) (count_type ty l').
Proof. unfold count_type. now rewrite filter_app, length_app. Qed.

Lemma trajectory_step (w : World) (k ctx : string)
    (tgs : option (list string)) (weight : Z) (p : PersonaState) (n : nat) :
  dict_get (personas w) k = Some p ->
  on_trajectory n p ->
  exists p',
    dict_get (personas (exec (log_invocation k ctx tgs weight) w)) k = Some p'
    /\ on_trajectory (S n) p'
    /\ log_extended n (S n) (events w)
         (events (exec (log_invocation k ctx tgs weight) w)).
Proof.
  intros H (C & St & Lp & Lt).
  destruct (log_invocation_known w k ctx tgs weight p H)
    as (w' & phrase & trait & R & _ & _ & P & E & _).
  unfold exec. rewrite R. simpl snd. rewrite P, E, dict_get_set_eq.
  assert (Hit : threshold_hit (invoked ctx p)
                = existsb (Z.eqb (Z.of_nat (S n))) thresholds).
  { apply threshold_hit_on_trajectory; cbn [invoked invocation_count
      evolution_stage set_accumulated_context set_invocation_count]; lia. }
  rewrite Hit. pose proof (stage_at_succ n) as Sn.
  unfold log_extended. rewrite !count_type_app, !length_app.
  eexists. split; [reflexivity|].
  destruct (existsb _ thresholds); unfold on_trajectory;
    cbn -[stage_at Z.of_nat]; rewrite ?length_app; cbn [List.length];
    repeat split; lia.
Qed.

Lemma trajectory_run (cs : list call) :
  forall (w : World) (k : string) (p : PersonaState) (n : nat),
    dict_get (personas w) k = Some p ->
    on_trajectory n p ->
    Forall (fun c => call_name c = k) cs ->
    exists p',
      dict_get (personas (exec (run_calls cs) w)) k = Some p'
      /\ on_trajectory (n + List.length cs) p'
      /\ log_extended n (n + List.length cs) (events w)
           (events (exec (run_calls cs) w)).
Proof.
  induction cs as [|c cs IH]; intros w k p n H T A.
  - exists p. rewrite Nat.add_0_r. split; [exact H|]. split; [exact T|].
    unfold log_extended. repeat split; lia.
  - rewrite run_calls_cons. inversion A as [|? ? E A']; subst.
    destruct (trajectory_step w (call_name c) (call_context c) (call_tags c)
                (call_weight c) p n H T) as (p1 & G1 & T1 & L1).
    fold (run_call c) in G1, L1.
    destruct (IH _ _ _ _ G1 T1 A') as (p' & G' & T' & L').
    exists p'. cbn [List.length]. rewrite Nat.add_succ_r.
    split; [exact G'|]. split; [exact T'|].
    unfold log_extended in *. cbn [Nat.add] in L'. repeat split; lia.
Qed.

(** C5. Register a persona named [X] with zero counters on an engine whose
    event log is empty, then make ten [log_invocation] calls that name it:
    its count is 10, its stage is 1, it has one learned phrase and one
    developed trait, and the log holds 11 events, ten of type [invocation]
    and one of type [evolution]. *)
Theorem ten_invocations_reach_stage_one (w : World) (r v e : string)
    (cons sp : list string) (cs : list call) :
  events w = [] ->
  List.length cs = 10%nat ->
  Forall (fun c => call_name c = "X") cs ->
  exists p',
    dict_get (personas (exec (register_persona (new_persona "X" r v e cons sp) ;;
                              run_calls cs) w)) "X" = Some p'
    /\ invocation_count p' = 10
    /\ evolution_stage p' = 1
    /\ List.length (learned_phrases p') = 1%nat
    /\ List.length (developed_traits p') = 1%nat
    /\ List.length (events (exec (register_persona (new_persona "X" r v e cons sp) ;;
                                  run_calls cs) w)) = 11%nat
    /\ count_type "invocation"
         (events (exec (register_persona (new_persona "X" r v e cons sp) ;;
                        run_calls cs) w)) = 10%nat
    /\ count_type "evolution"
         (events (exec (register_persona (new_persona "X" r v e cons sp) ;;
                        run_calls cs) w)) = 1%nat.
Proof.
  intros E0 Len A.
  set (p := new_persona "X" r v e cons sp).
  destruct (register_persona_run p w) as (R & P & E).
  rewrite (exec_bind_ok _ _ _ tt R).
  assert (H : dict_get (personas (exec (register_persona p) w)) "X" = Some p)
    by (rewrite P; apply dict_get_set_eq).
  assert (T : on_trajectory 0 p) by (repeat split).
  destruct (trajectory_run cs _ _ _ _ H T A) as (p' & G & T' & L).
  rewrite Len in T', L. rewrite E, E0 in L.
  destruct T' as (C & St & Lp & Lt). destruct L as (Li & Le & Ll).
  change (stage_at (0 + 10)) with 1%nat in *.
  change (stage_at 0) with 0%nat in *.
  change (count_type "invocation" []) with 0%nat in Li.
  change (count_type "evolution" []) with 0%nat in Le.
  cbn [List.length] in Ll.
  exists p'. repeat split; try assumption; lia.
Qed.

Lemma ten_invocations_reach_stage_one_witness :
  exists p',
    dict_get (personas (exec (register_persona
                                (new_persona "X" "Tester" "plain" "testing"
                                   ["Prepend nametag"] ["X: first."; "X: second."]) ;;
                              run_calls (List.repeat Sample.call_X 10))
                          Sample.fresh)) "X" = Some p'
    /\ invocation_count p' = 10
    /\ evolution_stage p' = 1.
Proof.
  assert (A : Forall (fun c => call_name c = "X") (List.repeat Sample.call_X 10))
    by (repeat constructor).
  destruct (ten_invocations_reach_stage_one Sample.fresh "Tester" "plain"
              "testing" ["Prepend nametag"] ["X: first."; "X: second."]
              (List.repeat Sample.call_X 10) eq_refl eq_refl A)
    as (p' & G & C & St & _).
  exists p'. split; [exact G|]. split; [exact C | exact St].
Defined.

(** ** The bound on the stage along any sequence of calls *)

Lemma log_invocation_stage_bound (w : World) (k ctx : string)
    (tgs : option (list string)) (weight : Z) :
  (forall k' q, dict_get (personas w) k' = Some q -> evolution_stage q <= 5) ->
  forall k' q,
    dict_get (personas (exec (log_invocation k ctx tgs weight) w)) k' = Some q ->
    evolution_stage q <= 5.
Proof.
  intros B k' q. destruct (String.eqb_spec k' k) as [->|N].
  - unfold exec. destruct (dict_get (personas w) k) as [p|] eqn:H.
    + destruct (log_invocation_known w k ctx tgs weight p H)
        as (w' & phrase & trait & -> & _ & _ & P & _).
      simpl snd. rewrite P, dict_get_set_eq. intros [= <-].
      specialize (B k p H).
      destruct (threshold_hit (invoked ctx p)) eqn:T; cbn; [|exact B].
      apply threshold_hit_spec in T. cbn in T. lia.
    + rewrite (log_invocation_unknown w k ctx tgs weight H). simpl snd.
      cbn [personas set_stdout]. congruence.
  - rewrite log_invocation_other by exact N. apply B.
Qed.

Lemma run_calls_stage_bound (cs : list call) :
  forall w : World,
    (forall k q, dict_get (personas w) k = Some q -> evolution_stage q <= 5) ->
    forall k q,
      dict_get (personas (exec (run_calls cs) w)) k = Some q ->
      evolution_stage q <= 5.
Proof.
  induction cs as [|c cs IH]; intros w B.
  - exact B.
  - rewrite run_calls_cons. apply IH. unfold run_call.
    now apply log_invocation_stage_bound.
Qed.

(** ** Persistence *)

Lemma omap_as_str (l : list string) : omap as_str (map JStr l) = Ok l.
Proof. induction l as [|s l IH]; simpl; [|rewrite IH]; reflexivity. Qed.

Lemma as_strings_of_strings (l : list string) :
  as_strings (json_of_strings l) = Ok l.
Proof. apply omap_as_str. Qed.

Lemma PersonaState_kwargs_to_dict (p : PersonaState) :
  PersonaState_kwargs (PersonaState_to_dict p) = Ok p.
Proof.
  destruct p as [n r v e cs sp ic es ac lp dt].
  unfold PersonaState_kwargs, PersonaState_to_dict, json_of_strings.
  cbn. rewrite !omap_as_str. reflexivity.
Qed.

Lemma MythologicalEvent_kwargs_to_dict (e : MythologicalEvent) :
  MythologicalEvent_kwargs (MythologicalEvent_to_dict e) = Ok e.
Proof.
  destruct e as [ts pn et cx ew tg].
  unfold MythologicalEvent_kwargs, MythologicalEvent_to_dict, json_of_strings.
  cbn. rewrite !omap_as_str. reflexivity.
Qed.

Lemma events_comprehension_to_dict (es : list MythologicalEvent) :
  omap MythologicalEvent_kwargs (map MythologicalEvent_to_dict es) = Ok es.
Proof.
  induction es as [|e es IH]; cbn [map omap]; [reflexivity|].
  rewrite MythologicalEvent_kwargs_to_dict. cbn [obind].
  now rewrite IH.
Qed.

Lemma personas_comprehension_to_dict (d : dict PersonaState) :
  forall acc : dict PersonaState,
    personas_comprehension
      (map (fun kp => (fst kp, PersonaState_to_dict (snd kp))) d) acc
    = Ok (fold_left (fun a kv => dict_set a (fst kv) (snd kv)) d acc).
Proof.
  induction d as [|[k p] d IH]; intros acc; [reflexivity|].
  cbn [map personas_comprehension fst snd].
  rewrite PersonaState_kwargs_to_dict. cbn [obind]. now rewrite IH.
Qed.

Lemma personas_comprehension_unique (items : list (string * json)) :
  forall acc ps : dict PersonaState,
    NoDup (dict_keys acc) ->
    personas_comprehension items acc = Ok ps -> NoDup (dict_keys ps).
Proof.
  induction items as [|[k j] items IH]; intros acc ps ND; simpl.
  - now intros [= <-].
  - destruct (PersonaState_kwargs j) as [p|e]; simpl; [|discriminate].
    apply IH. now apply dict_set_unique.
Qed.

Lemma exec_bind {A B} (c : M A) (k : A -> M B) (w : World) :
  exec (bind c k) w
  = match result c w with
    | Ok a => exec (k a) (exec c w)
    | Raise _ => exec c w
    end.
Proof. unfold exec, result, bind. now destruct (c w) as [[a|e] w1]. Qed.

Lemma load_personas_file_unique (w : World) :
  NoDup (dict_keys (personas w)) ->
  NoDup (dict_keys (personas (exec load_personas_file w))).
Proof.
  intros ND. unfold exec, load_personas_file, bind, gets, json_load, lift,
    modify, raise, ret.
  destruct (personas_file w) as [| | |[| | | | |items]]; simpl; auto.
  destruct (personas_comprehension items []) as [ps|e] eqn:E; simpl; auto.
  eapply personas_comprehension_unique; [|exact E]. constructor.
Qed.

Lemma load_events_file_personas (w : World) :
  personas (exec load_events_file w) = personas w.
Proof.
  unfold exec, load_events_file, bind, gets, json_load, lift, modify, raise, ret.
  destruct (events_file w) as [| | |j]; simpl; auto.
  destruct (obind (json_iter j) (omap MythologicalEvent_kwargs)); reflexivity.
Qed.

Lemma load_lore_file_personas (w : World) :
  personas (exec load_lore_file w) = personas w.
Proof.
  unfold exec, load_lore_file, bind, gets, json_load, modify, raise, ret.
  destruct (lore_file w); reflexivity.
Qed.

(** The store of a loaded engine has no repeated key. *)
Lemma _load_state_unique (w : World) :
  NoDup (dict_keys (personas w)) ->
  NoDup (dict_keys (personas (exec _load_state w))).
Proof.
  intros ND. apply load_personas_file_unique in ND.
  unfold _load_state. rewrite exec_bind.
  destruct (result load_personas_file w); [|exact ND].
  rewrite exec_bind.
  destruct (result load_events_file _).
  - now rewrite load_lore_file_personas, load_events_file_personas.
  - now rewrite load_events_file_personas.
Qed.

(** ** The report reads the store and changes nothing *)

Lemma report_of_known (w : World) (k : string) (p : PersonaState) :
  Str.truthy k = true ->
  dict_get (personas w) k = Some p ->
  generate_mythological_report (Some k) w
  = (Ok (Str.join Str.nl (fold_left report_persona [p] report_header)), w).
Proof.
  intros T H. unfold generate_mythological_report. rewrite T.
  rewrite (bind_ok _ _ w w [p]); [reflexivity|].
  now rewrite (bind_ok _ _ _ _ _ (personas_getitem_known _ _ _ H)).
Qed.

Lemma report_of_unknown (w : World) (k : string) :
  Str.truthy k = true ->
  dict_get (personas w) k = None ->
  generate_mythological_report (Some k) w = (Raise (KeyError k), w).
Proof.
  intros T H. unfold generate_mythological_report. rewrite T.
  apply bind_raise.
  now rewrite (bind_raise _ _ _ _ _ (personas_getitem_unknown _ _ H)).
Qed.

Lemma report_of_all (w : World) (n : option string) :
  match n with Some k => Str.truthy k = false | None => True end ->
  generate_mythological_report n w
  = (Ok (Str.join Str.nl
           (fold_left report_persona (dict_values (personas w)) report_header)),
     w).
Proof.
  intros T. unfold generate_mythological_report.
  destruct n as [k|]; [rewrite T|]; reflexivity.
Qed.

Lemma generate_mythological_report_pure (n : option string) (w : World) :
  exec (generate_mythological_report n) w = w.
Proof.
  unfold exec. destruct n as [k|].
  - destruct (Str.truthy k) eqn:T.
    + destruct (dict_get (personas w) k) as [p|] eqn:H.
      * now rewrite (report_of_known w k p T H).
      * now rewrite (report_of_unknown w k T H).
    + now rewrite (report_of_all w (Some k) T).
  - now rewrite (report_of_all w None I).
Qed.

Lemma run_op_unique (o : op) (w : World) :
  NoDup (dict_keys (personas w)) ->
  NoDup (dict_keys (personas (exec (run_op o) w))).
Proof.
  intros ND. destruct o as [persona|c|n| |d]; simpl run_op.
  - destruct (register_persona_run persona w) as (_ & -> & _).
    now apply dict_set_unique.
  - unfold run_call, exec.
    destruct (dict_get (personas w) (call_name c)) as [p|] eqn:H.
    + destruct (log_invocation_known w _ (call_context c) (call_tags c)
                  (call_weight c) p H)
        as (w' & phrase & trait & -> & _ & _ & P & _).
      simpl snd. rewrite P. now apply dict_set_unique.
    + now rewrite (log_invocation_unknown w _ (call_context c) (call_tags c)
                     (call_weight c) H).
  - rewrite exec_bind.
    destruct (result (generate_mythological_report n) w); simpl;
      now rewrite ?generate_mythological_report_pure.
  - exact ND.
  - exact ND.
Qed.

Lemma reachable_unique (w : World) :
  reachable w -> NoDup (dict_keys (personas w)).
Proof.
  induction 1 as [w _|w o _ IH].
  - unfold __init__. rewrite !exec_bind. simpl result.
    apply _load_state_unique. constructor.
  - now apply run_op_unique.
Qed.

(** Saving and loading again in place: the engine reads back what it has
    just written. *)
Lemma _save_state_then___init__ (w : World) :
  reachable w ->
  result (_save_state ;; __init__) w = Ok tt
  /\ personas (exec (_save_state ;; __init__) w) = personas w
  /\ events (exec (_save_state ;; __init__) w) = events w
  /\ generated_lore (exec (_save_state ;; __init__) w) = generated_lore w.
Proof.
  intros R. apply reachable_unique in R.
  unfold result, exec.
  rewrite (bind_ok _ _ _ _ _ (_save_state_run w)).
  unfold __init__, _load_state, load_personas_file, load_events_file,
    load_lore_file, json_load, bind, modify, gets, lift, ret.
  cbn [personas_file events_file lore_file set_files set_personas set_events
       set_generated_lore fst snd].
  rewrite personas_comprehension_to_dict.
  cbn [personas_file events_file lore_file set_files set_personas set_events
       set_generated_lore fst snd json_iter obind].
  rewrite events_comprehension_to_dict.
  cbn [personas events generated_lore personas_file events_file lore_file
       set_files set_personas set_events set_generated_lore fst snd].
  fold (dict_of_items (personas w)). rewrite (dict_of_items_id _ R).
  repeat split.
Qed.

(** ** Closed forms of the renderers *)

Lemma append_each_eq (line : string -> string) (xs out : list string) :
  append_each line xs out = out ++ map line xs.
Proof.
  unfold append_each. revert out.
  induction xs as [|x xs IH]; intros out; simpl.
  - now rewrite app_nil_r.
  - rewrite IH. unfold push. now rewrite <- app_assoc.
Qed.

Lemma report_persona_eq (report : list string) (p : PersonaState) :
  report_persona report p = report ++ report_block p.
Proof.
  unfold report_persona, report_block, push, bullet.
  rewrite !append_each_eq.
  destruct (developed_traits p), (learned_phrases p);
    cbn [nonempty List.concat map]; rewrite <- ?app_assoc; reflexivity.
Qed.

Lemma fold_report_persona (ps : list PersonaState) (report : list string) :
  fold_left report_persona ps report = report ++ flat_map report_block ps.
Proof.
  revert report. induction ps as [|p ps IH]; intros report; simpl.
  - now rewrite app_nil_r.
  - now rewrite IH, report_persona_eq, <- app_assoc.
Qed.

Lemma export_list_eq (key : string) (items out : list string) :
  (if nonempty items
   then append_each quoted_item items
          (push out ("    " ++ key ++ ":")%string)
   else out)
  = out ++ export_list key items.
Proof.
  destruct items as [|x xs]; cbn [nonempty export_list].
  - now rewrite app_nil_r.
  - rewrite append_each_eq. unfold push. now rewrite <- app_assoc.
Qed.

Lemma export_persona_eq (output : list string) (item : string * PersonaState) :
  export_persona output item = output ++ export_block item.
Proof.
  destruct item as [k p]. unfold export_persona, export_block.
  change (fun constraint => ("      - " ++ Str.dq ++ constraint ++ Str.dq)%string)
    with quoted_item.
  rewrite (export_list_eq "constraints"),
    (export_list_eq "sample_phrases"), (export_list_eq "developed_traits").
  unfold push. cbn [List.concat fst snd].
  rewrite <- !app_assoc. reflexivity.
Qed.

Lemma fold_export_persona (ps : dict PersonaState) (output : list string) :
  fold_left export_persona ps output = output ++ flat_map export_block ps.
Proof.
  revert output. induction ps as [|p ps IH]; intros output; simpl.
  - now rewrite app_nil_r.
  - now rewrite IH, export_persona_eq, <- app_assoc.
Qed.

Lemma export_evolved_presets_run (w : World) :
  export_evolved_presets w
  = (Ok (Str.join Str.nl
           (export_header (clock w (clock_pos w))
            ++ flat_map export_block (personas w))),
     set_clock_pos (S (clock_pos w)) w).
Proof.
  unfold export_evolved_presets, now_isoformat, bind, gets, modify, ret.
  cbn [personas set_clock_pos]. rewrite fold_export_persona. reflexivity.
Qed.

Lemma truthy_nonempty (k : string) : k <> EmptyString -> Str.truthy k = true.
Proof. destruct k; [congruence | reflexivity]. Qed.

(** C7. The export is its header followed by one block per persona, in the
    order of the store; in each block the items listed under
    [sample_phrases] are the original sample phrases followed by the
    learned phrases, each list in its stored order.  A persona with the
    original phrases [s1], [s2] and the learned phrase [l1] gets exactly
    the three items [s1], [s2], [l1].  The export leaves the store as it
    is. *)
Theorem export_lists_original_then_learned (w : World) :
  result export_evolved_presets w
  = Ok (Str.join Str.nl
          (export_header (clock w (clock_pos w))
           ++ flat_map export_block (personas w)))
  /\ personas (exec export_evolved_presets w) = personas w
  /\ (forall (k : string) (p : PersonaState),
        export_block (k, p)
        = [ ("  " ++ k ++ ":")%string;
            ("    role: " ++ Str.dq ++ role p ++ Str.dq)%string;
            ("    voice: " ++ Str.dq ++ voice p ++ Str.dq)%string;
            ("    essence: " ++ Str.dq ++ essence p ++ Str.dq)%string;
            ("    evolution_stage: " ++ Str.of_int (evolution_stage p))%string;
            ("    invocation_count: " ++ Str.of_int (invocation_count p))%string ]
          ++ export_list "constraints" (constraints p)
          ++ export_list "sample_phrases" (sample_phrases p ++ learned_phrases p)
          ++ export_list "developed_traits" (developed_traits p)
          ++ [EmptyString])
  /\ (forall s1 s2 l1 : string,
        export_list "sample_phrases" ([s1; s2] ++ [l1])
        = [ "    sample_phrases:";
            ("      - " ++ Str.dq ++ s1 ++ Str.dq)%string;
            ("      - " ++ Str.dq ++ s2 ++ Str.dq)%string;
            ("      - " ++ Str.dq ++ l1 ++ Str.dq)%string ]).
Proof.
  unfold result, exec. rewrite export_evolved_presets_run.
  split; [reflexivity|]. split; [reflexivity|]. split.
  - intros k p. unfold export_block. cbn [List.concat fst snd].
    now rewrite app_nil_r.
  - reflexivity.
Qed.

(** C9, as the code has it.  For every non-empty name that is a key of the
    store, the report for that name is the header followed by the block of
    that persona alone: its name and role, its stage, its count, its
    developed traits and then its learned phrases, each list in its stored
    order; and the call leaves the whole state as it was.  (For the empty
    name the test on [persona_name] selects the all-personas report.) *)
Theorem report_of_named_persona (w : World) (k : string) (p : PersonaState) :
  k <> EmptyString ->
  dict_get (personas w) k = Some p ->
  result (generate_mythological_report (Some k)) w
  = Ok (Str.join Str.nl
          (report_header
           ++ [ (Str.nl ++ "## " ++ name p ++ " — " ++ role p)%string;
                ("Evolution Stage: " ++ Str.of_int (evolution_stage p))%string;
                ("Invocations: " ++ Str.of_int (invocation_count p))%string ]
           ++ (if nonempty (developed_traits p)
               then (Str.nl ++ "Developed Traits:")%string
                    :: map bullet (developed_traits p)
               else [])
           ++ (if nonempty (learned_phrases p)
               then (Str.nl ++ "Learned Phrases:")%string
                    :: map bullet (learned_phrases p)
               else [])
           ++ [EmptyString]))
  /\ exec (generate_mythological_report (Some k)) w = w.
Proof.
  intros N H. apply truthy_nonempty in N.
  unfold result, exec. rewrite (report_of_known w k p N H).
  split; [|reflexivity]. cbn [fst]. do 2 f_equal.
  rewrite fold_report_persona. cbn [flat_map]. rewrite app_nil_r.
  unfold report_block. cbn [List.concat]. now rewrite app_nil_r.
Qed.

Lemma report_of_named_persona_witness :
  result (generate_mythological_report (Some "X")) Sample.with_X
  = Ok (Str.join Str.nl
          (report_header
           ++ [ (Str.nl ++ "## X — Tester")%string;
                "Evolution Stage: 0"; "Invocations: 0" ]
           ++ [] ++ [] ++ [EmptyString])).
Proof.
  assert (N : "X"%string <> EmptyString) by discriminate.
  exact (proj1 (report_of_named_persona Sample.with_X "X" Sample.X N eq_refl)).
Defined.

(** C9 as stated fails at the empty name: with a nameless persona and an
    evolved persona [B] in the store, the report asked for the nameless one
    also lists the stage, the trait and the phrase of [B]. *)
Lemma report_of_empty_name_lists_everyone :
  dict_get (personas Sample.with_anonymous) EmptyString = Some Sample.anonymous
  /\ result (generate_mythological_report (Some EmptyString)) Sample.with_anonymous
     = Ok (Str.join Str.nl
             (report_header
              ++ [ (Str.nl ++ "##  — Nameless")%string;
                   "Evolution Stage: 0"; "Invocations: 0"; EmptyString;
                   (Str.nl ++ "## B — Second")%string;
                   "Evolution Stage: 1"; "Invocations: 10";
                   (Str.nl ++ "Developed Traits:")%string;
                   "  • Gains nuanced emotional attunement";
                   (Str.nl ++ "Learned Phrases:")%string;
                   "  • B: I've learned something from our time together.";
                   EmptyString ]))
  /\ result (generate_mythological_report (Some EmptyString)) Sample.with_anonymous
     <> Ok (Str.join Str.nl (report_header ++ report_block Sample.anonymous)).
Proof.
  split; [vm_compute; reflexivity|].
  split; [vm_compute; reflexivity|].
  vm_compute. discriminate.
Qed.

(** C10, as the code has it.  For every non-empty name that is not a key of
    the store, [generate_mythological_report] raises [KeyError] and leaves
    the state as it was, whereas [log_invocation] with the same name
    returns normally.  (For the empty name the report does not fail: it is
    the all-personas report.) *)
Theorem report_of_unknown_name_raises (w : World) (k ctx : string)
    (tgs : option (list string)) (weight : Z) :
  k <> EmptyString ->
  dict_mem (personas w) k = false ->
  result (generate_mythological_report (Some k)) w = Raise (KeyError k)
  /\ exec (generate_mythological_report (Some k)) w = w
  /\ result (log_invocation k ctx tgs weight) w = Ok tt.
Proof.
  intros N U. apply truthy_nonempty in N.
  assert (H : dict_get (personas w) k = None).
  { unfold dict_mem in U. destruct (dict_get (personas w) k); congruence. }
  unfold result, exec. rewrite (report_of_unknown w k N H).
  split; [reflexivity|]. split; [reflexivity|].
  apply log_invocation_total.
Qed.

Lemma report_of_unknown_name_raises_witness :
  result (generate_mythological_report (Some "Y")) Sample.with_X
  = Raise (KeyError "Y").
Proof.
  assert (N : "Y"%string <> EmptyString) by discriminate.
  exact (proj1 (report_of_unknown_name_raises Sample.with_X "Y" "ctx" None 5
                  N eq_refl)).
Defined.

(** C10 as stated fails at the empty name: it is not a key of the store,
    and the report requested for it is returned normally. *)
Lemma report_of_unknown_empty_name_succeeds :
  dict_mem (personas Sample.with_B) EmptyString = false
  /\ result (generate_mythological_report (Some EmptyString)) Sample.with_B
     = Ok (Str.join Str.nl
             (report_header
              ++ [ (Str.nl ++ "## B — Second")%string;
                   "Evolution Stage: 1"; "Invocations: 10";
                   (Str.nl ++ "Developed Traits:")%string;
                   "  • Gains nuanced emotional attunement";
                   (Str.nl ++ "Learned Phrases:")%string;
                   "  • B: I've learned something from our time together.";
                   EmptyString ]))
  /\ forall e : exn,
       result (generate_mythological_report (Some EmptyString)) Sample.with_B
       <> Raise e.
Proof.
  split; [vm_compute; reflexivity|].
  split; [vm_compute; reflexivity|].
  intros e. vm_compute. discriminate.
Qed.

(** The scenario of the export on a concrete run: [X] was registered with
    two sample phrases and has learned one phrase at its tenth
    invocation. *)
Example export_of_X_after_ten_invocations :
  result export_evolved_presets Sample.X_at_10
  = Ok (Str.join Str.nl
          [ "# ============================================================";
            "#  SANCTUARY — EVOLVED AVATAR PRESETS";
            "#  Generated: t11";
            "# ============================================================";
            EmptyString;
            "  X:";
            ("    role: " ++ Str.dq ++ "Tester" ++ Str.dq)%string;
            ("    voice: " ++ Str.dq ++ "plain" ++ Str.dq)%string;
            ("    essence: " ++ Str.dq ++ "testing" ++ Str.dq)%string;
            "    evolution_stage: 1";
            "    invocation_count: 10";
            "    constraints:";
            quoted_item "Prepend nametag";
            "    sample_phrases:";
            quoted_item "X: first.";
            quoted_item "X: second.";
            quoted_item "X: I've learned something from our time together.";
            "    developed_traits:";
            quoted_item "Gains nuanced emotional attunement";
            EmptyString ]).
Proof. vm_compute. reflexivity. Qed.

(** * Further properties *)

(** ** Registration *)

(** X1. [register_persona] returns normally; afterwards the persona is
    found under its name, every other entry is as before, the event log is
    untouched and the three documents hold the new state. *)
Theorem register_persona_then_lookup (w : World) (persona : PersonaState) :
  result (register_persona persona) w = Ok tt
  /\ dict_get (personas (exec (register_persona persona) w)) (name persona)
     = Some persona
  /\ (forall k, k <> name persona ->
        dict_get (personas (exec (register_persona persona) w)) k
        = dict_get (personas w) k)
  /\ events (exec (register_persona persona) w) = events w
  /\ flushed (exec (register_persona persona) w).
Proof.
  split; [reflexivity|]. split; [apply dict_get_set_eq|].
  split; [|split; [reflexivity | repeat split]].
  intros k N. apply dict_get_set_neq. congruence.
Qed.

(** X2. Registering under a name that is already a key replaces the whole
    entry in place: the keys and their order are unchanged, and the
    evolution state of the old entry is gone (last write wins). *)
Theorem register_persona_overwrites (w : World) (persona old : PersonaState) :
  dict_get (personas w) (name persona) = Some old ->
  dict_keys (personas (exec (register_persona persona) w))
  = dict_keys (personas w)
  /\ List.length (personas (exec (register_persona persona) w))
     = List.length (personas w)
  /\ dict_get (personas (exec (register_persona persona) w)) (name persona)
     = Some persona.
Proof.
  intros H.
  assert (K : dict_keys (personas (exec (register_persona persona) w))
              = dict_keys (personas w))
    by (apply (dict_keys_set_known _ _ _ _ H)).
  split; [exact K|]. split; [|apply dict_get_set_eq].
  unfold dict_keys in K. apply (f_equal (@List.length string)) in K.
  now rewrite !length_map in K.
Qed.

Lemma register_persona_overwrites_witness :
  dict_keys (personas (exec (register_persona Sample.X) Sample.X_at_9))
  = dict_keys (personas Sample.X_at_9)
  /\ dict_get (personas (exec (register_persona Sample.X) Sample.X_at_9)) "X"
     = Some Sample.X.
Proof.
  assert (H : dict_get (personas Sample.X_at_9) (name Sample.X)
              = Some Sample.X_nine) by (vm_compute; reflexivity).
  destruct (register_persona_overwrites Sample.X_at_9 Sample.X Sample.X_nine H)
    as (K & _ & G).
  split; [exact K | exact G].
Defined.

(** X3. Registering under a name that is not yet a key puts the new entry
    last in the iteration order of the store. *)
Theorem register_persona_appends (w : World) (persona : PersonaState) :
  dict_mem (personas w) (name persona) = false ->
  personas (exec (register_persona persona) w)
  = personas w ++ [(name persona, persona)].
Proof.
  intros U.
  assert (H : dict_get (personas w) (name persona) = None).
  { unfold dict_mem in U. destruct (dict_get (personas w) (name persona));
      congruence. }
  exact (dict_set_fresh _ _ _ H).
Qed.

Lemma register_persona_appends_witness :
  personas (exec (register_persona Sample.B) Sample.with_X)
  = personas Sample.with_X ++ [("B"%string, Sample.B)].
Proof.
  assert (U : dict_mem (personas Sample.with_X) (name Sample.B) = false)
    by (vm_compute; reflexivity).
  exact (register_persona_appends Sample.with_X Sample.B U).
Defined.

(** ** Every mutation is flushed *)

Lemma result_bind {A B} (c : M A) (k : A -> M B) (w : World) :
  result (bind c k) w
  = match result c w with
    | Ok a => result (k a) (exec c w)
    | Raise e => Raise e
    end.
Proof. unfold exec, result, bind. now destruct (c w) as [[a|e] w1]. Qed.

Ltac load_block :=
  intros (P & E & L) (Fp & Fe & Fl);
  unfold result, exec, same_engine, same_files,
    load_personas_file, load_events_file, load_lore_file,
    bind, gets, json_load, lift, modify, raise, ret;
  rewrite ?Fp, ?Fe, ?Fl;
  repeat match goal with
         | |- context [match ?x with _ => _ end] =>
             match x with
             | personas_file _ => destruct x as [| | |[| | | | |?]] eqn:?
             | events_file _ => destruct x eqn:?
             | lore_file _ => destruct x eqn:?
             | personas_comprehension _ _ => destruct x eqn:?
             | obind _ _ => destruct x eqn:?
             end
         end;
  cbn; repeat split; congruence.

Lemma load_personas_file_agree (w1 w2 : World) :
  same_engine w1 w2 -> same_files w1 w2 ->
  result load_personas_file w2 = result load_personas_file w1
  /\ same_engine (exec load_personas_file w1) (exec load_personas_file w2)
  /\ same_files (exec load_personas_file w1) (exec load_personas_file w2)
  /\ same_files w1 (exec load_personas_file w1).
Proof. load_block. Qed.

Lemma load_events_file_agree (w1 w2 : World) :
  same_engine w1 w2 -> same_files w1 w2 ->
  result load_events_file w2 = result load_events_file w1
  /\ same_engine (exec load_events_file w1) (exec load_events_file w2)
  /\ same_files (exec load_events_file w1) (exec load_events_file w2)
  /\ same_files w1 (exec load_events_file w1).
Proof. load_block. Qed.

Lemma load_lore_file_agree (w1 w2 : World) :
  same_engine w1 w2 -> same_files w1 w2 ->
  result load_lore_file w2 = result load_lore_file w1
  /\ same_engine (exec load_lore_file w1) (exec load_lore_file w2)
  /\ same_files (exec load_lore_file w1) (exec load_lore_file w2)
  /\ same_files w1 (exec load_lore_file w1).
Proof. load_block. Qed.

Lemma same_files_trans (w1 w2 w3 : World) :
  same_files w1 w2 -> same_files w2 w3 -> same_files w1 w3.
Proof. unfold same_files. intuition congruence. Qed.

Lemma _load_state_agree (w1 w2 : World) :
  same_engine w1 w2 -> same_files w1 w2 ->
  result _load_state w2 = result _load_state w1
  /\ same_engine (exec _load_state w1) (exec _load_state w2)
  /\ same_files w1 (exec _load_state w1).
Proof.
  intros HE HF. unfold _load_state.
  rewrite !result_bind, !exec_bind.
  destruct (load_personas_file_agree w1 w2 HE HF) as (RA & EA & FA & FA1).
  rewrite RA. destruct (result load_personas_file w1) eqn:RA1; [|auto].
  rewrite ?result_bind, ?exec_bind.
  destruct (load_events_file_agree _ _ EA FA) as (RB & EB & FB & FB1).
  rewrite RB.
  destruct (result load_events_file (exec load_personas_file w1)) eqn:RB1.
  - destruct (load_lore_file_agree _ _ EB FB) as (RC & EC & _ & FC1).
    split; [exact RC|]. split; [exact EC|].
    eauto using same_files_trans.
  - split; [reflexivity|]. split; [exact EB|].
    eauto using same_files_trans.
Qed.

(** What a newly constructed engine holds is decided by the three
    documents alone, and constructing it writes nothing. *)
Lemma __init___of_files (w1 w2 : World) :
  same_files w1 w2 ->
  result __init__ w2 = result __init__ w1
  /\ same_engine (exec __init__ w1) (exec __init__ w2)
  /\ same_files w1 (exec __init__ w1).
Proof.
  intros HF. unfold __init__.
  rewrite !result_bind, !exec_bind. cbn [result exec modify fst snd].
  set (w1' := set_generated_lore _ (set_events _ (set_personas _ w1))).
  set (w2' := set_generated_lore _ (set_events _ (set_personas _ w2))).
  assert (HE' : same_engine w1' w2') by (repeat split).
  assert (HF' : same_files w1' w2') by exact HF.
  destruct (_load_state_agree w1' w2' HE' HF') as (R & E & F).
  split; [exact R|]. split; [exact E | exact F].
Qed.

Lemma flushed_reloads (w : World) :
  NoDup (dict_keys (personas w)) ->
  flushed w ->
  result __init__ w = Ok tt /\ same_engine w (exec __init__ w).
Proof.
  intros ND (Fp & Fe & Fl).
  unfold result, exec, same_engine, __init__, _load_state, load_personas_file,
    load_events_file, load_lore_file, json_load, bind, modify, gets, lift, ret.
  cbn [personas_file events_file lore_file set_files set_personas set_events
       set_generated_lore fst snd].
  rewrite Fp. unfold personas_document.
  rewrite personas_comprehension_to_dict.
  cbn [personas_file events_file lore_file set_files set_personas set_events
       set_generated_lore fst snd json_iter obind].
  rewrite Fe. unfold events_document.
  cbn [json_iter obind]. rewrite events_comprehension_to_dict.
  cbn [personas events generated_lore personas_file events_file lore_file
       set_files set_personas set_events set_generated_lore fst snd].
  rewrite Fl.
  cbn [personas events generated_lore personas_file events_file lore_file
       set_files set_personas set_events set_generated_lore fst snd].
  fold (dict_of_items (personas w)). rewrite (dict_of_items_id _ ND).
  repeat split.
Qed.

Lemma log_invocation_known_shape (w : World) (k ctx : string)
    (tgs : option (list string)) (weight : Z) (p : PersonaState) :
  dict_get (personas w) k = Some p ->
  exists wc out,
    log_invocation k ctx tgs weight w
    = (Ok tt,
       set_stdout out
         (set_files (Document (personas_document (personas wc)))
            (Document (events_document (events wc)))
            (Document (generated_lore wc)) wc)).
Proof.
  intros H. unfold log_invocation.
  rewrite (bind_ok _ _ _ _ _ (eq_refl : gets personas w = (Ok (personas w), w))).
  cbv beta. rewrite (dict_mem_known _ _ _ H). cbn [negb].
  run_known H.
  set (w1 := set_personas _ w).
  assert (H1 : dict_get (personas w1) k
               = Some (set_invocation_count (invocation_count p + 1) p))
    by apply dict_get_set_eq.
  run_known H1.
  set (w2 := set_personas _ w1).
  rewrite (bind_ok _ _ _ _ _ (eq_refl : now_isoformat w2 = (Ok _, _))).
  rewrite (bind_ok _ _ _ _ _ (eq_refl : events_append _ _ = (Ok tt, _))).
  set (w3 := set_events _ _).
  assert (H3 : dict_get (personas w3) k = Some (invoked ctx p))
    by apply dict_get_set_eq.
  assert (C : exists wc q, _check_evolution k w3 = (Ok tt, wc)
                           /\ dict_get (personas wc) k = Some q).
  { rewrite (_check_evolution_known _ _ _ H3).
    destruct (threshold_hit (invoked ctx p)).
    - destruct (_trigger_evolution_known _ _ _ H3)
        as (w' & phrase & trait & R & _ & _ & P & _).
      exists w'. eexists. split; [exact R|]. rewrite P. apply dict_get_set_eq.
    - exists w3. eexists. split; [reflexivity | exact H3]. }
  destruct C as (wc & q & R & Hc).
  rewrite (bind_ok _ _ _ _ _ R).
  rewrite (bind_ok _ _ _ _ _ (_save_state_run wc)).
  set (w4 := set_files _ _ _ wc).
  assert (H4 : dict_get (personas w4) k = Some q) by exact Hc.
  run_known H4.
  eexists wc, _. reflexivity.
Qed.

Lemma log_invocation_known_flushed (w : World) (k ctx : string)
    (tgs : option (list string)) (weight : Z) (p : PersonaState) :
  dict_get (personas w) k = Some p ->
  flushed (exec (log_invocation k ctx tgs weight) w).
Proof.
  intros H.
  destruct (log_invocation_known_shape w k ctx tgs weight p H)
    as (wc & out & R).
  unfold exec. rewrite R. repeat split.
Qed.

(** X4. A [log_invocation] call that names a registered persona ends with
    the three durable documents holding exactly the state the call has
    produced: the count, the context, the new events and any stage
    transition are all on disk when the call returns. *)
Theorem log_invocation_flushes (w : World) (k ctx : string)
    (tgs : option (list string)) (weight : Z) (p : PersonaState) :
  dict_get (personas w) k = Some p ->
  personas_file (exec (log_invocation k ctx tgs weight) w)
  = Document (personas_document
                (personas (exec (log_invocation k ctx tgs weight) w)))
  /\ events_file (exec (log_invocation k ctx tgs weight) w)
     = Document (events_document
                   (events (exec (log_invocation k ctx tgs weight) w)))
  /\ lore_file (exec (log_invocation k ctx tgs weight) w)
     = Document (generated_lore (exec (log_invocation k ctx tgs weight) w)).
Proof. apply log_invocation_known_flushed. Qed.

Lemma log_invocation_flushes_witness :
  personas_file (exec (log_invocation "X" "ctx" None 5) Sample.X_at_9)
  = Document (personas_document
                (personas (exec (log_invocation "X" "ctx" None 5) Sample.X_at_9))).
Proof.
  assert (H : dict_get (personas Sample.X_at_9) "X" = Some Sample.X_nine)
    by (vm_compute; reflexivity).
  exact (proj1 (log_invocation_flushes Sample.X_at_9 "X" "ctx" None 5
                  Sample.X_nine H)).
Defined.

(** The operations that read, or that find nothing to do, leave the engine
    and the documents alone. *)
Lemma run_op_quiet_or_flushed (o : op) (w : World) :
  (same_engine w (exec (run_op o) w) /\ same_files w (exec (run_op o) w))
  \/ flushed (exec (run_op o) w).
Proof.
  destruct o as [persona|c|n| |d]; simpl run_op.
  - right. repeat split.
  - unfold run_call.
    destruct (dict_get (personas w) (call_name c)) as [p|] eqn:H.
    + right. now apply log_invocation_known_flushed with (p := p).
    + left. unfold exec.
      rewrite (log_invocation_unknown w _ (call_context c) (call_tags c)
                 (call_weight c) H).
      repeat split.
  - left. rewrite exec_bind.
    destruct (result (generate_mythological_report n) w); simpl;
      rewrite ?generate_mythological_report_pure; repeat split.
  - left. repeat split.
  - left. repeat split.
Qed.

(** A reachable engine reads back its own state from its own documents. *)
Lemma reachable_reloads (w : World) :
  reachable w ->
  result __init__ w = Ok tt /\ same_engine w (exec __init__ w).
Proof.
  intros R. pose proof (reachable_unique w R) as ND.
  induction R as [w0 R0|w o R IH].
  - destruct (__init___of_files w0 (exec __init__ w0)) as (Rs & E & _).
    { destruct (__init___of_files w0 w0) as (_ & _ & F); [repeat split|].
      exact F. }
    rewrite Rs. split; [exact R0|].
    unfold same_engine in *. intuition congruence.
  - destruct (run_op_quiet_or_flushed o w) as [(E & F)|Fl].
    + destruct (IH (reachable_unique w R)) as (R1 & E1).
      destruct (__init___of_files w (exec (run_op o) w) F) as (Rs & E2 & _).
      rewrite Rs. split; [exact R1|].
      unfold same_engine in *. intuition congruence.
    + now apply flushed_reloads.
Qed.

(** ** The round trip through the documents *)

(** C6. From every reachable state of the engine, saving the state and
    then constructing an engine over the documents just written succeeds
    and gives a persona store and an event log (and a lore cache) equal,
    entry for entry and field for field, to the saved ones.  The new
    engine is any engine over those documents: what its memory held
    before it was constructed does not count. *)
Theorem save_then_reload_is_identity (w w0 : World) :
  reachable w ->
  same_files (exec _save_state w) w0 ->
  result __init__ w0 = Ok tt
  /\ personas (exec __init__ w0) = personas w
  /\ events (exec __init__ w0) = events w
  /\ generated_lore (exec __init__ w0) = generated_lore w.
Proof.
  intros R F. apply reachable_unique in R.
  assert (Fl : flushed (exec _save_state w)).
  { unfold exec. rewrite _save_state_run. repeat split. }
  assert (E : same_engine w (exec _save_state w)).
  { unfold exec. rewrite _save_state_run. repeat split. }
  destruct E as (Ep & Ee & El).
  destruct (flushed_reloads (exec _save_state w)) as (R1 & P1 & E1 & L1);
    [now rewrite Ep | exact Fl |].
  destruct (__init___of_files _ _ F) as (Rs & (P2 & E2 & L2) & _).
  rewrite Rs. split; [exact R1|]. repeat split; congruence.
Qed.

Lemma save_then_reload_is_identity_witness :
  personas (exec __init__ Sample3.next_process) = personas Sample.session
  /\ events (exec __init__ Sample3.next_process) = events Sample.session.
Proof.
  assert (R : reachable Sample.session).
  { unfold Sample.session. repeat apply reach_op. apply reach_init.
    vm_compute. reflexivity. }
  assert (F : same_files (exec _save_state Sample.session) Sample3.next_process).
  { unfold same_files, Sample3.next_process.
    cbn [personas_file events_file lore_file set_files]. repeat split. }
  destruct (save_then_reload_is_identity Sample.session Sample3.next_process R F)
    as (_ & P & E & _).
  split; [exact P | exact E].
Defined.

(** X5. In every reachable state the engine holds nothing that is not in
    its documents: any engine constructed over the data directory as it is
    at that moment comes up without error with the same store, the same
    event log and the same lore cache, whatever its memory held before.
    (Documents and personas have their declared field types throughout.) *)
Theorem reachable_state_is_durable (w w0 : World) :
  reachable w ->
  same_files w w0 ->
  result __init__ w0 = Ok tt /\ same_engine w (exec __init__ w0).
Proof.
  intros R F. destruct (reachable_reloads w R) as (R1 & P1 & E1 & L1).
  destruct (__init___of_files _ _ F) as (Rs & (P2 & E2 & L2) & _).
  rewrite Rs. split; [exact R1|]. repeat split; congruence.
Qed.

Lemma reachable_state_is_durable_witness :
  result __init__ Sample3.second_process = Ok tt
  /\ same_engine Sample.session (exec __init__ Sample3.second_process).
Proof.
  assert (R : reachable Sample.session).
  { unfold Sample.session. repeat apply reach_op. apply reach_init.
    vm_compute. reflexivity. }
  assert (F : same_files Sample.session Sample3.second_process).
  { unfold same_files, Sample3.second_process.
    cbn [personas_file events_file lore_file set_files]. repeat split. }
  exact (reachable_state_is_durable Sample.session Sample3.second_process R F).
Defined.

(** ** Loading *)

(** X6. A document that does not exist is not an error: when the engine
    comes up, each missing document leaves its collection empty, whatever
    the other two documents hold. *)
Theorem missing_documents_load_as_empty (w : World) :
  result __init__ w = Ok tt ->
  (personas_file w = Missing -> personas (exec __init__ w) = [])
  /\ (events_file w = Missing -> events (exec __init__ w) = [])
  /\ (lore_file w = Missing -> generated_lore (exec __init__ w) = JObj []).
Proof.
  unfold result, exec, __init__, _load_state, load_personas_file,
    load_events_file, load_lore_file, bind, gets, json_load, lift, modify,
    raise, ret.
  cbn [personas_file events_file lore_file set_personas set_events
       set_generated_lore fst snd].
  destruct (personas_file w) as [| | |[| | | | |items]] eqn:Fp; cbn;
    try discriminate;
    try (destruct (personas_comprehension items []) eqn:Cp; cbn;
         try discriminate);
    (destruct (events_file w) as [| | |j] eqn:Fe; cbn; try discriminate;
     try (destruct (obind (json_iter j) (omap MythologicalEvent_kwargs)) eqn:Ce;
          cbn; try discriminate);
     destruct (lore_file w) eqn:Fl; cbn; try discriminate;
     intros _; repeat split; intros; congruence).
Qed.

Lemma missing_documents_load_as_empty_witness :
  events (exec __init__ Sample2.only_snapshot) = []
  /\ generated_lore (exec __init__ Sample2.only_snapshot) = JObj [].
Proof.
  assert (R : result __init__ Sample2.only_snapshot = Ok tt)
    by (vm_compute; reflexivity).
  destruct (missing_documents_load_as_empty Sample2.only_snapshot R)
    as (_ & E & L).
  split; [apply E | apply L]; reflexivity.
Defined.

(** X7. An unreadable document is fatal: if any of the three documents
    exists and is not JSON text, constructing the engine raises.  The
    documents are read in the order personas, events, lore, and the first
    one that exists decides: bytes that are not text raise
    [UnicodeDecodeError], text that is not JSON raises [JSONDecodeError];
    when it is the persona snapshot the engine is left empty. *)
Theorem malformed_document_is_fatal (w : World) :
  unreadable (personas_file w) \/ unreadable (events_file w)
  \/ unreadable (lore_file w) ->
  exists e,
    result __init__ w = Raise e
    /\ (unreadable (personas_file w) ->
        personas (exec __init__ w) = [] /\ events (exec __init__ w) = [])
    /\ (personas_file w = Undecodable -> e = UnicodeDecodeError)
    /\ (personas_file w = Garbage -> e = JSONDecodeError)
    /\ (personas_file w = Missing ->
        (events_file w = Undecodable -> e = UnicodeDecodeError)
        /\ (events_file w = Garbage -> e = JSONDecodeError)
        /\ (events_file w = Missing ->
            (lore_file w = Undecodable -> e = UnicodeDecodeError)
            /\ (lore_file w = Garbage -> e = JSONDecodeError))).
Proof.
  unfold unreadable, result, exec, __init__, _load_state, load_personas_file,
    load_events_file, load_lore_file, bind, gets, json_load, lift, modify,
    raise, ret.
  cbn [personas_file events_file lore_file set_personas set_events
       set_generated_lore fst snd].
  intros G.
  destruct (personas_file w) as [| | |[| | | | |items]] eqn:Fp; cbn;
    try (eexists; split; [reflexivity|];
         repeat split; intros; intuition (discriminate || reflexivity); fail);
    try (destruct (personas_comprehension items []) eqn:Cp; cbn;
         try (eexists; split; [reflexivity|];
              repeat split; intros; intuition discriminate; fail));
    (destruct (events_file w) as [| | |j] eqn:Fe; cbn;
     try (eexists; split; [reflexivity|];
          repeat split; intros; intuition (discriminate || reflexivity); fail);
     try (destruct (obind (json_iter j) (omap MythologicalEvent_kwargs)) eqn:Ce;
          cbn; try (eexists; split; [reflexivity|];
                    repeat split; intros; intuition discriminate; fail));
     destruct (lore_file w) eqn:Fl; cbn;
     try (eexists; split; [reflexivity|];
          repeat split; intros; intuition (discriminate || reflexivity); fail);
     exfalso; intuition discriminate).
Qed.

Lemma malformed_document_is_fatal_witness :
  exists e,
    result __init__ Sample3.half_written = Raise e /\ e = UnicodeDecodeError.
Proof.
  assert (G : unreadable (events_file Sample3.half_written))
    by (left; reflexivity).
  destruct (malformed_document_is_fatal Sample3.half_written
              (or_intror (or_introl G))) as (e & R & _ & _ & _ & P).
  exists e. split; [exact R|].
  apply (proj1 (P eq_refl)). reflexivity.
Defined.

(** ** Records and keyword arguments *)

(** X8. Building a persona, or an event, from the dict that [to_dict]
    made of it gives the same object back, field for field. *)
Theorem to_dict_then_kwargs_roundtrip (p : PersonaState) (e : MythologicalEvent) :
  PersonaState_kwargs (PersonaState_to_dict p) = Ok p
  /\ MythologicalEvent_kwargs (MythologicalEvent_to_dict e) = Ok e.
Proof.
  split.
  - apply PersonaState_kwargs_to_dict.
  - apply MythologicalEvent_kwargs_to_dict.
Qed.

(** X9. A stored persona record that carries the six identity keys only,
    or that carries [null] for the three list fields, loads with zero
    counters and empty lists: the defaults of the dataclass and what
    [__post_init__] makes of [None]. *)
Theorem bare_record_loads_with_defaults (n r v e : string)
    (cs sp : list string) :
  PersonaState_kwargs
    (JObj [ ("name", JStr n); ("role", JStr r); ("voice", JStr v);
            ("essence", JStr e); ("constraints", json_of_strings cs);
            ("sample_phrases", json_of_strings sp) ])
  = Ok (new_persona n r v e cs sp)
  /\ PersonaState_kwargs
       (JObj [ ("name", JStr n); ("role", JStr r); ("voice", JStr v);
               ("essence", JStr e); ("constraints", json_of_strings cs);
               ("sample_phrases", json_of_strings sp);
               ("accumulated_context", JNull); ("learned_phrases", JNull);
               ("developed_traits", JNull) ])
     = Ok (new_persona n r v e cs sp).
Proof.
  unfold PersonaState_kwargs, json_of_strings, new_persona.
  split; cbn; rewrite !omap_as_str; reflexivity.
Qed.

Lemma omap_as_str_inv (l : list json) (l' : list string) :
  omap as_str l = Ok l' -> l = map JStr l'.
Proof.
  revert l'. induction l as [|j l IH]; intros l'; cbn [omap].
  - now intros [= <-].
  - destruct j; cbn; try discriminate.
    destruct (omap as_str l) as [ys|]; cbn; [|discriminate].
    intros [= <-]. cbn. now rewrite (IH ys eq_refl).
Qed.

Lemma required_as_str_inv (kw : dict json) (k s : string) :
  required kw k as_str = Ok s -> dict_get kw k = Some (JStr s).
Proof.
  unfold required. destruct (dict_get kw k) as [[]|]; cbn; congruence.
Qed.

Lemma required_as_strings_inv (kw : dict json) (k : string) (l : list string) :
  required kw k as_strings = Ok l -> dict_get kw k = Some (json_of_strings l).
Proof.
  unfold required. destruct (dict_get kw k) as [[]|]; cbn; try congruence.
  intros H. apply omap_as_str_inv in H. now subst.
Qed.

Lemma only_keywords_inv (params : list string) (kw : dict json) :
  only_keywords params kw = Ok tt ->
  forall k, In k (dict_keys kw) -> In k params.
Proof.
  unfold only_keywords.
  destruct (forallb _ (dict_keys kw)) eqn:F; [|discriminate].
  intros _ k I. rewrite forallb_forall in F. specialize (F k I).
  apply existsb_exists in F. destruct F as (x & Ix & E).
  apply String.eqb_eq in E. now subst.
Qed.

(** X10. A persona record is accepted only when it is a dict with all six
    identity keys and no key that is not a field of the dataclass; the
    identity fields of the persona built are then those of the record. *)
Theorem accepted_record_is_well_formed (state : json) (p : PersonaState) :
  PersonaState_kwargs state = Ok p ->
  exists kw,
    state = JObj kw
    /\ (forall k, In k (dict_keys kw) -> In k PersonaState_params)
    /\ dict_get kw "name" = Some (JStr (name p))
    /\ dict_get kw "role" = Some (JStr (role p))
    /\ dict_get kw "voice" = Some (JStr (voice p))
    /\ dict_get kw "essence" = Some (JStr (essence p))
    /\ dict_get kw "constraints" = Some (json_of_strings (constraints p))
    /\ dict_get kw "sample_phrases" = Some (json_of_strings (sample_phrases p)).
Proof.
  destruct state as [| | | | |kw]; try discriminate.
  unfold PersonaState_kwargs. intros H. exists kw. split; [reflexivity|].
  destruct (only_keywords PersonaState_params kw) as [[]|] eqn:K;
    [|discriminate].
  destruct (required kw "name" as_str) as [n|] eqn:E1; [|discriminate].
  destruct (required kw "role" as_str) as [r|] eqn:E2; [|discriminate].
  destruct (required kw "voice" as_str) as [v|] eqn:E3; [|discriminate].
  destruct (required kw "essence" as_str) as [e|] eqn:E4; [|discriminate].
  destruct (required kw "constraints" as_strings) as [cs|] eqn:E5;
    [|discriminate].
  destruct (required kw "sample_phrases" as_strings) as [sp|] eqn:E6;
    [|discriminate].
  cbn [obind] in H.
  destruct (optional kw "invocation_count" as_int 0); [|discriminate].
  destruct (optional kw "evolution_stage" as_int 0); [|discriminate].
  destruct (optional_list kw "accumulated_context"); [|discriminate].
  destruct (optional_list kw "learned_phrases"); [|discriminate].
  destruct (optional_list kw "developed_traits"); [|discriminate].
  cbn [obind] in H. injection H as <-.
  split; [exact (only_keywords_inv _ _ K)|].
  cbn [name role voice essence constraints sample_phrases].
  repeat split;
    auto using required_as_str_inv, required_as_strings_inv.
Qed.

Lemma accepted_record_is_well_formed_witness :
  exists kw,
    JObj Sample2.bare_record = JObj kw
    /\ dict_get kw "name" = Some (JStr "X").
Proof.
  assert (H : PersonaState_kwargs (JObj Sample2.bare_record)
              = Ok (new_persona "X" "Tester" "plain" "testing" [] ["X: first."]))
    by (vm_compute; reflexivity).
  destruct (accepted_record_is_well_formed _ _ H) as (kw & E & _ & N & _).
  exists kw. split; [exact E | exact N].
Defined.

(** ** The content generator *)

Lemma prefix_spec (a b : string) :
  String.prefix a b = true <-> exists post, b = (a ++ post)%string.
Proof.
  revert b. induction a as [|c a IH]; intros b.
  - destruct b; simpl; (split; [intros _; eexists; reflexivity | reflexivity]).
  - destruct b as [|d b]; simpl.
    + split; [discriminate | intros (post & E); discriminate].
    + destruct (Ascii.ascii_dec c d) as [->|N].
      * rewrite IH. split; intros (post & E); exists post; congruence.
      * split; [discriminate | intros (post & E); congruence].
Qed.

(** [Str.contains] is the substring test. *)
Lemma contains_spec (needle hay : string) :
  Str.contains needle hay = true
  <-> exists pre post, hay = (pre ++ needle ++ post)%string.
Proof.
  induction hay as [|c hay IH]; cbn [Str.contains];
    rewrite orb_true_iff, prefix_spec.
  - split.
    + intros [(post & E)|F]; [|discriminate]. now exists EmptyString, post.
    + intros (pre & post & E). left.
      destruct pre; [now exists post | discriminate].
  - rewrite IH. split.
    + intros [(post & E)|(pre & post & E)].
      * now exists EmptyString, post.
      * exists (String c pre), post. cbn. now rewrite E.
    + intros (pre & post & E). destruct pre as [|d pre].
      * left. now exists post.
      * right. cbn in E. injection E as _ E. now exists pre, post.
Qed.

Lemma random_choice_Forall {A} (P : A -> Prop) (seq : list A) (w : World) :
  seq <> [] -> Forall P seq ->
  exists x, P x /\ random_choice seq w = (Ok x, set_rand_pos (S (rand_pos w)) w).
Proof.
  intros NE F. destruct (random_choice_In seq w NE) as (x & I & R).
  exists x. split; [|exact R]. rewrite Forall_forall in F. now apply F.
Qed.

(** X11. Whatever the persona, the phrase generator returns a phrase that
    starts with the persona's name and a colon, draws exactly once from
    the random source and touches nothing else. *)
Theorem generated_phrase_carries_nametag (p : PersonaState) (w : World) :
  exists body,
    _generate_phrase p w
    = (Ok (name p ++ ": " ++ body)%string, set_rand_pos (S (rand_pos w)) w).
Proof.
  unfold _generate_phrase.
  match goal with
  | |- context [random_choice ?l] =>
      assert (F : Forall (fun s => exists body,
                            s = (name p ++ ": " ++ body)%string) l
                  /\ l <> [])
  end.
  { repeat match goal with
           | |- context [if ?b then _ else _] => destruct b
           end;
      (split; [repeat constructor; eexists; reflexivity | discriminate]). }
  destruct F as [F NE].
  destruct (random_choice_Forall _ _ w NE F) as (x & (body & ->) & R).
  exists body. exact R.
Qed.

(** X12. The five categories are tried in a fixed order (ORION, Redid,
    Nova, The Fuckface, Lent) and the first match wins: a name that has
    the key of a category anywhere in it, and the key of no earlier
    category, gets one of the three phrases of that category, even when it
    also has the key of a later one.  One random draw, nothing else
    changes. *)
Theorem first_matching_category_wins (p : PersonaState) (w : World)
    (earlier later : list (string * (PersonaState -> list string)))
    (key : string) (pool : PersonaState -> list string) :
  categories = earlier ++ (key, pool) :: later ->
  Str.contains key (name p) = true ->
  (forall k' pool', In (k', pool') earlier ->
     Str.contains k' (name p) = false) ->
  exists phrase,
    _generate_phrase p w = (Ok phrase, set_rand_pos (S (rand_pos w)) w)
    /\ In phrase (pool p)
    /\ List.length (pool p) = 3%nat.
Proof.
  intros E C N. unfold categories in E.
  assert (D : forall pl : list string, pl <> [] ->
            exists x, In x pl
                      /\ random_choice pl w
                         = (Ok x, set_rand_pos (S (rand_pos w)) w))
    by (intros pl NE; apply random_choice_In; exact NE).
  unfold _generate_phrase.
  destruct earlier as [|c1 earlier]; cbn [app] in E.
  { injection E as <- <- _. rewrite C.
    destruct (D (orion_templates p)) as (x & I & R); [discriminate|].
    exists x. unfold orion_templates in *. now rewrite R. }
  injection E as <- E. rewrite (N _ _ (or_introl eq_refl)).
  destruct earlier as [|c2 earlier]; cbn [app] in E.
  { injection E as <- <- _. rewrite C.
    destruct (D (redid_templates p)) as (x & I & R); [discriminate|].
    exists x. unfold redid_templates in *. now rewrite R. }
  injection E as <- E. rewrite (N _ _ (or_intror (or_introl eq_refl))).
  destruct earlier as [|c3 earlier]; cbn [app] in E.
  { injection E as <- <- _. rewrite C.
    destruct (D (nova_templates p)) as (x & I & R); [discriminate|].
    exists x. unfold nova_templates in *. now rewrite R. }
  injection E as <- E.
  rewrite (N _ _ (or_intror (or_intror (or_introl eq_refl)))).
  destruct earlier as [|c4 earlier]; cbn [app] in E.
  { injection E as <- <- _. rewrite C.
    destruct (D (fuckface_templates p)) as (x & I & R); [discriminate|].
    exists x. unfold fuckface_templates in *. now rewrite R. }
  injection E as <- E.
  rewrite (N _ _ (or_intror (or_intror (or_intror (or_introl eq_refl))))).
  destruct earlier as [|c5 earlier]; cbn [app] in E.
  { injection E as <- <- _. rewrite C.
    destruct (D (lent_templates p)) as (x & I & R); [discriminate|].
    exists x. unfold lent_templates in *. now rewrite R. }
  injection E as _ E. destruct earlier; discriminate E.
Qed.

Lemma first_matching_category_wins_witness :
  exists phrase,
    _generate_phrase Sample3.lent_nova Sample.fresh
    = (Ok phrase, set_rand_pos (S (rand_pos Sample.fresh)) Sample.fresh)
    /\ In phrase (nova_templates Sample3.lent_nova).
Proof.
  destruct (first_matching_category_wins Sample3.lent_nova Sample.fresh
              [ ("ORION"%string, orion_templates);
                ("Redid"%string, redid_templates) ]
              [ ("The Fuckface"%string, fuckface_templates);
                ("Lent"%string, lent_templates) ]
              "Nova" nova_templates)
    as (phrase & R & I & _).
  - reflexivity.
  - vm_compute. reflexivity.
  - intros k' pool' [E|[E|[]]]; injection E as <- _; vm_compute; reflexivity.
  - exists phrase. split; [exact R | exact I].
Defined.

(** X13. A name that has none of the five category keys in it falls back
    to the two generic phrases. *)
Theorem unmatched_name_gets_generic_phrase (p : PersonaState) (w : World) :
  (forall key, In key ["ORION"; "Redid"; "Nova"; "The Fuckface"; "Lent"]%string ->
     forall pre post, name p <> (pre ++ key ++ post)%string) ->
  exists phrase,
    result (_generate_phrase p) w = Ok phrase
    /\ In phrase (generic_templates p).
Proof.
  intros U.
  assert (C : forall key,
             In key ["ORION"; "Redid"; "Nova"; "The Fuckface"; "Lent"]%string ->
             Str.contains key (name p) = false).
  { intros key I. destruct (Str.contains key (name p)) eqn:E; [|reflexivity].
    apply contains_spec in E. destruct E as (pre & post & E).
    now destruct (U key I pre post). }
  unfold result, _generate_phrase.
  rewrite !C by (simpl; auto 10).
  destruct (random_choice_In (generic_templates p) w) as (x & I & R);
    [discriminate|].
  exists x. unfold generic_templates in *. now rewrite R.
Qed.

Lemma unmatched_name_gets_generic_phrase_witness :
  exists phrase,
    result (_generate_phrase Sample.X) Sample.fresh = Ok phrase
    /\ In phrase (generic_templates Sample.X).
Proof.
  apply unmatched_name_gets_generic_phrase.
  intros key I pre post E.
  assert (C : Str.contains key (name Sample.X) = true)
    by (apply contains_spec; eauto).
  simpl in I.
  destruct I as [<-|[<-|[<-|[<-|[<-|[]]]]]]; vm_compute in C; discriminate.
Defined.

(** X14. The trait pool is chosen by the stage clamped to 3: stage 1 and
    stage 2 have their own pools, from stage 3 on every trait comes from
    the stage-3 pool, and at stage 0 or below the only trait is the
    default one.  One random draw, nothing else changes. *)
Theorem generated_trait_follows_clamped_stage (p : PersonaState) (w : World) :
  exists trait,
    _generate_trait p w = (Ok trait, set_rand_pos (S (rand_pos w)) w)
    /\ (evolution_stage p <= 0 -> trait = "Continues development"%string)
    /\ (evolution_stage p = 1 -> In trait stage_one_traits)
    /\ (evolution_stage p = 2 -> In trait stage_two_traits)
    /\ (3 <= evolution_stage p -> In trait stage_three_traits).
Proof.
  unfold _generate_trait.
  assert (D : forall pl : list string, pl <> [] ->
            exists x, In x pl
                      /\ random_choice pl w
                         = (Ok x, set_rand_pos (S (rand_pos w)) w))
    by (intros pl NE; apply random_choice_In; exact NE).
  destruct (Z_le_gt_dec 3 (evolution_stage p)) as [G|L].
  - rewrite Z.min_r by lia.
    destruct (D stage_three_traits) as (x & I & R); [discriminate|].
    exists x. split; [exact R|]. repeat split; auto; lia.
  - rewrite Z.min_l by lia. unfold traits_by_stage. cbn [int_dict_get].
    destruct (Z.eqb_spec (evolution_stage p) 1) as [E1|N1].
    { destruct (D stage_one_traits) as (x & I & R); [discriminate|].
      exists x. split; [exact R|]. repeat split; auto; lia. }
    destruct (Z.eqb_spec (evolution_stage p) 2) as [E2|N2].
    { destruct (D stage_two_traits) as (x & I & R); [discriminate|].
      exists x. split; [exact R|]. repeat split; auto; lia. }
    destruct (Z.eqb_spec (evolution_stage p) 3) as [E3|N3]; [lia|].
    destruct (D ["Continues development"%string]) as (x & I & R);
      [discriminate|].
    exists x. split; [exact R|]. repeat split; try lia.
    intros _. now destruct I as [<-|[]].
Qed.

(** ** Histories *)

Lemma stage_at_table (n : nat) :
  stage_at n
  = if Z.of_nat n <? 10 then 0%nat
    else if Z.of_nat n <? 25 then 1%nat
    else if Z.of_nat n <? 50 then 2%nat
    else if Z.of_nat n <? 100 then 3%nat
    else if Z.of_nat n <? 250 then 4%nat
    else 5%nat.
Proof.
  unfold stage_at, thresholds. cbn [filter].
  destruct (Z.ltb_spec (Z.of_nat n) 10), (Z.leb_spec 10 (Z.of_nat n));
    try lia;
    destruct (Z.ltb_spec (Z.of_nat n) 25), (Z.leb_spec 25 (Z.of_nat n));
    try lia;
    destruct (Z.ltb_spec (Z.of_nat n) 50), (Z.leb_spec 50 (Z.of_nat n));
    try lia;
    destruct (Z.ltb_spec (Z.of_nat n) 100), (Z.leb_spec 100 (Z.of_nat n));
    try lia;
    destruct (Z.ltb_spec (Z.of_nat n) 250), (Z.leb_spec 250 (Z.of_nat n));
    try lia; reflexivity.
Qed.

(** X15. A persona registered with zero counters and then invoked [n]
    times, for any [n], has count [n] and the stage of the table below (one
    stage per threshold reached, 5 at most), as many learned phrases and as
    many developed traits as stages, and the event log has grown by [n]
    invocation events and one evolution event per stage. *)
Theorem trajectory_from_zero (w : World) (k r v e : string)
    (cons sp : list string) (cs : list call) :
  Forall (fun c => call_name c = k) cs ->
  exists p',
    dict_get (personas (exec (register_persona (new_persona k r v e cons sp) ;;
                              run_calls cs) w)) k = Some p'
    /\ invocation_count p' = Z.of_nat (List.length cs)
    /\ evolution_stage p' = Z.of_nat (stage_at (List.length cs))
    /\ List.length (learned_phrases p') = stage_at (List.length cs)
    /\ List.length (developed_traits p') = stage_at (List.length cs)
    /\ count_type "invocation"
         (events (exec (register_persona (new_persona k r v e cons sp) ;;
                        run_calls cs) w))
       = Nat.add (count_type "invocation" (events w)) (List.length cs)
    /\ count_type "evolution"
         (events (exec (register_persona (new_persona k r v e cons sp) ;;
                        run_calls cs) w))
       = Nat.add (count_type "evolution" (events w)) (stage_at (List.length cs))
    /\ stage_at (List.length cs)
       = (if Z.of_nat (List.length cs) <? 10 then 0%nat
          else if Z.of_nat (List.length cs) <? 25 then 1%nat
          else if Z.of_nat (List.length cs) <? 50 then 2%nat
          else if Z.of_nat (List.length cs) <? 100 then 3%nat
          else if Z.of_nat (List.length cs) <? 250 then 4%nat
          else 5%nat).
Proof.
  intros A.
  set (p := new_persona k r v e cons sp).
  destruct (register_persona_run p w) as (R & P & E).
  rewrite (exec_bind_ok _ _ _ tt R).
  assert (H : dict_get (personas (exec (register_persona p) w)) k = Some p)
    by (rewrite P; apply dict_get_set_eq).
  assert (T : on_trajectory 0 p) by (repeat split).
  destruct (trajectory_run cs _ _ _ _ H T A) as (p' & G & T' & L).
  rewrite E in L. cbn [Nat.add] in T', L.
  destruct T' as (C & St & Lp & Lt). destruct L as (Li & Le & _).
  change (stage_at 0) with 0%nat in *.
  exists p'. repeat split; try assumption; try lia.
  apply stage_at_table.
Qed.

Lemma trajectory_from_zero_witness :
  exists p',
    dict_get (personas (exec (register_persona
                                (new_persona "X" "Tester" "plain" "testing" [] []) ;;
                              run_calls (List.repeat Sample.call_X 26))
                          Sample.fresh)) "X" = Some p'
    /\ invocation_count p' = 26
    /\ evolution_stage p' = 2.
Proof.
  assert (A : Forall (fun c => call_name c = "X"%string)
                (List.repeat Sample.call_X 26))
    by (apply Forall_forall; intros c I; apply repeat_spec in I; now subst).
  destruct (trajectory_from_zero Sample.fresh "X" "Tester" "plain" "testing"
              [] [] (List.repeat Sample.call_X 26) A)
    as (p' & G & C & St & _).
  exists p'. split; [exact G|]. split; [exact C | exact St].
Defined.


(** ** What the engine never does *)

Lemma log_invocation_events (w : World) (k ctx : string)
    (tgs : option (list string)) (weight : Z) :
  exists new,
    events (exec (log_invocation k ctx tgs weight) w) = events w ++ new
    /\ (List.length new <= 2)%nat.
Proof.
  unfold exec. destruct (dict_get (personas w) k) as [p|] eqn:H.
  - destruct (log_invocation_known w k ctx tgs weight p H)
      as (w' & phrase & trait & -> & _ & _ & _ & E & _).
    simpl snd. rewrite E. eexists. split; [reflexivity|].
    destruct (threshold_hit (invoked ctx p)); simpl; lia.
  - rewrite (log_invocation_unknown w k ctx tgs weight H).
    exists []. split; [now rewrite app_nil_r | simpl; lia].
Qed.

(** X17. The event log is append-only: whatever entry point is called,
    the log afterwards is the log before followed by at most two new
    events; nothing is ever removed, edited or reordered. *)
Theorem event_log_is_append_only (o : op) (w : World) :
  exists new,
    events (exec (run_op o) w) = events w ++ new
    /\ (List.length new <= 2)%nat.
Proof.
  destruct o as [persona|c|n| |d]; simpl run_op.
  - exists []. split; [now rewrite app_nil_r | simpl; lia].
  - apply log_invocation_events.
  - exists []. rewrite app_nil_r. split; [|simpl; lia].
    rewrite exec_bind.
    destruct (result (generate_mythological_report n) w); simpl;
      now rewrite ?generate_mythological_report_pure.
  - exists []. split; [now rewrite app_nil_r | simpl; lia].
  - exists []. split; [now rewrite app_nil_r | simpl; lia].
Qed.

(** X18. The event recorded for an invocation carries the caller's
    arguments as they are: the name, the context, the weight whatever its
    value (nothing validates the range), and the tags, an omitted tag list
    being recorded as the empty list; its timestamp is the clock reading,
    and it comes right after the events already logged. *)
Theorem invocation_event_records_arguments (w : World) (k ctx : string)
    (tgs : option (list string)) (weight : Z) (p : PersonaState) :
  dict_get (personas w) k = Some p ->
  exists rest,
    events (exec (log_invocation k ctx tgs weight) w)
    = events w
      ++ {| timestamp := clock w (clock_pos w);
            persona_name := k;
            event_type := "invocation";
            context := ctx;
            emotional_weight := weight;
            tags := match tgs with Some l => l | None => [] end |}
      :: rest.
Proof.
  intros H.
  destruct (log_invocation_known w k ctx tgs weight p H)
    as (w' & phrase & trait & R & _ & _ & _ & E & _).
  unfold exec. rewrite R. simpl snd. rewrite E. eexists. reflexivity.
Qed.

Lemma invocation_event_records_arguments_witness :
  exists rest,
    events (exec (log_invocation "X" "ctx" None (-3)) Sample.with_X)
    = events Sample.with_X
      ++ {| timestamp := clock Sample.with_X (clock_pos Sample.with_X);
            persona_name := "X";
            event_type := "invocation";
            context := "ctx";
            emotional_weight := -3;
            tags := [] |}
      :: rest.
Proof.
  exact (invocation_event_records_arguments Sample.with_X "X" "ctx" None (-3)
           Sample.X eq_refl).
Defined.

Lemma log_invocation_keys (w : World) (k ctx : string)
    (tgs : option (list string)) (weight : Z) :
  dict_keys (personas (exec (log_invocation k ctx tgs weight) w))
  = dict_keys (personas w).
Proof.
  unfold exec. destruct (dict_get (personas w) k) as [p|] eqn:H.
  - destruct (log_invocation_known w k ctx tgs weight p H)
      as (w' & phrase & trait & -> & _ & _ & P & _).
    simpl snd. rewrite P. now apply dict_keys_set_known with (v0 := p).
  - now rewrite (log_invocation_unknown w k ctx tgs weight H).
Qed.

(** X19. No entry point removes or reorders a persona: the keys of the
    store afterwards are the keys before, in the same order, followed by
    at most one new key; and [log_invocation] never adds one. *)
Theorem store_keys_only_grow (o : op) (w : World) :
  (exists added,
      dict_keys (personas (exec (run_op o) w)) = dict_keys (personas w) ++ added
      /\ (List.length added <= 1)%nat)
  /\ (forall c, o = OpLog c ->
        dict_keys (personas (exec (run_op o) w)) = dict_keys (personas w)).
Proof.
  split.
  - destruct o as [persona|c|n| |d]; simpl run_op.
    + destruct (dict_keys_set (personas w) (name persona) persona) as [E|[_ E]].
      * exists []. rewrite app_nil_r. split; [exact E | simpl; lia].
      * exists [name persona]. split; [exact E | simpl; lia].
    + exists []. rewrite app_nil_r. split; [|simpl; lia].
      apply log_invocation_keys.
    + exists []. rewrite app_nil_r. split; [|simpl; lia].
      rewrite exec_bind.
      destruct (result (generate_mythological_report n) w); simpl;
        now rewrite ?generate_mythological_report_pure.
    + exists []. split; [now rewrite app_nil_r | simpl; lia].
    + exists []. split; [now rewrite app_nil_r | simpl; lia].
  - intros c ->. apply log_invocation_keys.
Qed.


(** ** The stage transition and the threshold check on their own *)

(** X21. Called with a name that is not a key of the store, the threshold
    check and the stage transition both raise [KeyError] before they have
    changed anything. *)
Theorem evolution_steps_need_a_registered_name (w : World) (k : string) :
  dict_mem (personas w) k = false ->
  _check_evolution k w = (Raise (KeyError k), w)
  /\ _trigger_evolution k w = (Raise (KeyError k), w).
Proof.
  intros U.
  assert (H : dict_get (personas w) k = None).
  { unfold dict_mem in U. destruct (dict_get (personas w) k); congruence. }
  split.
  - now apply _check_evolution_unknown.
  - now apply _trigger_evolution_unknown.
Qed.

Lemma evolution_steps_need_a_registered_name_witness :
  _check_evolution "Y" Sample.with_X = (Raise (KeyError "Y"), Sample.with_X)
  /\ _trigger_evolution "Y" Sample.with_X
     = (Raise (KeyError "Y"), Sample.with_X).
Proof.
  exact (evolution_steps_need_a_registered_name Sample.with_X "Y" eq_refl).
Defined.



(** ** The chronicle of the whole store *)

(** X23. Without a name, and likewise with the empty name, the report is
    the header followed by the block of every persona in the iteration
    order of the store; the call changes nothing. *)
Theorem report_of_whole_store (w : World) :
  generate_mythological_report None w
  = (Ok (Str.join Str.nl
           (report_header ++ flat_map report_block (dict_values (personas w)))),
     w)
  /\ generate_mythological_report (Some EmptyString) w
     = generate_mythological_report None w.
Proof.
  split.
  - rewrite (report_of_all w None I). now rewrite fold_report_persona.
  - rewrite (report_of_all w None I).
    now rewrite (report_of_all w (Some EmptyString) eq_refl).
Qed.

(** ** The canonical presets *)

Lemma register_each_run (ps : list PersonaState) (w : World) :
  result (register_each ps) w = Ok tt
  /\ personas (exec (register_each ps) w)
     = fold_left (fun d p => dict_set d (name p) p) ps (personas w)
  /\ events (exec (register_each ps) w) = events w.
Proof.
  revert w. induction ps as [|p ps IH]; intros w; [repeat split|].
  cbn [register_each fold_left].
  destruct (register_persona_run p w) as (R & P & E).
  rewrite result_bind, (exec_bind_ok _ _ _ tt R), R.
  destruct (IH (exec (register_persona p) w)) as (R' & P' & E').
  rewrite R', P', E', P, E. repeat split.
Qed.

(** X24. Loading the presets never fails and installs the five canonical
    personas under their names in their pristine state, whatever the store
    held under those names before (any evolution of theirs is
    overwritten); every other persona and the whole event log are left as
    they were.  On an empty store the iteration order is Nova, ORION,
    Redid, The Fuckface, Lent. *)
Theorem initialize_installs_pristine_presets (w : World) :
  result initialize_sanctuary_personas w = Ok tt
  /\ dict_get (personas (exec initialize_sanctuary_personas w)) "Nova" = Some nova
  /\ dict_get (personas (exec initialize_sanctuary_personas w)) "ORION" = Some orion
  /\ dict_get (personas (exec initialize_sanctuary_personas w)) "Redid" = Some redid
  /\ dict_get (personas (exec initialize_sanctuary_personas w)) "The Fuckface"
     = Some fuckface
  /\ dict_get (personas (exec initialize_sanctuary_personas w)) "Lent" = Some lent
  /\ (forall k,
        ~ In k ["Nova"; "ORION"; "Redid"; "The Fuckface"; "Lent"]%string ->
        dict_get (personas (exec initialize_sanctuary_personas w)) k
        = dict_get (personas w) k)
  /\ events (exec initialize_sanctuary_personas w) = events w
  /\ (personas w = [] ->
      dict_keys (personas (exec initialize_sanctuary_personas w))
      = ["Nova"; "ORION"; "Redid"; "The Fuckface"; "Lent"]%string).
Proof.
  unfold initialize_sanctuary_personas.
  destruct (register_each_run [nova; orion; redid; fuckface; lent] w)
    as (R & P & E).
  rewrite R, P, E. cbn [fold_left].
  change (name nova) with "Nova"%string.
  change (name orion) with "ORION"%string.
  change (name redid) with "Redid"%string.
  change (name fuckface) with "The Fuckface"%string.
  change (name lent) with "Lent"%string.
  split; [reflexivity|].
  repeat (rewrite ?dict_get_set_eq;
          rewrite ?dict_get_set_neq by discriminate).
  split; [reflexivity|]. split; [reflexivity|]. split; [reflexivity|].
  split; [reflexivity|]. split; [reflexivity|].
  split; [|split; [reflexivity|]].
  - intros k N. cbn [In] in N.
    rewrite !dict_get_set_neq by (intros <-; tauto). reflexivity.
  - intros ->. reflexivity.
Qed.

(** ** The script *)

Lemma exec_print (s : string) (w : World) :
  exec (print s) w = set_stdout (stdout w ++ [s]) w.
Proof. reflexivity. Qed.

Lemma result_print (s : string) (w : World) : result (print s) w = Ok tt.
Proof. reflexivity. Qed.

Lemma exec_gets {A B} (f : World -> A) (k : A -> M B) (w : World) :
  exec (bind (gets f) k) w = exec (k (f w)) w.
Proof. reflexivity. Qed.

Lemma result_gets {A B} (f : World -> A) (k : A -> M B) (w : World) :
  result (bind (gets f) k) w = result (k (f w)) w.
Proof. reflexivity. Qed.

Lemma exec_then {B} (c : M unit) (k : unit -> M B) (w : World) :
  result c w = Ok tt -> exec (bind c k) w = exec (k tt) (exec c w).
Proof. intros R. now apply exec_bind_ok. Qed.

Lemma result_then {B} (c : M unit) (k : unit -> M B) (w : World) :
  result c w = Ok tt -> result (bind c k) w = result (k tt) (exec c w).
Proof. intros R. now rewrite result_bind, R. Qed.

(** What one call does to any persona of the store. *)
Lemma log_invocation_effect (w : World) (k ctx : string)
    (tgs : option (list string)) (weight : Z) (k' : string) (q : PersonaState) :
  dict_get (personas w) k' = Some q ->
  exists q',
    dict_get (personas (exec (log_invocation k ctx tgs weight) w)) k' = Some q'
    /\ same_identity q q'
    /\ invocation_count q'
       = invocation_count q + (if String.eqb k' k then 1 else 0)
    /\ accumulated_context q'
       = accumulated_context q ++ (if String.eqb k' k then [ctx] else []).
Proof.
  intros G. destruct (String.eqb_spec k' k) as [->|N].
  - destruct (log_invocation_known w k ctx tgs weight q G)
      as (w' & phrase & trait & R & _ & _ & P & _).
    unfold exec. rewrite R. simpl snd. rewrite P, dict_get_set_eq.
    eexists. split; [reflexivity|].
    destruct (threshold_hit (invoked ctx q)); repeat split.
  - exists q. rewrite log_invocation_other by exact N.
    split; [exact G|]. split; [apply same_identity_refl|].
    split; [lia | now rewrite app_nil_r].
Qed.

Lemma __init___on_missing (w : World) :
  personas_file w = Missing -> events_file w = Missing ->
  lore_file w = Missing ->
  __init__ w
  = (Ok tt, set_generated_lore (JObj []) (set_events [] (set_personas [] w))).
Proof.
  intros Fp Fe Fl.
  unfold __init__, _load_state, load_personas_file, load_events_file,
    load_lore_file, bind, gets, modify, ret.
  cbn [personas_file events_file lore_file set_personas set_events
       set_generated_lore fst snd].
  rewrite Fp.
  cbn [personas_file events_file lore_file set_personas set_events
       set_generated_lore fst snd].
  rewrite Fe.
  cbn [personas_file events_file lore_file set_personas set_events
       set_generated_lore fst snd].
  now rewrite Fl.
Qed.

Lemma result_initialize (w : World) :
  result initialize_sanctuary_personas w = Ok tt.
Proof. apply register_each_run. Qed.

Lemma result_report_all (w : World) :
  result (generate_mythological_report None) w
  = Ok (Str.join Str.nl
          (fold_left report_persona (dict_values (personas w)) report_header)).
Proof. unfold result. now rewrite (report_of_all w None I). Qed.

Lemma same_engine_print (s : string) (w : World) :
  same_engine w (exec (print s) w) /\ same_files w (exec (print s) w).
Proof. repeat split. Qed.

Lemma same_engine_trans (w1 w2 w3 : World) :
  same_engine w1 w2 -> same_engine w2 w3 -> same_engine w1 w3.
Proof. unfold same_engine. intuition congruence. Qed.

Ltac through_prints :=
  repeat match goal with
         | |- same_engine ?a (exec (print ?s) ?b) =>
             apply (same_engine_trans a b);
             [|apply same_engine_print]
         | |- same_files ?a (exec (print ?s) ?b) =>
             apply (same_files_trans a b);
             [|apply same_engine_print]
         end;
  try (split; [|split]; reflexivity).

(** The script, once the engine has come up: the presets are loaded only
    into an empty store, then ORION and Nova are invoked once each. *)
Lemma main_run (w : World) :
  result __init__ w = Ok tt ->
  exists w1 w3,
    same_engine (exec __init__ w) w1 /\ same_files w w1
    /\ (nonempty (personas w1) = true -> same_engine w1 w3)
    /\ (nonempty (personas w1) = false ->
        same_engine
          (exec initialize_sanctuary_personas
             (exec (print (Str.nl ++ "📚 Initializing canonical personas..."))
                w1)) w3)
    /\ result main w = Ok tt
    /\ same_engine
         (exec (log_invocation "Nova"
                  "Architecting soulOS Parietal Overlay structure"
                  (Some ["systems_design"; "knowledge_management"]) 7)
            (exec (log_invocation "ORION"
                     "Critiquing Harvey's theodicy paper structure"
                     (Some ["academic"; "philosophy"; "theology"]) 8)
               w3))
         (exec main w).
Proof.
  intros R.
  set (w0 := exec (print (Str.repeat "=" 60))
               (exec (print "🏛️  SANCTUARY MYTHOLOGY ENGINE") w)).
  assert (F0 : same_files w w0) by (repeat split).
  destruct (__init___of_files w w0 F0) as (R0 & E0 & _).
  destruct (__init___of_files w0 w0) as (_ & _ & F1); [repeat split|].
  rewrite R in R0.
  set (w1 := exec __init__ w0) in *.
  assert (F : same_files w w1) by eauto using same_files_trans.
  exists w1.
  unfold main.
  rewrite !(exec_then _ _ _ (result_print _ _)),
    !(result_then _ _ _ (result_print _ _)).
  fold w0. rewrite (exec_then _ _ _ R0), (result_then _ _ _ R0). fold w1.
  rewrite exec_gets, result_gets.
  destruct (nonempty (personas w1)) eqn:NE.
  - rewrite (exec_then _ _ _ (eq_refl : result (ret tt) w1 = Ok tt)),
      (result_then _ _ _ (eq_refl : result (ret tt) w1 = Ok tt)).
    change (exec (ret tt) w1) with w1.
    rewrite exec_gets, result_gets.
    rewrite (exec_then _ _ _ (result_print _ _)),
      (result_then _ _ _ (result_print _ _)).
    rewrite exec_gets, result_gets.
    rewrite !(exec_then _ _ _ (result_print _ _)),
      !(result_then _ _ _ (result_print _ _)).
    match goal with
    | |- context [exec (log_invocation "ORION" _ _ _ ;; _) ?x] => set (w3 := x)
    end.
    exists w3.
    rewrite !(exec_then _ _ _ (log_invocation_total _ _ _ _ _)),
      !(result_then _ _ _ (log_invocation_total _ _ _ _ _)).
    rewrite (exec_bind_ok _ _ _ _ (result_report_all _)),
      result_bind, result_report_all, generate_mythological_report_pure.
    rewrite !(exec_then _ _ _ (result_print _ _)),
      !(result_then _ _ _ (result_print _ _)).
    split; [exact E0|]. split; [exact F|].
    split; [intros _; subst w3; through_prints|].
    split; [discriminate|].
    split; [reflexivity|]. through_prints.
  - assert (Rc : result (print (Str.nl ++ "📚 Initializing canonical personas...") ;;
                          initialize_sanctuary_personas) w1 = Ok tt).
    { rewrite (result_then _ _ _ (result_print _ _)). apply result_initialize. }
    rewrite (exec_then _ _ _ Rc), (result_then _ _ _ Rc).
    rewrite (exec_then _ _ w1 (result_print _ _)).
    rewrite exec_gets, result_gets.
    rewrite (exec_then _ _ _ (result_print _ _)),
      (result_then _ _ _ (result_print _ _)).
    rewrite exec_gets, result_gets.
    rewrite !(exec_then _ _ _ (result_print _ _)),
      !(result_then _ _ _ (result_print _ _)).
    match goal with
    | |- context [exec (log_invocation "ORION" _ _ _ ;; _) ?x] => set (w3 := x)
    end.
    exists w3.
    rewrite !(exec_then _ _ _ (log_invocation_total _ _ _ _ _)),
      !(result_then _ _ _ (log_invocation_total _ _ _ _ _)).
    rewrite (exec_bind_ok _ _ _ _ (result_report_all _)),
      result_bind, result_report_all, generate_mythological_report_pure.
    rewrite !(exec_then _ _ _ (result_print _ _)),
      !(result_then _ _ _ (result_print _ _)).
    split; [exact E0|]. split; [exact F|].
    split; [discriminate|].
    split; [intros _; subst w3; through_prints|].
    split; [reflexivity|]. through_prints.
Qed.

Lemma initialize_run (w : World) :
  personas (exec initialize_sanctuary_personas w)
  = fold_left (fun d p => dict_set d (name p) p)
      [nova; orion; redid; fuckface; lent] (personas w)
  /\ events (exec initialize_sanctuary_personas w) = events w.
Proof.
  unfold initialize_sanctuary_personas.
  destruct (register_each_run [nova; orion; redid; fuckface; lent] w)
    as (_ & P & E).
  split; [exact P | exact E].
Qed.

(** X25. Run on a data directory that holds no document, the script comes
    to its end without error and leaves the five presets in the store, in
    their canonical order, Nova and ORION each invoked once and the other
    three pristine, with exactly the two invocation events in the log. *)
Theorem main_first_run (w : World) :
  personas_file w = Missing -> events_file w = Missing ->
  lore_file w = Missing ->
  result main w = Ok tt
  /\ personas (exec main w)
     = [ ("Nova"%string,
          invoked "Architecting soulOS Parietal Overlay structure" nova);
         ("ORION"%string,
          invoked "Critiquing Harvey's theodicy paper structure" orion);
         ("Redid"%string, redid);
         ("The Fuckface"%string, fuckface);
         ("Lent"%string, lent) ]
  /\ map (fun e => (persona_name e, event_type e, emotional_weight e))
       (events (exec main w))
     = [ ("ORION"%string, "invocation"%string, 8);
         ("Nova"%string, "invocation"%string, 7) ].
Proof.
  intros Fp Fe Fl.
  pose proof (__init___on_missing w Fp Fe Fl) as I.
  assert (R : result __init__ w = Ok tt) by (unfold result; now rewrite I).
  destruct (main_run w R)
    as (w1 & w3 & (P1 & E1 & _) & _ & _ & S3 & Rm & (Pm & Em & _)).
  assert (P0 : personas (exec __init__ w) = [])
    by (unfold exec; now rewrite I).
  assert (E0 : events (exec __init__ w) = [])
    by (unfold exec; now rewrite I).
  rewrite P0 in P1. rewrite E0 in E1.
  assert (NE : nonempty (personas w1) = false) by now rewrite P1.
  destruct (S3 NE) as (P3 & E3 & _). clear S3 NE.
  destruct (initialize_run
              (exec (print (Str.nl ++ "📚 Initializing canonical personas...")) w1))
    as (P2 & E2).
  rewrite P2 in P3. rewrite E2 in E3.
  change (personas (exec (print (Str.nl ++ "📚 Initializing canonical personas...")) w1))
    with (personas w1) in P3.
  change (events (exec (print (Str.nl ++ "📚 Initializing canonical personas...")) w1))
    with (events w1) in E3.
  rewrite P1 in P3. rewrite E1 in E3.
  assert (Five : fold_left (fun d p => dict_set d (name p) p)
                   [nova; orion; redid; fuckface; lent] []
                 = [ ("Nova"%string, nova); ("ORION"%string, orion);
                     ("Redid"%string, redid); ("The Fuckface"%string, fuckface);
                     ("Lent"%string, lent) ])
    by (vm_compute; reflexivity).
  rewrite Five in P3. clear Five.
  assert (HO : dict_get (personas w3) "ORION" = Some orion)
    by (rewrite P3; vm_compute; reflexivity).
  destruct (log_invocation_known w3 "ORION"
              "Critiquing Harvey's theodicy paper structure"
              (Some ["academic"; "philosophy"; "theology"]%string) 8 orion HO)
    as (w4 & ph & tr & R4 & _ & _ & P4 & E4 & _).
  assert (TO : threshold_hit
                 (invoked "Critiquing Harvey's theodicy paper structure" orion)
               = false) by (vm_compute; reflexivity).
  rewrite TO in P4, E4. clear TO.
  rewrite P3 in P4. rewrite E3 in E4.
  assert (SO : dict_set
                 [ ("Nova"%string, nova); ("ORION"%string, orion);
                   ("Redid"%string, redid); ("The Fuckface"%string, fuckface);
                   ("Lent"%string, lent) ] "ORION"
                 (invoked "Critiquing Harvey's theodicy paper structure" orion)
               = [ ("Nova"%string, nova);
                   ("ORION"%string,
                    invoked "Critiquing Harvey's theodicy paper structure" orion);
                   ("Redid"%string, redid); ("The Fuckface"%string, fuckface);
                   ("Lent"%string, lent) ])
    by (vm_compute; reflexivity).
  rewrite SO in P4. clear SO.
  assert (HN : dict_get (personas w4) "Nova" = Some nova)
    by (rewrite P4; vm_compute; reflexivity).
  destruct (log_invocation_known w4 "Nova"
              "Architecting soulOS Parietal Overlay structure"
              (Some ["systems_design"; "knowledge_management"]%string) 7 nova HN)
    as (w5 & ph' & tr' & R5 & _ & _ & P5 & E5 & _).
  assert (TN : threshold_hit
                 (invoked "Architecting soulOS Parietal Overlay structure" nova)
               = false) by (vm_compute; reflexivity).
  rewrite TN in P5, E5. clear TN.
  rewrite P4 in P5. rewrite E4 in E5.
  split; [exact Rm|].
  rewrite Pm, Em. unfold exec at 2 4. rewrite R4. cbn [snd].
  unfold exec. rewrite R5. cbn [snd].
  rewrite P5, E5. split; [vm_compute; reflexivity | reflexivity].
Qed.

Lemma main_first_run_witness :
  result main Sample.fresh = Ok tt
  /\ dict_keys (personas (exec main Sample.fresh))
     = ["Nova"; "ORION"; "Redid"; "The Fuckface"; "Lent"]%string.
Proof.
  destruct (main_first_run Sample.fresh eq_refl eq_refl eq_refl) as (R & P & _).
  split; [exact R|]. rewrite P. reflexivity.
Defined.

Lemma nonempty_true {A} (l : list A) : l <> [] -> nonempty l = true.
Proof. destruct l; [congruence | reflexivity]. Qed.

(** X26. Run on a data directory whose snapshot holds at least one
    persona, the script does not load the presets again: the store keeps
    its keys and their order, every persona keeps its identity fields, and
    the counts are the stored ones, plus one for ORION and for Nova when
    they are in the store. *)
Theorem main_keeps_a_loaded_store (w : World) :
  result __init__ w = Ok tt ->
  personas (exec __init__ w) <> [] ->
  result main w = Ok tt
  /\ dict_keys (personas (exec main w)) = dict_keys (personas (exec __init__ w))
  /\ (forall k p,
        dict_get (personas (exec __init__ w)) k = Some p ->
        exists p',
          dict_get (personas (exec main w)) k = Some p'
          /\ same_identity p p'
          /\ invocation_count p'
             = invocation_count p
               + (if String.eqb k "ORION" || String.eqb k "Nova" then 1 else 0)).
Proof.
  intros R NE.
  destruct (main_run w R)
    as (w1 & w3 & (P1 & _) & _ & S3 & _ & Rm & (Pm & _)).
  rewrite <- P1 in NE. apply nonempty_true in NE.
  destruct (S3 NE) as (P3 & _). clear S3.
  rewrite P1 in P3.
  split; [exact Rm|]. rewrite Pm. split.
  - rewrite !log_invocation_keys. now rewrite P3.
  - intros k p G. rewrite <- P3 in G.
    destruct (log_invocation_effect w3 "ORION"
                "Critiquing Harvey's theodicy paper structure"
                (Some ["academic"; "philosophy"; "theology"]%string) 8 k p G)
      as (p1 & G1 & I1 & C1 & _).
    destruct (log_invocation_effect _ "Nova"
                "Architecting soulOS Parietal Overlay structure"
                (Some ["systems_design"; "knowledge_management"]%string) 7
                k p1 G1)
      as (p2 & G2 & I2 & C2 & _).
    exists p2. split; [exact G2|].
    split; [eauto using same_identity_trans|].
    rewrite C2, C1.
    destruct (String.eqb k "ORION") eqn:EO, (String.eqb k "Nova") eqn:EN;
      cbn [orb]; try lia.
    apply String.eqb_eq in EO, EN. subst k. discriminate EN.
Qed.

Lemma main_keeps_a_loaded_store_witness :
  result main Sample2.after_first_run = Ok tt
  /\ dict_keys (personas (exec main Sample2.after_first_run))
     = dict_keys (personas (exec __init__ Sample2.after_first_run)).
Proof.
  assert (R : result __init__ Sample2.after_first_run = Ok tt)
    by (vm_compute; reflexivity).
  assert (NE : personas (exec __init__ Sample2.after_first_run) <> [])
    by (vm_compute; discriminate).
  destruct (main_keeps_a_loaded_store Sample2.after_first_run R NE)
    as (Rm & K & _).
  split; [exact Rm | exact K].
Defined.

(** ** The demonstration script *)

Lemma print_each_quiet (line : string -> string) (xs : list string) (w : World) :
  result (print_each line xs) w = Ok tt
  /\ same_engine w (exec (print_each line xs) w)
  /\ same_files w (exec (print_each line xs) w).
Proof.
  revert w. induction xs as [|x xs IH]; intros w; [repeat split|].
  cbn [print_each].
  rewrite (result_then _ _ _ (result_print _ _)),
    (exec_then _ _ _ (result_print _ _)).
  destruct (IH (exec (print (line x)) w)) as (R & E & F).
  split; [exact R|]. split.
  - eapply same_engine_trans; [apply same_engine_print | exact E].
  - eapply same_files_trans; [apply same_engine_print | exact F].
Qed.

Lemma demo_loop_unknown (cs : list string) :
  forall (i : nat) (w : World),
    dict_get (personas w) "ORION" = None ->
    result (demo_loop i cs) w = Ok tt
    /\ same_engine w (exec (demo_loop i cs) w)
    /\ same_files w (exec (demo_loop i cs) w).
Proof.
  induction cs as [|c cs IH]; intros i w U; [repeat split|].
  cbn [demo_loop].
  rewrite (result_then _ _ _ (result_print _ _)),
    (exec_then _ _ _ (result_print _ _)).
  rewrite (result_then _ _ _ (log_invocation_total _ _ _ _ _)),
    (exec_then _ _ _ (log_invocation_total _ _ _ _ _)).
  set (w1 := exec (print _) w).
  assert (U1 : dict_get (personas w1) "ORION" = None) by exact U.
  assert (Sx : exec (log_invocation "ORION" c
                      (Some ["academic"; "philosophy"]%string) 7) w1
              = set_stdout (stdout w1 ++ [("⚠️  Unknown persona: " ++ "ORION")%string])
                  w1).
  { unfold exec. now rewrite (log_invocation_unknown w1 _ _ _ _ U1). }
  rewrite Sx.
  destruct (IH (S i) (set_stdout (stdout w1 ++ [("⚠️  Unknown persona: " ++ "ORION")%string]) w1) U1)
    as (R & E & F).
  split; [exact R|]. split.
  - eapply same_engine_trans; [|exact E]. repeat split.
  - eapply same_files_trans; [|exact F]. repeat split.
Qed.

Lemma demo_loop_known (cs : list string) :
  forall (i : nat) (w : World) (p : PersonaState),
    dict_get (personas w) "ORION" = Some p ->
    result (demo_loop i cs) w = Ok tt
    /\ exists p',
         dict_get (personas (exec (demo_loop i cs) w)) "ORION" = Some p'
         /\ same_identity p p'
         /\ invocation_count p' = invocation_count p + Z.of_nat (List.length cs)
         /\ accumulated_context p' = accumulated_context p ++ cs.
Proof.
  induction cs as [|c cs IH]; intros i w p H.
  - split; [reflexivity|]. exists p. split; [exact H|].
    split; [apply same_identity_refl|].
    split; [simpl; lia | now rewrite app_nil_r].
  - cbn [demo_loop].
    rewrite (result_then _ _ _ (result_print _ _)),
      (exec_then _ _ _ (result_print _ _)).
    rewrite (result_then _ _ _ (log_invocation_total _ _ _ _ _)),
      (exec_then _ _ _ (log_invocation_total _ _ _ _ _)).
    set (w1 := exec (print _) w).
    assert (H1 : dict_get (personas w1) "ORION" = Some p) by exact H.
    destruct (log_invocation_effect w1 "ORION" c
                (Some ["academic"; "philosophy"]%string) 7 "ORION" p H1)
      as (p1 & G1 & I1 & C1 & A1).
    rewrite String.eqb_refl in C1, A1.
    destruct (IH (S i) _ p1 G1) as (R & p' & G' & I' & C' & A').
    split; [exact R|]. exists p'. split; [exact G'|].
    split; [eauto using same_identity_trans|].
    rewrite C', C1, A', A1. cbn [List.length].
    split; [lia | now rewrite <- app_assoc].
Qed.

(** X27. The demonstration script does not register anything: run on a
    data directory whose snapshot has no ORION (an empty directory, for
    one), each of its fifteen invocations is refused, nothing is recorded,
    and the script then raises [KeyError] at the report; the store, the
    event log and the documents are as the engine found them. *)
Theorem demo_evolution_needs_orion (w : World) :
  result __init__ w = Ok tt ->
  dict_mem (personas (exec __init__ w)) "ORION" = false ->
  result demo_evolution w = Raise (KeyError "ORION")
  /\ same_engine (exec __init__ w) (exec demo_evolution w)
  /\ same_files w (exec demo_evolution w).
Proof.
  intros R U.
  assert (H : dict_get (personas (exec __init__ w)) "ORION" = None).
  { unfold dict_mem in U.
    destruct (dict_get (personas (exec __init__ w)) "ORION"); congruence. }
  destruct (__init___of_files w w) as (_ & _ & F0); [repeat split|].
  unfold demo_evolution.
  rewrite (result_then _ _ _ R), (exec_then _ _ _ R).
  rewrite (result_then _ _ _ (result_print _ _)),
    (exec_then _ _ _ (result_print _ _)).
  set (w1 := exec (print _) (exec __init__ w)).
  assert (H1 : dict_get (personas w1) "ORION" = None) by exact H.
  destruct (demo_loop_unknown demo_contexts 1 w1 H1) as (RL & EL & FL).
  rewrite (result_then _ _ _ RL), (exec_then _ _ _ RL).
  rewrite !(result_then _ _ _ (result_print _ _)),
    !(exec_then _ _ _ (result_print _ _)).
  match goal with
  | |- context [generate_mythological_report _ ;; _] =>
      match goal with
      | |- context [exec (bind _ _) ?x] => set (w4 := x)
      end
  end.
  assert (E4 : same_engine (exec (demo_loop 1 demo_contexts) w1) w4
               /\ same_files (exec (demo_loop 1 demo_contexts) w1) w4)
    by (subst w4; split; through_prints).
  assert (H4 : dict_get (personas w4) "ORION" = None).
  { destruct E4 as ((P4 & _) & _). destruct EL as (PL & _).
    now rewrite P4, PL. }
  assert (RR : result (generate_mythological_report (Some "ORION")) w4
               = Raise (KeyError "ORION"))
    by (unfold result; now rewrite (report_of_unknown w4 "ORION" eq_refl H4)).
  rewrite result_bind, exec_bind, RR, generate_mythological_report_pure.
  split; [reflexivity|].
  destruct E4 as (E4 & F4). split.
  - apply (same_engine_trans _ w1); [repeat split|].
    eapply same_engine_trans; [exact EL | exact E4].
  - apply (same_files_trans _ (exec __init__ w)); [exact F0|].
    apply (same_files_trans _ w1); [repeat split|].
    eapply same_files_trans; [exact FL | exact F4].
Qed.

Lemma demo_evolution_needs_orion_witness :
  result demo_evolution Sample.fresh = Raise (KeyError "ORION")
  /\ same_engine (exec __init__ Sample.fresh) (exec demo_evolution Sample.fresh).
Proof.
  assert (R : result __init__ Sample.fresh = Ok tt) by (vm_compute; reflexivity).
  assert (U : dict_mem (personas (exec __init__ Sample.fresh)) "ORION" = false)
    by (vm_compute; reflexivity).
  destruct (demo_evolution_needs_orion Sample.fresh R U) as (Rd & E & _).
  split; [exact Rd | exact E].
Defined.

Lemma result_ret {A} (a : A) (w : World) : result (ret a) w = Ok a.
Proof. reflexivity. Qed.

Lemma exec_ret {A} (a : A) (w : World) : exec (ret a) w = w.
Proof. reflexivity. Qed.

Lemma personas_exec_print (s : string) (w : World) :
  personas (exec (print s) w) = personas w.
Proof. reflexivity. Qed.

(** X28. Run on a data directory whose snapshot has ORION, the
    demonstration script comes to its end without error, having invoked
    ORION fifteen times: the count is the stored one plus 15 and the
    accumulated context is the stored one followed by the fifteen
    contexts of the script, in order; the identity fields are untouched. *)
Theorem demo_evolution_invokes_orion (w : World) (p : PersonaState) :
  result __init__ w = Ok tt ->
  dict_get (personas (exec __init__ w)) "ORION" = Some p ->
  result demo_evolution w = Ok tt
  /\ exists p',
       dict_get (personas (exec demo_evolution w)) "ORION" = Some p'
       /\ same_identity p p'
       /\ invocation_count p' = invocation_count p + 15
       /\ accumulated_context p' = accumulated_context p ++ demo_contexts.
Proof.
  intros R H.
  unfold demo_evolution.
  rewrite (result_then _ _ _ R), (exec_then _ _ _ R).
  rewrite (result_then _ _ _ (result_print _ _)),
    (exec_then _ _ _ (result_print _ _)).
  set (w1 := exec (print _) (exec __init__ w)).
  assert (H1 : dict_get (personas w1) "ORION" = Some p)
    by (subst w1; rewrite personas_exec_print; exact H).
  destruct (demo_loop_known demo_contexts 1 w1 p H1)
    as (RL & p' & G & I & C & A).
  rewrite (result_then _ _ _ RL), (exec_then _ _ _ RL).
  rewrite !(result_then _ _ _ (result_print _ _)),
    !(exec_then _ _ _ (result_print _ _)).
  match goal with
  | |- context [generate_mythological_report _ ;; _] =>
      match goal with
      | |- context [exec (bind _ _) ?x] => set (w4 := x)
      end
  end.
  assert (G4 : dict_get (personas w4) "ORION" = Some p')
    by (subst w4; rewrite !personas_exec_print; exact G).
  pose proof (report_of_known w4 "ORION" p' eq_refl G4) as RK.
  assert (RR : result (generate_mythological_report (Some "ORION")) w4
               = Ok (Str.join Str.nl (fold_left report_persona [p'] report_header)))
    by (unfold result; now rewrite RK).
  rewrite result_bind, (exec_bind_ok _ _ _ _ RR), RR,
    generate_mythological_report_pure.
  rewrite (result_then _ _ _ (result_print _ _)),
    (exec_then _ _ _ (result_print _ _)).
  set (w5 := exec (print _) w4).
  assert (G5 : dict_get (personas w5) "ORION" = Some p')
    by (subst w5; rewrite personas_exec_print; exact G4).
  assert (RG : result (personas_getitem "ORION") w5 = Ok p')
    by (unfold result; now rewrite (personas_getitem_known w5 "ORION" p' G5)).
  assert (EG : exec (personas_getitem "ORION") w5 = w5)
    by (unfold exec; now rewrite (personas_getitem_known w5 "ORION" p' G5)).
  rewrite result_bind, (exec_bind_ok _ _ _ _ RG), RG, EG.
  rewrite !(result_then _ _ _ (result_print _ _)),
    !(exec_then _ _ _ (result_print _ _)).
  match goal with
  | |- context [exec (if _ then _ else _) ?x] => set (w6 := x)
  end.
  assert (G6 : dict_get (personas w6) "ORION" = Some p')
    by (subst w6; rewrite !personas_exec_print; exact G5).
  change (Z.of_nat (List.length demo_contexts)) with 15 in C.
  destruct (nonempty (learned_phrases p')).
  - rewrite (result_then _ _ _ (result_print _ _)),
      (exec_then _ _ _ (result_print _ _)).
    match goal with
    | |- context [exec (print_each ?l ?xs) ?x] =>
        destruct (print_each_quiet l xs x) as (RP & (PP & _) & _)
    end.
    split; [exact RP|]. exists p'. rewrite PP.
    split; [exact G6|]. split; [exact I|]. split; [exact C | exact A].
  - split; [exact (result_ret tt w6)|]. exists p'. rewrite (exec_ret tt w6).
    split; [exact G6|]. split; [exact I|]. split; [exact C | exact A].
Qed.

Lemma demo_evolution_invokes_orion_witness :
  exists p',
    dict_get (personas (exec demo_evolution Sample2.after_first_run)) "ORION"
    = Some p'
    /\ invocation_count p'
       = invocation_count
           (invoked "Critiquing Harvey's theodicy paper structure" orion) + 15.
Proof.
  assert (R : result __init__ Sample2.after_first_run = Ok tt)
    by (vm_compute; reflexivity).
  assert (H : dict_get (personas (exec __init__ Sample2.after_first_run)) "ORION"
              = Some (invoked "Critiquing Harvey's theodicy paper structure" orion))
    by (vm_compute; reflexivity).
  destruct (demo_evolution_invokes_orion Sample2.after_first_run _ R H)
    as (_ & p' & G & _ & C & _).
  exists p'. split; [exact G | exact C].
Defined.

(** * The engine over the object store *)

(** ** Running the heap monad *)

Lemma upd_same {A} (f : ref -> A) (r : ref) (v : A) : upd f r v r = v.
Proof. unfold upd. now rewrite Nat.eqb_refl. Qed.

Lemma upd_other {A} (f : ref -> A) (r x : ref) (v : A) :
  x <> r -> upd f r v x = f x.
Proof. intros N. unfold upd. now destruct (Nat.eqb_spec x r). Qed.

Lemma appended_at (lst : ref) (x : string) (ls : ref -> list string) (a : ref) :
  appended lst x ls a = ls a ++ (if Nat.eqb a lst then [x] else []).
Proof.
  unfold appended, upd. destruct (Nat.eqb_spec a lst) as [->|N].
  - reflexivity.
  - now rewrite app_nil_r.
Qed.

Lemma Ref_bind_ok {A B} (c : Ref.H A) (k : A -> Ref.H B) (h h1 : Heap) (a : A) :
  c h = (Ok a, h1) -> Ref.bind c k h = k a h1.
Proof. intros E. unfold Ref.bind. now rewrite E. Qed.


Lemma Ref_personas_getitem_known (h : Heap) (k : string) (r : ref) :
  dict_get (refs h) k = Some r -> Ref.personas_getitem k h = (Ok r, h).
Proof. intros G. unfold Ref.personas_getitem, Ref.bind, Ref.gets. now rewrite G. Qed.


(** The by-value computations the engine runs on the heap. *)
Lemma on_view_print (s : string) (h : Heap) :
  Ref.on_view (print s) h
  = (Ok tt, set_rest (set_stdout (stdout (rest h) ++ [s]) (view h)) h).
Proof. reflexivity. Qed.

Lemma on_view_now_isoformat (h : Heap) :
  Ref.on_view now_isoformat h
  = (Ok (clock (rest h) (clock_pos (rest h))),
     set_rest (set_clock_pos (S (clock_pos (rest h))) (view h)) h).
Proof. reflexivity. Qed.

Lemma on_view_events_append (e : MythologicalEvent) (h : Heap) :
  Ref.on_view (events_append e) h
  = (Ok tt, set_rest (set_events (events (rest h) ++ [e]) (view h)) h).
Proof. reflexivity. Qed.

Lemma on_view__save_state (h : Heap) :
  Ref.on_view _save_state h
  = (Ok tt,
     set_rest
       (set_files (Document (personas_document (image h)))
          (Document (events_document (events (rest h))))
          (Document (generated_lore (rest h))) (view h)) h).
Proof. reflexivity. Qed.

Lemma on_view__generate_phrase (p : PersonaState) (h : Heap) :
  exists phrase,
    Str.truthy phrase = true
    /\ Ref.on_view (_generate_phrase p) h
       = (Ok phrase,
          set_rest (set_rand_pos (S (rand_pos (rest h))) (view h)) h).
Proof.
  destruct (_generate_phrase_truthy p (view h)) as (phrase & T & R).
  exists phrase. split; [exact T|]. unfold Ref.on_view. now rewrite R.
Qed.

Lemma on_view__generate_trait (p : PersonaState) (h : Heap) :
  exists trait,
    Str.truthy trait = true
    /\ Ref.on_view (_generate_trait p) h
       = (Ok trait,
          set_rest (set_rand_pos (S (rand_pos (rest h))) (view h)) h).
Proof.
  destruct (_generate_trait_truthy p (view h)) as (trait & T & R).
  exists trait. split; [exact T|]. unfold Ref.on_view. now rewrite R.
Qed.

Lemma Ref_gets_run {A} (f : Heap -> A) (h : Heap) :
  Ref.gets f h = (Ok (f h), h).
Proof. reflexivity. Qed.

Lemma Ref_getattr_run {A} (r : ref) (attr : Object -> A) (h : Heap) :
  Ref.getattr r attr h = (Ok (attr (objects h r)), h).
Proof. reflexivity. Qed.

Lemma Ref_setattr_run (r : ref) (assign : Object -> Object) (h : Heap) :
  Ref.setattr r assign h
  = (Ok tt, set_objects (upd (objects h) r (assign (objects h r))) h).
Proof. reflexivity. Qed.

Lemma Ref_list_append_run (lst : ref) (x : string) (h : Heap) :
  Ref.list_append lst x h = (Ok tt, set_lists (appended lst x (lists h)) h).
Proof. reflexivity. Qed.

(** [persona.attr.append(x)] followed by a message. *)
Lemma Ref_append_and_print (r : ref) (attr : Object -> ref) (x msg : string)
    (h : Heap) :
  Ref.bind (Ref.getattr r attr)
    (fun l => Ref.bind (Ref.list_append l x)
                (fun _ => Ref.on_view (print msg))) h
  = (Ok tt,
     set_rest
       (set_stdout (stdout (rest h) ++ [msg])
          (view (set_lists (appended (attr (objects h r)) x (lists h)) h)))
       (set_lists (appended (attr (objects h r)) x (lists h)) h)).
Proof. reflexivity. Qed.

(** The same, when only the heap matters: what the by-value computation
    leaves in the other components is some world. *)
Lemma on_view_print_heap (s : string) (h : Heap) :
  exists w, Ref.on_view (print s) h = (Ok tt, set_rest w h).
Proof. eexists. apply on_view_print. Qed.

Lemma on_view_now_isoformat_heap (h : Heap) :
  exists ts w, Ref.on_view now_isoformat h = (Ok ts, set_rest w h).
Proof. eexists _, _. apply on_view_now_isoformat. Qed.

Lemma on_view_events_append_heap (e : MythologicalEvent) (h : Heap) :
  exists w, Ref.on_view (events_append e) h = (Ok tt, set_rest w h).
Proof. eexists. apply on_view_events_append. Qed.

Lemma on_view__save_state_heap (h : Heap) :
  exists w, Ref.on_view _save_state h = (Ok tt, set_rest w h).
Proof. eexists. apply on_view__save_state. Qed.

Lemma on_view__generate_phrase_heap (p : PersonaState) (h : Heap) :
  exists phrase w,
    Str.truthy phrase = true
    /\ Ref.on_view (_generate_phrase p) h = (Ok phrase, set_rest w h).
Proof.
  destruct (on_view__generate_phrase p h) as (phrase & T & R).
  eexists _, _. split; [exact T | exact R].
Qed.

Lemma on_view__generate_trait_heap (p : PersonaState) (h : Heap) :
  exists trait w,
    Str.truthy trait = true
    /\ Ref.on_view (_generate_trait p) h = (Ok trait, set_rest w h).
Proof.
  destruct (on_view__generate_trait p h) as (trait & T & R).
  eexists _, _. split; [exact T | exact R].
Qed.

Lemma Ref_append_and_print_heap (r : ref) (attr : Object -> ref)
    (x msg : string) (h : Heap) :
  exists w,
    Ref.bind (Ref.getattr r attr)
      (fun l => Ref.bind (Ref.list_append l x)
                  (fun _ => Ref.on_view (print msg))) h
    = (Ok tt,
       set_rest w (set_lists (appended (attr (objects h r)) x (lists h)) h)).
Proof. eexists. apply Ref_append_and_print. Qed.

Lemma Ref_ret_run {A} (a : A) (h : Heap) : Ref.ret a h = (Ok a, h).
Proof. reflexivity. Qed.

(** ** The stage transition on the heap *)

Tactic Notation "heap_step" uconstr(E) :=
  rewrite (Ref_bind_ok _ _ _ _ _ E).

Ltac heap_fields :=
  cbn [objects lists refs rest next_object next_list
       set_objects set_lists set_refs set_rest].

Lemma Ref__trigger_evolution_known (h : Heap) (k : string) (r : ref) :
  dict_get (refs h) k = Some r ->
  exists h' phrase trait,
    Ref._trigger_evolution k h = (Ok tt, h')
    /\ Str.truthy phrase = true /\ Str.truthy trait = true
    /\ refs h' = refs h
    /\ objects h'
       = upd (objects h) r
           (set_o_evolution_stage (o_evolution_stage (objects h r) + 1)
              (objects h r))
    /\ lists h'
       = appended (o_developed_traits (objects h r)) trait
           (appended (o_learned_phrases (objects h r)) phrase (lists h)).
Proof.
  intros G. unfold Ref._trigger_evolution.
  heap_step (Ref_personas_getitem_known _ _ _ G).
  heap_step (Ref_getattr_run r o_evolution_stage h).
  heap_step (Ref_setattr_run r _ h).
  set (h1 := set_objects _ h).
  heap_step (Ref_getattr_run r o_evolution_stage h1).
  destruct (on_view_print_heap
              (Str.nl ++ "🌟 EVOLUTION EVENT: " ++ k ++ " reaches stage "
                 ++ Str.of_int (o_evolution_stage (objects h1 r))) h1)
    as (w2 & R2).
  heap_step R2. clear R2. set (h2 := set_rest w2 h1).
  heap_step (Ref_gets_run (fun h => deref h r) h2).
  destruct (on_view__generate_phrase_heap (deref h2 r) h2)
    as (phrase & w3 & Tp & R3).
  heap_step R3. clear R3. rewrite Tp. set (h3 := set_rest w3 h2).
  destruct (Ref_append_and_print_heap r o_learned_phrases phrase
              ("   New phrase learned: " ++ phrase) h3) as (w4 & R4).
  heap_step R4. clear R4. set (h4 := set_rest w4 _).
  heap_step (Ref_gets_run (fun h => deref h r) h4).
  destruct (on_view__generate_trait_heap (deref h4 r) h4)
    as (trait & w5 & Tt & R5).
  heap_step R5. clear R5. rewrite Tt. set (h5 := set_rest w5 h4).
  destruct (Ref_append_and_print_heap r o_developed_traits trait
              ("   New trait developed: " ++ trait) h5) as (w6 & R6).
  heap_step R6. clear R6. set (h6 := set_rest w6 _).
  destruct (on_view_now_isoformat_heap h6) as (ts & w7 & R7).
  heap_step R7. clear R7. set (h7 := set_rest w7 h6).
  heap_step (Ref_getattr_run r o_evolution_stage h7).
  match goal with
  | |- context [Ref.on_view (events_append ?e)] =>
      destruct (on_view_events_append_heap e h7) as (w8 & R8)
  end.
  heap_step R8. clear R8. set (h8 := set_rest w8 h7).
  destruct (on_view__save_state_heap h8) as (w9 & R9). rewrite R9.
  eexists _, phrase, trait. split; [reflexivity|].
  split; [exact Tp|]. split; [exact Tt|].
  subst h8 h7 h6 h5 h4 h3 h2 h1. heap_fields.
  rewrite !upd_same. cbn [o_learned_phrases o_developed_traits
                          set_o_evolution_stage].
  repeat split.
Qed.


(** ** The threshold check on the heap *)

Lemma Ref__check_evolution_loop_run (h : Heap) (k : string) (r : ref)
    (todo : list Z) :
  Ref._check_evolution_loop k r todo h =
  if existsb (Z.eqb (o_invocation_count (objects h r))) todo
     && (o_evolution_stage (objects h r) <? 5)
  then Ref._trigger_evolution k h
  else (Ok tt, h).
Proof.
  induction todo as [|t todo IH]; cbn [Ref._check_evolution_loop existsb].
  - reflexivity.
  - heap_step (Ref_getattr_run r o_invocation_count h).
    heap_step (Ref_getattr_run r o_evolution_stage h).
    change (Z.of_nat (Datatypes.length thresholds)) with 5.
    destruct (o_invocation_count (objects h r) =? t),
             (o_evolution_stage (objects h r) <? 5); cbn [andb orb];
      rewrite ?IH, ?andb_false_r, ?andb_true_r; reflexivity.
Qed.

Lemma Ref__check_evolution_known (h : Heap) (k : string) (r : ref) :
  dict_get (refs h) k = Some r ->
  Ref._check_evolution k h =
  if o_threshold_hit (objects h r) then Ref._trigger_evolution k h
  else (Ok tt, h).
Proof.
  intros G. unfold Ref._check_evolution.
  heap_step (Ref_personas_getitem_known _ _ _ G).
  apply Ref__check_evolution_loop_run.
Qed.


(** ** One invocation on the heap *)

Lemma Ref_log_invocation_unknown (h : Heap) (k ctx : string)
    (tgs : option (list string)) (weight : Z) :
  dict_get (refs h) k = None ->
  exists w, Ref.log_invocation k ctx tgs weight h = (Ok tt, set_rest w h).
Proof.
  intros G. unfold Ref.log_invocation.
  heap_step (Ref_gets_run (fun h => dict_mem (refs h) k) h).
  rewrite (dict_mem_unknown _ _ G). cbn [negb].
  apply on_view_print_heap.
Qed.

(** What a call that names a registered persona leaves in the heap: the
    named object with its count incremented, the context appended to the
    list object that is its accumulated context and, if the threshold test
    passes, its stage incremented and a phrase and a trait appended to the
    two list objects that are its learned phrases and developed traits. *)
Lemma Ref_log_invocation_known (h : Heap) (k ctx : string)
    (tgs : option (list string)) (weight : Z) (r : ref) :
  dict_get (refs h) k = Some r ->
  let o := objects h r in
  let o1 := set_o_invocation_count (o_invocation_count o + 1) o in
  exists h' phrase trait,
    Ref.log_invocation k ctx tgs weight h = (Ok tt, h')
    /\ Str.truthy phrase = true /\ Str.truthy trait = true
    /\ refs h' = refs h
    /\ objects h'
       = (if o_threshold_hit o1
          then upd (upd (objects h) r o1) r
                 (set_o_evolution_stage (o_evolution_stage o + 1) o1)
          else upd (objects h) r o1)
    /\ lists h'
       = (if o_threshold_hit o1
          then appended (o_developed_traits o) trait
                 (appended (o_learned_phrases o) phrase
                    (appended (o_accumulated_context o) ctx (lists h)))
          else appended (o_accumulated_context o) ctx (lists h)).
Proof.
  intros G o o1. unfold Ref.log_invocation.
  heap_step (Ref_gets_run (fun h => dict_mem (refs h) k) h).
  rewrite (dict_mem_known _ _ _ G). cbn [negb].
  heap_step (Ref_personas_getitem_known _ _ _ G).
  heap_step (Ref_getattr_run r o_invocation_count h).
  heap_step (Ref_setattr_run r _ h).
  fold o o1. set (h1 := set_objects _ h).
  heap_step (Ref_getattr_run r o_accumulated_context h1).
  heap_step (Ref_list_append_run (o_accumulated_context (objects h1 r)) ctx h1).
  set (h2 := set_lists _ h1).
  destruct (on_view_now_isoformat_heap h2) as (ts & w3 & R3).
  heap_step R3. clear R3. set (h3 := set_rest w3 h2).
  match goal with
  | |- context [Ref.on_view (events_append ?e)] =>
      destruct (on_view_events_append_heap e h3) as (w4 & R4)
  end.
  heap_step R4. clear R4. set (h4 := set_rest w4 h3).
  assert (G4 : dict_get (refs h4) k = Some r) by exact G.
  assert (O4 : objects h4 r = o1) by (subst h4 h3 h2 h1; heap_fields; apply upd_same).
  assert (A4 : o_accumulated_context (upd (objects h) r o1 r)
               = o_accumulated_context o)
    by now rewrite upd_same.
  rewrite (Ref_bind_ok _ _ h4
             (if o_threshold_hit o1
              then snd (Ref._trigger_evolution k h4) else h4) tt).
  2:{ rewrite (Ref__check_evolution_known _ _ _ G4), O4.
      destruct (o_threshold_hit o1); [|reflexivity].
      destruct (Ref__trigger_evolution_known h4 k r G4)
        as (h5 & ? & ? & -> & _).
      reflexivity. }
  destruct (o_threshold_hit o1).
  - destruct (Ref__trigger_evolution_known h4 k r G4)
      as (h5 & phrase & trait & R5 & Tp & Tt & F5 & O5 & L5).
    rewrite R5. cbn [snd]. clear R5.
    destruct (on_view__save_state_heap h5) as (w6 & R6).
    heap_step R6. clear R6. set (h6 := set_rest w6 h5).
    heap_step (Ref_getattr_run r o_invocation_count h6).
    match goal with
    | |- context [Ref.on_view (print ?s)] =>
        destruct (on_view_print_heap s h6) as (w7 & R7)
    end.
    rewrite R7. eexists _, phrase, trait. split; [reflexivity|].
    split; [exact Tp|]. split; [exact Tt|].
    subst h6. heap_fields. rewrite F5, O5, L5, O4.
    subst h4 h3 h2 h1. heap_fields. rewrite A4.
    repeat split.
  - destruct (on_view__save_state_heap h4) as (w6 & R6).
    heap_step R6. clear R6. set (h6 := set_rest w6 h4).
    heap_step (Ref_getattr_run r o_invocation_count h6).
    match goal with
    | |- context [Ref.on_view (print ?s)] =>
        destruct (on_view_print_heap s h6) as (w7 & R7)
    end.
    rewrite R7. eexists _, "x"%string, "x"%string. split; [reflexivity|].
    split; [reflexivity|]. split; [reflexivity|].
    subst h6 h4 h3 h2 h1. heap_fields. rewrite A4. repeat split.
Qed.

(** ** What one call does to the heap, cell by cell *)

Lemma same_links_refl (o : Object) : same_links o o.
Proof. repeat split. Qed.

Lemma same_links_trans (o1 o2 o3 : Object) :
  same_links o1 o2 -> same_links o2 o3 -> same_links o1 o3.
Proof. unfold same_links. intuition congruence. Qed.

Lemma Ref_log_invocation_effect (h : Heap) (k ctx : string)
    (tgs : option (list string)) (weight : Z) (r : ref) :
  dict_get (refs h) k = Some r ->
  let o := objects h r in
  let o1 := set_o_invocation_count (o_invocation_count o + 1) o in
  let h' := Ref.exec (Ref.log_invocation k ctx tgs weight) h in
  exists phrase trait,
    Ref.result (Ref.log_invocation k ctx tgs weight) h = Ok tt
    /\ refs h' = refs h
    /\ (forall x, x <> r -> objects h' x = objects h x)
    /\ objects h' r
       = (if o_threshold_hit o1
          then set_o_evolution_stage (o_evolution_stage o + 1) o1 else o1)
    /\ (forall a,
          lists h' a
          = lists h a
            ++ (if Nat.eqb a (o_accumulated_context o) then [ctx] else [])
            ++ (if o_threshold_hit o1
                then (if Nat.eqb a (o_learned_phrases o) then [phrase] else [])
                     ++ (if Nat.eqb a (o_developed_traits o) then [trait]
                         else [])
                else [])).
Proof.
  intros G o o1 h'.
  destruct (Ref_log_invocation_known h k ctx tgs weight r G)
    as (h1 & phrase & trait & R & _ & _ & F & O & L).
  fold o o1 in O, L. subst h'. unfold Ref.exec, Ref.result. rewrite R.
  cbn [fst snd]. exists phrase, trait. split; [reflexivity|].
  split; [exact F|]. rewrite O, L.
  destruct (o_threshold_hit o1).
  - split; [intros x N; now rewrite !upd_other by exact N|].
    split; [apply upd_same|].
    intros a. now rewrite !appended_at, <- !app_assoc.
  - split; [intros x N; now rewrite upd_other by exact N|].
    split; [apply upd_same|].
    intros a. now rewrite appended_at, app_nil_r.
Qed.

(** No call changes the store, the identity strings of an object or the
    list objects an object holds. *)
Lemma Ref_log_invocation_links (h : Heap) (k ctx : string)
    (tgs : option (list string)) (weight : Z) :
  let h' := Ref.exec (Ref.log_invocation k ctx tgs weight) h in
  Ref.result (Ref.log_invocation k ctx tgs weight) h = Ok tt
  /\ refs h' = refs h
  /\ forall x, same_links (objects h x) (objects h' x).
Proof.
  intros h'. destruct (dict_get (refs h) k) as [r|] eqn:G.
  - destruct (Ref_log_invocation_effect h k ctx tgs weight r G)
      as (phrase & trait & R & F & O & Or & _).
    split; [exact R|]. split; [exact F|]. intros x.
    destruct (Nat.eq_dec x r) as [->|N].
    + subst h'. rewrite Or.
      destruct (o_threshold_hit _); repeat split.
    + subst h'. rewrite (O x N). apply same_links_refl.
  - destruct (Ref_log_invocation_unknown h k ctx tgs weight G) as (w & R).
    subst h'. unfold Ref.exec, Ref.result. rewrite R. cbn [fst snd].
    split; [reflexivity|]. split; [reflexivity|].
    intros x. apply same_links_refl.
Qed.

(** A list object that the named persona does not append to is not
    written. *)
Lemma Ref_log_invocation_frame (h : Heap) (k ctx : string)
    (tgs : option (list string)) (weight : Z) (a : ref) :
  (forall r, dict_get (refs h) k = Some r ->
     ~ In a (mutable_lists (objects h r))) ->
  lists (Ref.exec (Ref.log_invocation k ctx tgs weight) h) a = lists h a.
Proof.
  intros N. destruct (dict_get (refs h) k) as [r|] eqn:G.
  - destruct (Ref_log_invocation_effect h k ctx tgs weight r G)
      as (phrase & trait & _ & _ & _ & _ & L).
    rewrite L. specialize (N r eq_refl). cbn [mutable_lists In] in N.
    destruct (Nat.eqb_spec a (o_accumulated_context (objects h r))) as [E|_];
      [exfalso; apply N; rewrite E; auto|].
    destruct (Nat.eqb_spec a (o_learned_phrases (objects h r))) as [E|_];
      [exfalso; apply N; rewrite E; auto|].
    destruct (Nat.eqb_spec a (o_developed_traits (objects h r))) as [E|_];
      [exfalso; apply N; rewrite E; auto|].
    destruct (o_threshold_hit _); now rewrite ?app_nil_r.
  - destruct (Ref_log_invocation_unknown h k ctx tgs weight G) as (w & R).
    unfold Ref.exec. now rewrite R.
Qed.




(** ** Stage transitions at the thresholds *)

Lemma o_threshold_hit_spec (o : Object) :
  o_threshold_hit o = true
  <-> In (o_invocation_count o) [10; 25; 50; 100; 250]
      /\ o_evolution_stage o < 5.
Proof.
  unfold o_threshold_hit. rewrite andb_true_iff, Z.ltb_lt, existsb_exists.
  unfold thresholds. split.
  - intros [(t & I & E) L]. apply Z.eqb_eq in E. subst t. auto.
  - intros [I L]. split; auto. exists (o_invocation_count o). split; auto.
    apply Z.eqb_refl.
Qed.

(** C1. In a [log_invocation] call that names a registered persona, the
    stage of the persona object goes up by one exactly when the
    incremented count is one of 10, 25, 50, 100, 250 and the stage was
    below 5; otherwise the stage is the same.  The stage never goes down,
    and a stage of at most 5 stays at most 5: the bound is kept, not
    established, since a persona may be registered at any stage.  No
    other persona object is written. *)
Theorem evolution_stage_steps_at_thresholds (h : Heap) (k ctx : string)
    (tgs : option (list string)) (weight : Z) (r : ref) :
  dict_get (refs h) k = Some r ->
  dict_get (refs (Ref.exec (Ref.log_invocation k ctx tgs weight) h)) k = Some r
  /\ o_invocation_count
       (objects (Ref.exec (Ref.log_invocation k ctx tgs weight) h) r)
     = o_invocation_count (objects h r) + 1
  /\ (o_evolution_stage
        (objects (Ref.exec (Ref.log_invocation k ctx tgs weight) h) r)
      = o_evolution_stage (objects h r) + 1
      <-> In (o_invocation_count
                (objects (Ref.exec (Ref.log_invocation k ctx tgs weight) h) r))
            [10; 25; 50; 100; 250]
          /\ o_evolution_stage (objects h r) < 5)
  /\ (o_evolution_stage
        (objects (Ref.exec (Ref.log_invocation k ctx tgs weight) h) r)
      = o_evolution_stage (objects h r)
      \/ o_evolution_stage
           (objects (Ref.exec (Ref.log_invocation k ctx tgs weight) h) r)
         = o_evolution_stage (objects h r) + 1)
  /\ o_evolution_stage (objects h r)
     <= o_evolution_stage
          (objects (Ref.exec (Ref.log_invocation k ctx tgs weight) h) r)
  /\ (o_evolution_stage (objects h r) <= 5 ->
      o_evolution_stage
        (objects (Ref.exec (Ref.log_invocation k ctx tgs weight) h) r) <= 5)
  /\ (forall x, x <> r ->
        objects (Ref.exec (Ref.log_invocation k ctx tgs weight) h) x
        = objects h x).
Proof.
  intros G.
  destruct (Ref_log_invocation_effect h k ctx tgs weight r G)
    as (phrase & trait & _ & F & O & Or & _).
  rewrite F, Or. split; [exact G|].
  pose proof (o_threshold_hit_spec
                (set_o_invocation_count (o_invocation_count (objects h r) + 1)
                   (objects h r))) as T.
  cbn [o_invocation_count o_evolution_stage set_o_invocation_count] in T.
  destruct (o_threshold_hit _);
    cbn [o_invocation_count o_evolution_stage set_o_invocation_count
         set_o_evolution_stage].
  - destruct T as [T _]. specialize (T eq_refl). destruct T as [I L].
    split; [reflexivity|]. split; [tauto|]. split; [auto|].
    split; [lia|]. split; [lia | exact O].
  - split; [reflexivity|]. split.
    + split; [lia|]. intros C. destruct T as [_ T]. discriminate (T C).
    + split; [auto|]. split; [lia|]. split; [lia | exact O].
Qed.

Lemma evolution_stage_steps_at_thresholds_witness :
  o_invocation_count
    (objects (Ref.exec (Ref.log_invocation "X" "ten" None 5) Ref.X_at_9) 0%nat)
  = o_invocation_count (objects Ref.X_at_9 0%nat) + 1
  /\ o_evolution_stage
       (objects (Ref.exec (Ref.log_invocation "X" "ten" None 5) Ref.X_at_9)
          0%nat)
     = o_evolution_stage (objects Ref.X_at_9 0%nat) + 1.
Proof.
  assert (G : dict_get (refs Ref.X_at_9) "X" = Some 0%nat)
    by (vm_compute; reflexivity).
  assert (N : o_invocation_count (objects Ref.X_at_9 0%nat) = 9)
    by (vm_compute; reflexivity).
  assert (L : o_evolution_stage (objects Ref.X_at_9 0%nat) < 5)
    by (vm_compute; reflexivity).
  destruct (evolution_stage_steps_at_thresholds Ref.X_at_9 "X" "ten" None 5
              0%nat G)
    as (_ & C & S & _).
  split; [exact C|]. apply S. rewrite C, N. split; [|exact L].
  cbn [In]. auto.
Defined.

(** C1, the bound as the claim has it: a persona registered at stage 7 is
    in the store at stage 7, and the engine leaves it there. *)
Lemma stage_above_five_is_kept :
  dict_get (refs Ref.elder) "S" = Some 0%nat
  /\ o_evolution_stage (objects Ref.elder 0%nat) = 7
  /\ dict_get (refs (Ref.exec (Ref.log_invocation "S" "ctx" None 5) Ref.elder))
       "S" = Some 0%nat
  /\ o_evolution_stage
       (objects (Ref.exec (Ref.log_invocation "S" "ctx" None 5) Ref.elder)
          0%nat) = 7
  /\ 5 < 7.
Proof. repeat split; vm_compute; reflexivity. Qed.

(** ** Identity under sharing *)




(** ** Histories under sharing *)

Lemma Ref_run_calls_cons (c : call) (cs : list call) (h : Heap) :
  Ref.exec (Ref.run_calls (c :: cs)) h
  = Ref.exec (Ref.run_calls cs) (Ref.exec (Ref.run_call c) h).
Proof.
  destruct (Ref_log_invocation_links h (call_name c) (call_context c)
              (call_tags c) (call_weight c)) as (R & _).
  cbn [Ref.run_calls]. unfold Ref.exec, Ref.result, Ref.bind, Ref.run_call in *.
  destruct (Ref.log_invocation _ _ _ _ h) as [[[]|e] h1]; cbn in R |- *;
    [reflexivity | discriminate R].
Qed.

Lemma private_links (h h' : Heap) (k : string) (a : ref) :
  refs h' = refs h ->
  (forall x, same_links (objects h x) (objects h' x)) ->
  private h k a -> private h' k a.
Proof.
  intros F L P k' r' N G. rewrite F in G. specialize (P k' r' N G).
  destruct (L r') as (_ & _ & _ & _ & _ & _ & La & Ll & Lt).
  unfold mutable_lists in *. now rewrite La, Ll, Lt.
Qed.

(** One call, seen from a list object that is the accumulated context of
    the persona under [k] and of no other use. *)
Lemma Ref_log_invocation_context (h : Heap) (kc ctx : string)
    (tgs : option (list string)) (weight : Z) (k : string) (r : ref) :
  dict_get (refs h) k = Some r ->
  o_accumulated_context (objects h r) <> o_learned_phrases (objects h r) ->
  o_accumulated_context (objects h r) <> o_developed_traits (objects h r) ->
  private h k (o_accumulated_context (objects h r)) ->
  lists (Ref.exec (Ref.log_invocation kc ctx tgs weight) h)
    (o_accumulated_context (objects h r))
  = lists h (o_accumulated_context (objects h r))
    ++ (if String.eqb kc k then [ctx] else []).
Proof.
  intros G Nl Nt P. destruct (String.eqb_spec kc k) as [->|N].
  - destruct (Ref_log_invocation_effect h k ctx tgs weight r G)
      as (phrase & trait & _ & _ & _ & _ & L).
    rewrite L, Nat.eqb_refl.
    destruct (Nat.eqb_spec (o_accumulated_context (objects h r))
                (o_learned_phrases (objects h r))); [contradiction|].
    destruct (Nat.eqb_spec (o_accumulated_context (objects h r))
                (o_developed_traits (objects h r))); [contradiction|].
    now destruct (o_threshold_hit _).
  - rewrite app_nil_r. apply Ref_log_invocation_frame.
    intros rc Gc. exact (P kc rc N Gc).
Qed.

(** X16. The accumulated context of a persona is an append-only history
    as long as its list object is put to no other use: if it is not also
    the persona's list of learned phrases or of developed traits, and no
    persona filed under another name appends to it, then after any
    sequence of calls it holds what it held, followed by the contexts of
    the calls that named the persona, in call order. *)
Theorem accumulated_context_is_history (cs : list call) (h : Heap)
    (k : string) (r : ref) :
  dict_get (refs h) k = Some r ->
  o_accumulated_context (objects h r) <> o_learned_phrases (objects h r) ->
  o_accumulated_context (objects h r) <> o_developed_traits (objects h r) ->
  private h k (o_accumulated_context (objects h r)) ->
  dict_get (refs (Ref.exec (Ref.run_calls cs) h)) k = Some r
  /\ accumulated_context (deref (Ref.exec (Ref.run_calls cs) h) r)
     = accumulated_context (deref h r) ++ contexts_naming k cs.
Proof.
  revert h. induction cs as [|c cs IH]; intros h G Nl Nt P.
  - split; [exact G|]. cbn. now rewrite app_nil_r.
  - rewrite Ref_run_calls_cons. unfold Ref.run_call.
    destruct (Ref_log_invocation_links h (call_name c) (call_context c)
                (call_tags c) (call_weight c)) as (_ & F & L).
    pose proof (Ref_log_invocation_context h (call_name c) (call_context c)
                  (call_tags c) (call_weight c) k r G Nl Nt P) as C.
    set (h1 := Ref.exec (Ref.log_invocation _ _ _ _) h) in *.
    destruct (L r) as (_ & _ & _ & _ & _ & _ & La & Ll & Lt).
    destruct (IH h1) as (G' & A).
    + now rewrite F.
    + now rewrite La, Ll.
    + now rewrite La, Lt.
    + rewrite La. now apply (private_links h h1).
    + split; [exact G'|]. rewrite A.
      unfold deref. cbn [accumulated_context]. rewrite La, C.
      unfold contexts_naming. cbn [filter].
      destruct (String.eqb (call_name c) k); cbn [map];
        now rewrite <- app_assoc.
Qed.

Lemma accumulated_context_is_history_witness :
  accumulated_context
    (deref (Ref.exec (Ref.run_calls [Ref.call_X; Ref.call_Y; Ref.call_X])
              Ref.twins) 0%nat)
  = accumulated_context (deref Ref.twins 0%nat)
    ++ contexts_naming "X" [Ref.call_X; Ref.call_Y; Ref.call_X].
Proof.
  assert (GX : dict_get (refs Ref.twins) "X" = Some 0%nat)
    by (vm_compute; reflexivity).
  assert (Nl : o_accumulated_context (objects Ref.twins 0%nat)
               <> o_learned_phrases (objects Ref.twins 0%nat))
    by (vm_compute; lia).
  assert (Nt : o_accumulated_context (objects Ref.twins 0%nat)
               <> o_developed_traits (objects Ref.twins 0%nat))
    by (vm_compute; lia).
  assert (P : private Ref.twins "X"
                (o_accumulated_context (objects Ref.twins 0%nat))).
  { intros k' r' N G.
    assert (R : refs Ref.twins = [("X"%string, 0%nat); ("Y"%string, 1%nat)])
      by (vm_compute; reflexivity).
    rewrite R in G. cbn [dict_get] in G.
    destruct (String.eqb_spec k' "X") as [E|_]; [contradiction|].
    destruct (String.eqb k' "Y"); [|discriminate G]. injection G as <-.
    vm_compute. lia. }
  exact (proj2 (accumulated_context_is_history
                  [Ref.call_X; Ref.call_Y; Ref.call_X] Ref.twins "X" 0%nat
                  GX Nl Nt P)).
Defined.

(** ** A settled persona under sharing *)





(** * The two engines agree where nothing is shared *)

(** ** The image of a heap *)

Lemma set_personas_id (w : World) : set_personas (personas w) w = w.
Proof. now destruct w. Qed.

Lemma dict_get_image (h : Heap) (k : string) (r : ref) :
  dict_get (refs h) k = Some r -> dict_get (image h) k = Some (deref h r).
Proof.
  unfold image. induction (refs h) as [|[k0 r0] d IH]; cbn [dict_get map fst snd].
  - discriminate.
  - destruct (String.eqb k k0); [now intros [= ->] | exact IH].
Qed.

Lemma dict_get_image_None (h : Heap) (k : string) :
  dict_get (refs h) k = None -> dict_get (image h) k = None.
Proof.
  unfold image. induction (refs h) as [|[k0 r0] d IH]; cbn [dict_get map fst snd].
  - reflexivity.
  - destruct (String.eqb k k0); [discriminate | exact IH].
Qed.

Lemma dict_get_of_In {V} (d : dict V) (k : string) (v : V) :
  NoDup (dict_keys d) -> In (k, v) d -> dict_get d k = Some v.
Proof.
  induction d as [|[k0 v0] d IH]; cbn [dict_keys map fst In dict_get].
  - intros _ [].
  - intros ND [E|I].
    + injection E as -> ->. now rewrite String.eqb_refl.
    + inversion ND as [|? ? Nk ND']; subst.
      destruct (String.eqb_spec k k0) as [->|_].
      * exfalso. apply Nk. change (In (fst (k0, v)) (map fst d)).
        now apply in_map.
      * now apply IH.
Qed.

Lemma dict_get_In_keys {V} (d : dict V) (k : string) (v : V) :
  dict_get d k = Some v -> In k (dict_keys d).
Proof.
  intros G. destruct (in_dec String.string_dec k (dict_keys d)) as [I|N];
    [exact I|].
  apply dict_get_In in N. congruence.
Qed.

(** Writing one cell of the image. *)
Lemma image_update (d : dict ref) (F F' : ref -> PersonaState)
    (k : string) (r : ref) :
  NoDup (dict_keys d) ->
  dict_get d k = Some r ->
  (forall k' r', k' <> k -> dict_get d k' = Some r' -> F' r' = F r') ->
  map (fun kr => (fst kr, F' (snd kr))) d
  = dict_set (map (fun kr => (fst kr, F (snd kr))) d) k (F' r).
Proof.
  induction d as [|[k0 r0] d IH]; cbn [dict_keys dict_get map fst snd dict_set].
  - discriminate.
  - intros ND G O. inversion ND as [|? ? Nk ND']; subst.
    destruct (String.eqb_spec k k0) as [->|N].
    + injection G as ->. f_equal.
      apply map_ext_in. intros [k' r'] I. cbn [fst snd]. f_equal.
      apply (O k').
      * intros ->. apply Nk. change (In (fst (k0, r')) (map fst d)).
        now apply in_map.
      * destruct (String.eqb_spec k' k0) as [->|_].
        -- exfalso. apply Nk. change (In (fst (k0, r')) (map fst d)).
           now apply in_map.
        -- now apply dict_get_of_In.
    + f_equal.
      * f_equal. apply (O k0); [congruence|]. now rewrite String.eqb_refl.
      * apply IH; [exact ND' | exact G |].
        intros k' r' N' G'. apply (O k'); [exact N'|].
        destruct (String.eqb_spec k' k0) as [->|_]; [|exact G'].
        exfalso. apply Nk. apply dict_get_In_keys with (v := r'). exact G'.
Qed.

(** ** Steps that agree *)

Lemma unshared_links (h h' : Heap) :
  refs h' = refs h ->
  (forall x, same_links (objects h x) (objects h' x)) ->
  unshared h -> unshared h'.
Proof.
  intros F L (ND & Own & Apart).
  assert (M : forall x, mutable_lists (objects h' x) = mutable_lists (objects h x)).
  { intros x. destruct (L x) as (_ & _ & _ & _ & _ & _ & La & Ll & Lt).
    unfold mutable_lists. now rewrite La, Ll, Lt. }
  assert (I : forall x, identity_lists (objects h' x)
                        = identity_lists (objects h x)).
  { intros x. destruct (L x) as (_ & _ & _ & _ & Lc & Ls & _).
    unfold identity_lists. now rewrite Lc, Ls. }
  unfold unshared. rewrite F. split; [exact ND|]. split.
  - intros k r G. rewrite M, I. exact (Own k r G).
  - intros k1 r1 k2 r2 N G1 G2 a. unfold all_lists. rewrite !M, I.
    exact (Apart k1 r1 k2 r2 N G1 G2 a).
Qed.

Lemma unshared_quiet (h h' : Heap) : quiet h h' -> unshared h -> unshared h'.
Proof.
  intros (O & _ & F). apply unshared_links; [exact F|].
  intros x. rewrite O. apply same_links_refl.
Qed.

Lemma deref_quiet (h h' : Heap) (r : ref) : quiet h h' -> deref h' r = deref h r.
Proof. intros (O & L & _). unfold deref. now rewrite O, L. Qed.

Lemma image_quiet (h h' : Heap) : quiet h h' -> image h' = image h.
Proof.
  intros Q. unfold image. destruct Q as (O & L & F). rewrite F.
  apply map_ext. intros kr. unfold deref. now rewrite O, L.
Qed.

(** A by-value computation that does not write the store. *)
Lemma agree_on_view {A} (c : M A) (h : Heap) (a : A) (w : World) :
  c (view h) = (Ok a, w) -> personas w = image h ->
  exists h',
    Ref.on_view c h = (Ok a, h')
    /\ c (view h) = (Ok a, view h')
    /\ quiet h h'.
Proof.
  intros R P. exists (set_rest w h). unfold Ref.on_view. rewrite R.
  cbn [fst snd]. split; [reflexivity|]. split; [|repeat split].
  f_equal. unfold view.
  change (image (set_rest w h)) with (image h).
  cbn [rest set_rest]. rewrite <- P. symmetry. apply set_personas_id.
Qed.

Lemma agree_print (s : string) (h : Heap) :
  exists h',
    Ref.on_view (print s) h = (Ok tt, h')
    /\ print s (view h) = (Ok tt, view h')
    /\ quiet h h'.
Proof. eapply agree_on_view; reflexivity. Qed.

Lemma agree_now_isoformat (h : Heap) :
  exists ts h',
    Ref.on_view now_isoformat h = (Ok ts, h')
    /\ now_isoformat (view h) = (Ok ts, view h')
    /\ quiet h h'.
Proof. eexists. eapply agree_on_view; reflexivity. Qed.

Lemma agree_events_append (e : MythologicalEvent) (h : Heap) :
  exists h',
    Ref.on_view (events_append e) h = (Ok tt, h')
    /\ events_append e (view h) = (Ok tt, view h')
    /\ quiet h h'.
Proof. eapply agree_on_view; reflexivity. Qed.

Lemma agree__save_state (h : Heap) :
  exists h',
    Ref.on_view _save_state h = (Ok tt, h')
    /\ _save_state (view h) = (Ok tt, view h')
    /\ quiet h h'.
Proof. eapply agree_on_view; [apply _save_state_run | reflexivity]. Qed.

Lemma agree__generate_phrase (p : PersonaState) (h : Heap) :
  exists phrase h',
    Str.truthy phrase = true
    /\ Ref.on_view (_generate_phrase p) h = (Ok phrase, h')
    /\ _generate_phrase p (view h) = (Ok phrase, view h')
    /\ quiet h h'.
Proof.
  destruct (_generate_phrase_truthy p (view h)) as (phrase & T & R).
  destruct (agree_on_view _ h phrase _ R eq_refl) as (h' & Rh & Rv & Q).
  exists phrase, h'. auto.
Qed.

Lemma agree__generate_trait (p : PersonaState) (h : Heap) :
  exists trait h',
    Str.truthy trait = true
    /\ Ref.on_view (_generate_trait p) h = (Ok trait, h')
    /\ _generate_trait p (view h) = (Ok trait, view h')
    /\ quiet h h'.
Proof.
  destruct (_generate_trait_truthy p (view h)) as (trait & T & R).
  destruct (agree_on_view _ h trait _ R eq_refl) as (h' & Rh & Rv & Q).
  exists trait, h'. auto.
Qed.

(** A write to the persona filed under [k]: the by-value store is updated
    at [k] when no other registered persona can see the write. *)
Lemma agree_mutate (h h' : Heap) (k : string) (r : ref)
    (f : PersonaState -> PersonaState) :
  NoDup (dict_keys (refs h)) ->
  dict_get (refs h) k = Some r ->
  refs h' = refs h -> rest h' = rest h ->
  deref h' r = f (deref h r) ->
  (forall k' r', k' <> k -> dict_get (refs h) k' = Some r' ->
     deref h' r' = deref h r') ->
  mutate_persona k f (view h) = (Ok tt, view h').
Proof.
  intros ND G F Rs D O.
  rewrite (mutate_persona_known (view h) k (deref h r) f)
    by (apply dict_get_image; exact G).
  f_equal. unfold view. rewrite Rs. cbn [personas set_personas].
  assert (I : image h' = dict_set (image h) k (f (deref h r))).
  { unfold image. rewrite F.
    rewrite (image_update (refs h) (deref h) (deref h') k r ND G O), D.
    reflexivity. }
  rewrite I. reflexivity.
Qed.

(** ** Writes that agree *)

Lemma unshared_distinct (h : Heap) (k1 k2 : string) (r1 r2 : ref) :
  unshared h -> k1 <> k2 ->
  dict_get (refs h) k1 = Some r1 -> dict_get (refs h) k2 = Some r2 ->
  r1 <> r2.
Proof.
  intros (_ & _ & Apart) N G1 G2 ->.
  apply (Apart k1 r2 k2 r2 N G1 G2 (o_accumulated_context (objects h r2))).
  - cbn [mutable_lists In]. auto.
  - unfold all_lists. apply in_or_app. right. cbn [mutable_lists In]. auto.
Qed.

Lemma appended_same (lst : ref) (x : string) (ls : ref -> list string) :
  appended lst x ls lst = ls lst ++ [x].
Proof. apply upd_same. Qed.

Lemma appended_other (lst : ref) (x : string) (ls : ref -> list string)
    (b : ref) :
  b <> lst -> appended lst x ls b = ls b.
Proof. apply upd_other. Qed.

Lemma deref_appended_other (h : Heap) (a : ref) (x : string) (r' : ref) :
  ~ In a (all_lists (objects h r')) ->
  deref (set_lists (appended a x (lists h)) h) r' = deref h r'.
Proof.
  intros N. unfold all_lists in N.
  cbn [identity_lists mutable_lists app In] in N.
  unfold deref. cbn [objects lists set_lists].
  rewrite !appended_other by (intros E; apply N; rewrite E; auto 6).
  reflexivity.
Qed.

Lemma deref_upd_other (h : Heap) (r r' : ref) (o : Object) :
  r' <> r -> deref (set_objects (upd (objects h) r o) h) r' = deref h r'.
Proof.
  intros N. unfold deref. cbn [objects lists set_objects].
  now rewrite upd_other by exact N.
Qed.

Section Writes.
Variables (h : Heap) (k : string) (r : ref).
Hypothesis U : unshared h.
Hypothesis G : dict_get (refs h) k = Some r.

Lemma agree_setattr (g : Object -> Object)
    (f : PersonaState -> PersonaState) :
  same_links (objects h r) (g (objects h r)) ->
  deref (set_objects (upd (objects h) r (g (objects h r))) h) r
  = f (deref h r) ->
  exists h',
    Ref.setattr r g h = (Ok tt, h')
    /\ mutate_persona k f (view h) = (Ok tt, view h')
    /\ unshared h' /\ refs h' = refs h /\ lists h' = lists h
    /\ objects h' = upd (objects h) r (g (objects h r)).
Proof.
  intros L D. eexists. split; [apply Ref_setattr_run|].
  split; [|split; [|repeat split]].
  - apply agree_mutate with (r := r); try reflexivity; auto.
    + apply U.
    + intros k' r' N G'. apply deref_upd_other.
      exact (unshared_distinct h k' k r' r U N G' G).
  - apply (unshared_links h); [reflexivity | | exact U].
    intros x. cbn [objects set_objects].
    destruct (Nat.eq_dec x r) as [->|N].
    + now rewrite upd_same.
    + rewrite upd_other by exact N. apply same_links_refl.
Qed.

Lemma agree_count :
  exists h',
    Ref.setattr r
      (set_o_invocation_count (o_invocation_count (objects h r) + 1)) h
    = (Ok tt, h')
    /\ mutate_persona k
         (fun p => set_invocation_count (invocation_count p + 1) p) (view h)
       = (Ok tt, view h')
    /\ unshared h' /\ refs h' = refs h /\ lists h' = lists h
    /\ objects h'
       = upd (objects h) r
           (set_o_invocation_count (o_invocation_count (objects h r) + 1)
              (objects h r)).
Proof.
  apply agree_setattr; [repeat split|].
  unfold deref. cbn [objects lists set_objects]. now rewrite upd_same.
Qed.

Lemma agree_stage :
  exists h',
    Ref.setattr r
      (set_o_evolution_stage (o_evolution_stage (objects h r) + 1)) h
    = (Ok tt, h')
    /\ mutate_persona k
         (fun p => set_evolution_stage (evolution_stage p + 1) p) (view h)
       = (Ok tt, view h')
    /\ unshared h' /\ refs h' = refs h /\ lists h' = lists h
    /\ objects h'
       = upd (objects h) r
           (set_o_evolution_stage (o_evolution_stage (objects h r) + 1)
              (objects h r)).
Proof.
  apply agree_setattr; [repeat split|].
  unfold deref. cbn [objects lists set_objects]. now rewrite upd_same.
Qed.

Lemma agree_list_append (a : ref) (x : string)
    (f : PersonaState -> PersonaState) :
  In a (mutable_lists (objects h r)) ->
  deref (set_lists (appended a x (lists h)) h) r = f (deref h r) ->
  exists h',
    Ref.list_append a x h = (Ok tt, h')
    /\ mutate_persona k f (view h) = (Ok tt, view h')
    /\ unshared h' /\ refs h' = refs h /\ objects h' = objects h
    /\ lists h' = appended a x (lists h).
Proof.
  intros I D. eexists. split; [apply Ref_list_append_run|].
  split; [|split; [|repeat split]].
  - apply agree_mutate with (r := r); try reflexivity; auto.
    + apply U.
    + intros k' r' N G'. apply deref_appended_other.
      destruct U as (_ & _ & Apart).
      apply (Apart k r k' r'); auto.
  - apply (unshared_links h); [reflexivity | | exact U].
    intros x0. apply same_links_refl.
Qed.

(** The three lists of the persona under [k] are three list objects, and
    none of them holds its identity. *)
Lemma own_lists :
  let o := objects h r in
  o_accumulated_context o <> o_learned_phrases o
  /\ o_accumulated_context o <> o_developed_traits o
  /\ o_learned_phrases o <> o_developed_traits o
  /\ (forall a, In a (mutable_lists o) ->
        a <> o_constraints o /\ a <> o_sample_phrases o).
Proof.
  destruct U as (_ & Own & _). destruct (Own k r G) as (ND & NI).
  cbn [mutable_lists] in ND.
  inversion ND as [|? ? N1 ND1]; subst.
  inversion ND1 as [|? ? N2 ND2]; subst.
  cbn [In] in N1, N2.
  split; [intros E; apply N1; auto|].
  split; [intros E; apply N1; auto|].
  split; [intros E; apply N2; auto|].
  intros a I. specialize (NI a I). cbn [identity_lists In] in NI.
  split; intros E; apply NI; auto.
Qed.

Lemma agree_append_context (x : string) :
  exists h',
    Ref.list_append (o_accumulated_context (objects h r)) x h = (Ok tt, h')
    /\ mutate_persona k
         (fun p => set_accumulated_context (accumulated_context p ++ [x]) p)
         (view h)
       = (Ok tt, view h')
    /\ unshared h' /\ refs h' = refs h /\ objects h' = objects h
    /\ lists h' = appended (o_accumulated_context (objects h r)) x (lists h).
Proof.
  destruct own_lists as (N1 & N2 & N3 & NI).
  assert (I : In (o_accumulated_context (objects h r))
                (mutable_lists (objects h r)))
    by (cbn [mutable_lists In]; auto).
  destruct (NI _ I) as (Nc & Ns).
  apply agree_list_append; [exact I|].
  unfold deref. cbn [objects lists set_lists].
  rewrite appended_same.
  rewrite !appended_other by congruence. reflexivity.
Qed.

Lemma agree_append_phrase (x : string) :
  exists h',
    Ref.list_append (o_learned_phrases (objects h r)) x h = (Ok tt, h')
    /\ mutate_persona k
         (fun p => set_learned_phrases (learned_phrases p ++ [x]) p)
         (view h)
       = (Ok tt, view h')
    /\ unshared h' /\ refs h' = refs h /\ objects h' = objects h
    /\ lists h' = appended (o_learned_phrases (objects h r)) x (lists h).
Proof.
  destruct own_lists as (N1 & N2 & N3 & NI).
  assert (I : In (o_learned_phrases (objects h r))
                (mutable_lists (objects h r)))
    by (cbn [mutable_lists In]; auto).
  destruct (NI _ I) as (Nc & Ns).
  apply agree_list_append; [exact I|].
  unfold deref. cbn [objects lists set_lists].
  rewrite appended_same.
  rewrite !appended_other by congruence. reflexivity.
Qed.

Lemma agree_append_trait (x : string) :
  exists h',
    Ref.list_append (o_developed_traits (objects h r)) x h = (Ok tt, h')
    /\ mutate_persona k
         (fun p => set_developed_traits (developed_traits p ++ [x]) p)
         (view h)
       = (Ok tt, view h')
    /\ unshared h' /\ refs h' = refs h /\ objects h' = objects h
    /\ lists h' = appended (o_developed_traits (objects h r)) x (lists h).
Proof.
  destruct own_lists as (N1 & N2 & N3 & NI).
  assert (I : In (o_developed_traits (objects h r))
                (mutable_lists (objects h r)))
    by (cbn [mutable_lists In]; auto).
  destruct (NI _ I) as (Nc & Ns).
  apply agree_list_append; [exact I|].
  unfold deref. cbn [objects lists set_lists].
  rewrite appended_same.
  rewrite !appended_other by congruence. reflexivity.
Qed.

End Writes.

(** ** The stage transition agrees *)

Lemma Ref_bind_assoc {A B C} (c : Ref.H A) (f : A -> Ref.H B)
    (g : B -> Ref.H C) (h : Heap) :
  Ref.bind (Ref.bind c f) g h = Ref.bind c (fun x => Ref.bind (f x) g) h.
Proof. unfold Ref.bind. now destruct (c h) as [[a|e] h1]. Qed.

Lemma bind_assoc {A B C} (c : M A) (f : A -> M B) (g : B -> M C) (w : World) :
  bind (bind c f) g w = bind c (fun x => bind (f x) g) w.
Proof. unfold bind. now destruct (c w) as [[a|e] w1]. Qed.

Lemma personas_getitem_view (h : Heap) (k : string) (r : ref) :
  dict_get (refs h) k = Some r ->
  personas_getitem k (view h) = (Ok (deref h r), view h).
Proof.
  intros G. apply personas_getitem_known. now apply dict_get_image.
Qed.

Tactic Notation "both_step" uconstr(Rh) uconstr(Rv) :=
  rewrite (Ref_bind_ok _ _ _ _ _ Rh), (bind_ok _ _ _ _ _ Rv).

Ltac carry U G Q U' G' :=
  pose proof (unshared_quiet _ _ Q U) as U';
  assert (G' := G);
  rewrite <- (proj2 (proj2 Q)) in G'.

Lemma agree__trigger_evolution (h : Heap) (k : string) (r : ref) :
  unshared h -> dict_get (refs h) k = Some r ->
  exists h',
    Ref._trigger_evolution k h = (Ok tt, h')
    /\ _trigger_evolution k (view h) = (Ok tt, view h')
    /\ unshared h' /\ refs h' = refs h.
Proof.
  intros U G. unfold Ref._trigger_evolution, _trigger_evolution.
  heap_step (Ref_personas_getitem_known _ _ _ G).
  heap_step (Ref_getattr_run r o_evolution_stage h).
  destruct (agree_stage h k r U G) as (h1 & Rh1 & Rv1 & U1 & F1 & L1 & O1).
  both_step Rh1 Rv1. clear Rh1 Rv1.
  assert (G1 : dict_get (refs h1) k = Some r) by (rewrite F1; exact G).
  rewrite (bind_ok _ _ _ _ _ (personas_getitem_view h1 k r G1)).
  heap_step (Ref_getattr_run r o_evolution_stage h1).
  (* the announcement *)
  match goal with
  | |- context [Ref.on_view (print ?s)] =>
      destruct (agree_print s h1) as (h2 & Rh2 & Rv2 & Q2)
  end.
  both_step Rh2 Rv2. clear Rh2 Rv2. carry U1 G1 Q2 U2 G2.
  (* the phrase *)
  heap_step (Ref_gets_run (fun h => deref h r) h2).
  rewrite (deref_quiet h1 h2 r Q2).
  destruct (agree__generate_phrase (deref h1 r) h2)
    as (phrase & h3 & Tp & Rh3 & Rv3 & Q3).
  both_step Rh3 Rv3. clear Rh3 Rv3. rewrite Tp. carry U2 G2 Q3 U3 G3.
  rewrite !Ref_bind_assoc, !bind_assoc.
  heap_step (Ref_getattr_run r o_learned_phrases h3).
  rewrite Ref_bind_assoc.
  destruct (agree_append_phrase h3 k r U3 G3 phrase)
    as (h4 & Rh4 & Rv4 & U4 & F4 & O4 & L4).
  both_step Rh4 Rv4. clear Rh4 Rv4.
  assert (G4 : dict_get (refs h4) k = Some r) by (rewrite F4; exact G3).
  match goal with
  | |- context [Ref.on_view (print ?s)] =>
      destruct (agree_print s h4) as (h5 & Rh5 & Rv5 & Q5)
  end.
  both_step Rh5 Rv5. clear Rh5 Rv5. carry U4 G4 Q5 U5 G5.
  (* the trait *)
  rewrite (bind_ok _ _ _ _ _ (personas_getitem_view h5 k r G5)).
  heap_step (Ref_gets_run (fun h => deref h r) h5).
  destruct (agree__generate_trait (deref h5 r) h5)
    as (trait & h6 & Tt & Rh6 & Rv6 & Q6).
  both_step Rh6 Rv6. clear Rh6 Rv6. rewrite Tt. carry U5 G5 Q6 U6 G6.
  rewrite !Ref_bind_assoc, !bind_assoc.
  heap_step (Ref_getattr_run r o_developed_traits h6).
  rewrite Ref_bind_assoc.
  destruct (agree_append_trait h6 k r U6 G6 trait)
    as (h7 & Rh7 & Rv7 & U7 & F7 & O7 & L7).
  both_step Rh7 Rv7. clear Rh7 Rv7.
  assert (G7 : dict_get (refs h7) k = Some r) by (rewrite F7; exact G6).
  match goal with
  | |- context [Ref.on_view (print ?s)] =>
      destruct (agree_print s h7) as (h8 & Rh8 & Rv8 & Q8)
  end.
  both_step Rh8 Rv8. clear Rh8 Rv8. carry U7 G7 Q8 U8 G8.
  (* the event *)
  rewrite (bind_ok _ _ _ _ _ (personas_getitem_view h8 k r G8)).
  destruct (agree_now_isoformat h8) as (ts & h9 & Rh9 & Rv9 & Q9).
  both_step Rh9 Rv9. clear Rh9 Rv9. carry U8 G8 Q9 U9 G9.
  heap_step (Ref_getattr_run r o_evolution_stage h9).
  rewrite (proj1 Q9).
  match goal with
  | |- context [Ref.on_view (events_append ?e)] =>
      destruct (agree_events_append e h9) as (h10 & Rh10 & Rv10 & Q10)
  end.
  both_step Rh10 Rv10. clear Rh10 Rv10. carry U9 G9 Q10 U10 G10.
  destruct (agree__save_state h10) as (h11 & Rh11 & Rv11 & Q11).
  exists h11. split; [exact Rh11|]. split; [exact Rv11|].
  split; [exact (unshared_quiet _ _ Q11 U10)|].
  destruct Q11 as (_ & _ & ->). destruct Q10 as (_ & _ & ->).
  destruct Q9 as (_ & _ & ->). destruct Q8 as (_ & _ & ->).
  rewrite F7. destruct Q6 as (_ & _ & ->). destruct Q5 as (_ & _ & ->).
  rewrite F4. destruct Q3 as (_ & _ & ->). destruct Q2 as (_ & _ & ->).
  exact F1.
Qed.

(** ** One invocation agrees *)

Lemma agree__check_evolution (h : Heap) (k : string) (r : ref) :
  unshared h -> dict_get (refs h) k = Some r ->
  exists h',
    Ref._check_evolution k h = (Ok tt, h')
    /\ _check_evolution k (view h) = (Ok tt, view h')
    /\ unshared h' /\ refs h' = refs h.
Proof.
  intros U G.
  rewrite (Ref__check_evolution_known h k r G).
  rewrite (_check_evolution_known (view h) k (deref h r))
    by (apply dict_get_image; exact G).
  change (threshold_hit (deref h r)) with (o_threshold_hit (objects h r)).
  destruct (o_threshold_hit (objects h r)).
  - now apply agree__trigger_evolution with (r := r).
  - exists h. auto.
Qed.

Lemma agree_log_invocation (h : Heap) (k ctx : string)
    (tgs : option (list string)) (weight : Z) :
  unshared h ->
  exists h',
    Ref.log_invocation k ctx tgs weight h = (Ok tt, h')
    /\ log_invocation k ctx tgs weight (view h) = (Ok tt, view h')
    /\ unshared h' /\ refs h' = refs h.
Proof.
  intros U. destruct (dict_get (refs h) k) as [r|] eqn:G.
  - unfold Ref.log_invocation, log_invocation.
    heap_step (Ref_gets_run (fun h => dict_mem (refs h) k) h).
    rewrite (bind_ok _ _ _ _ _
               (eq_refl : gets personas (view h) = (Ok (image h), view h))).
    rewrite (dict_mem_known _ _ _ G).
    rewrite (dict_mem_known _ _ _ (dict_get_image h k r G)). cbn [negb].
    heap_step (Ref_personas_getitem_known _ _ _ G).
    heap_step (Ref_getattr_run r o_invocation_count h).
    destruct (agree_count h k r U G) as (h1 & Rh1 & Rv1 & U1 & F1 & L1 & O1).
    both_step Rh1 Rv1. clear Rh1 Rv1.
    assert (G1 : dict_get (refs h1) k = Some r) by (rewrite F1; exact G).
    heap_step (Ref_getattr_run r o_accumulated_context h1).
    destruct (agree_append_context h1 k r U1 G1 ctx)
      as (h2 & Rh2 & Rv2 & U2 & F2 & O2 & L2).
    both_step Rh2 Rv2. clear Rh2 Rv2.
    assert (G2 : dict_get (refs h2) k = Some r) by (rewrite F2; exact G1).
    destruct (agree_now_isoformat h2) as (ts & h3 & Rh3 & Rv3 & Q3).
    both_step Rh3 Rv3. clear Rh3 Rv3. carry U2 G2 Q3 U3 G3.
    match goal with
    | |- context [Ref.on_view (events_append ?e)] =>
        destruct (agree_events_append e h3) as (h4 & Rh4 & Rv4 & Q4)
    end.
    both_step Rh4 Rv4. clear Rh4 Rv4. carry U3 G3 Q4 U4 G4.
    destruct (agree__check_evolution h4 k r U4 G4)
      as (h5 & Rh5 & Rv5 & U5 & F5).
    both_step Rh5 Rv5. clear Rh5 Rv5.
    assert (G5 : dict_get (refs h5) k = Some r) by (rewrite F5; exact G4).
    destruct (agree__save_state h5) as (h6 & Rh6 & Rv6 & Q6).
    both_step Rh6 Rv6. clear Rh6 Rv6. carry U5 G5 Q6 U6 G6.
    heap_step (Ref_getattr_run r o_invocation_count h6).
    rewrite (bind_ok _ _ _ _ _ (personas_getitem_view h6 k r G6)).
    match goal with
    | |- context [Ref.on_view (print ?s)] =>
        destruct (agree_print s h6) as (h7 & Rh7 & Rv7 & Q7)
    end.
    exists h7. split; [exact Rh7|]. split; [exact Rv7|].
    split; [exact (unshared_quiet _ _ Q7 U6)|].
    destruct Q7 as (_ & _ & ->). destruct Q6 as (_ & _ & ->). rewrite F5.
    destruct Q4 as (_ & _ & ->). destruct Q3 as (_ & _ & ->).
    now rewrite F2, F1.
  - unfold Ref.log_invocation, log_invocation.
    heap_step (Ref_gets_run (fun h => dict_mem (refs h) k) h).
    rewrite (bind_ok _ _ _ _ _
               (eq_refl : gets personas (view h) = (Ok (image h), view h))).
    rewrite (dict_mem_unknown _ _ G).
    rewrite (dict_mem_unknown _ _ (dict_get_image_None h k G)). cbn [negb].
    destruct (agree_print ("⚠️  Unknown persona: " ++ k)%string h)
      as (h1 & Rh1 & Rv1 & Q1).
    exists h1. split; [exact Rh1|]. split; [exact Rv1|].
    split; [exact (unshared_quiet _ _ Q1 U) | apply Q1].
Qed.

(** ** Registration agrees *)

Lemma map_dict_set {V W} (f : V -> W) (d : dict V) (k : string) (v : V) :
  map (fun kv => (fst kv, f (snd kv))) (dict_set d k v)
  = dict_set (map (fun kv => (fst kv, f (snd kv))) d) k (f v).
Proof.
  induction d as [|[k0 v0] d IH]; cbn [dict_set map fst snd].
  - reflexivity.
  - destruct (String.eqb k k0); cbn [map fst snd]; [reflexivity|].
    now rewrite IH.
Qed.

Lemma agree_register_persona (h : Heap) (persona : ref) :
  exists h',
    Ref.register_persona persona h = (Ok tt, h')
    /\ register_persona (deref h persona) (view h) = (Ok tt, view h')
    /\ refs h' = dict_set (refs h) (o_name (objects h persona)) persona
    /\ objects h' = objects h /\ lists h' = lists h.
Proof.
  unfold Ref.register_persona, register_persona.
  heap_step (Ref_getattr_run persona o_name h).
  heap_step (eq_refl :
    Ref.modify (fun h0 => set_refs (dict_set (refs h0)
                                      (o_name (objects h persona)) persona) h0) h
    = (Ok tt, set_refs (dict_set (refs h) (o_name (objects h persona)) persona) h)).
  set (h1 := set_refs _ h).
  rewrite (bind_ok _ _ _ (view h1) tt).
  2:{ unfold modify. f_equal. unfold view, h1, image.
      cbn [refs set_refs rest personas set_personas name deref].
      rewrite map_dict_set. reflexivity. }
  destruct (agree__save_state h1) as (h2 & Rh2 & Rv2 & Q2).
  both_step Rh2 Rv2. clear Rh2 Rv2.
  destruct (agree_print ("✨ " ++ o_name (objects h persona)
                           ++ " has entered Sanctuary")%string h2)
    as (h3 & Rh3 & Rv3 & Q3).
  exists h3. split; [exact Rh3|]. split; [exact Rv3|].
  destruct Q3 as (-> & -> & ->). destruct Q2 as (-> & -> & ->).
  repeat split.
Qed.

(** ** Any sequence of calls agrees *)

(** X29. On a heap without sharing the engine over references and the
    engine over values are the same engine: any sequence of calls returns
    normally on the heap, the by-value reading of the heap it leaves is
    the world the by-value engine leaves when started from the by-value
    reading of the initial heap (store, event log, documents, console,
    clock and random source alike), and the heap is still without
    sharing. *)
Theorem engines_agree_without_sharing (cs : list call) (h : Heap) :
  unshared h ->
  Ref.result (Ref.run_calls cs) h = Ok tt
  /\ view (Ref.exec (Ref.run_calls cs) h) = exec (run_calls cs) (view h)
  /\ unshared (Ref.exec (Ref.run_calls cs) h).
Proof.
  revert h. induction cs as [|c cs IH]; intros h U.
  - split; [reflexivity|]. split; [reflexivity | exact U].
  - destruct (agree_log_invocation h (call_name c) (call_context c)
                (call_tags c) (call_weight c) U)
      as (h1 & Rh & Rv & U1 & _).
    destruct (IH h1 U1) as (R & V & U').
    unfold Ref.result, Ref.exec, exec in *.
    cbn [Ref.run_calls run_calls]. unfold Ref.run_call, run_call.
    rewrite (Ref_bind_ok _ _ _ _ _ Rh), (bind_ok _ _ _ _ _ Rv).
    auto.
Qed.

Lemma twins_unshared : unshared Ref.twins.
Proof.
  assert (R : refs Ref.twins = [("X"%string, 0%nat); ("Y"%string, 1%nat)])
    by (vm_compute; reflexivity).
  assert (MX : mutable_lists (objects Ref.twins 0%nat) = [2; 3; 4]%nat)
    by (vm_compute; reflexivity).
  assert (MY : mutable_lists (objects Ref.twins 1%nat) = [5; 6; 7]%nat)
    by (vm_compute; reflexivity).
  assert (IX : identity_lists (objects Ref.twins 0%nat) = [0; 1]%nat)
    by (vm_compute; reflexivity).
  assert (IY : identity_lists (objects Ref.twins 1%nat) = [0; 1]%nat)
    by (vm_compute; reflexivity).
  assert (Get : forall k r, dict_get (refs Ref.twins) k = Some r ->
                  (k = "X"%string /\ r = 0%nat) \/ (k = "Y"%string /\ r = 1%nat)).
  { intros k r G. rewrite R in G. cbn [dict_get] in G.
    destruct (String.eqb_spec k "X"); [left; split; congruence|].
    destruct (String.eqb_spec k "Y"); [right; split; congruence|].
    discriminate G. }
  unfold unshared, all_lists. rewrite R. split; [|split].
  - cbn [dict_keys map fst]. repeat constructor; cbn [In]; intuition discriminate.
  - intros k r G. rewrite <- R in G.
    destruct (Get k r G) as [(-> & ->)|(-> & ->)];
      rewrite ?MX, ?MY, ?IX, ?IY;
      (split; [repeat constructor; cbn [In]; lia | cbn [In]; lia]).
  - intros k1 r1 k2 r2 N G1 G2 a. rewrite <- R in G1, G2.
    destruct (Get k1 r1 G1) as [(-> & ->)|(-> & ->)];
      destruct (Get k2 r2 G2) as [(-> & ->)|(-> & ->)];
      try contradiction;
      rewrite ?MX, ?MY, ?IX, ?IY; cbn [In app]; lia.
Qed.

Lemma engines_agree_without_sharing_witness :
  view (Ref.exec (Ref.run_calls [Ref.call_X; Ref.call_Y]) Ref.twins)
  = exec (run_calls [Ref.call_X; Ref.call_Y]) (view Ref.twins).
Proof.
  exact (proj1 (proj2 (engines_agree_without_sharing
                         [Ref.call_X; Ref.call_Y] Ref.twins twins_unshared))).
Defined.
